(** * The A121 distance detector: planner, processor and detector life cycle

    A shallow embedding of
    [acconeer/exptool/a121/algo/distance/_processors.py] and
    [acconeer/exptool/a121/algo/distance/_detector.py].

    Number model.  Python/NumPy floats are read as exact numbers: rationals
    [Q] wherever the code only adds, multiplies, divides, compares and
    truncates (these definitions compute), and reals [R] where it calls
    [np.sqrt], [np.log10] or [**].  Rounding error, overflow to [inf] and
    signed zeros are outside the model; [NaN] is modelled where the code
    produces or tests it. *)

From Stdlib Require Import String ZArith QArith Qround Qabs List Bool Lia Lqa.
From Stdlib Require Import Reals Lra Psatz.
Import ListNotations.
Open Scope Z_scope.

Set Implicit Arguments.

(** ** Python and NumPy behaviour the code relies on *)

Module Py.

(** The exceptions the two files raise, plus [ExternalError] for whatever
    the sensor link, the recorder or the aggregator raise themselves
    ([code] tells such errors apart). *)
Inductive exn : Type :=
| ValueError (msg : string)
| RuntimeError (msg : string)
| Exception (msg : string)
| IndexError
| AssertionError
| ZeroDivisionError
| ExternalError (code : Z).

Inductive result (A : Type) : Type :=
| Ok (a : A)
| Raise (e : exn).
Arguments Ok {A} a.
Arguments Raise {A} e.

Definition bind {A B} (r : result A) (k : A -> result B) : result B :=
  match r with
  | Ok a => k a
  | Raise e => Raise e
  end.

Definition is_ok {A} (r : result A) : bool :=
  match r with Ok _ => true | Raise _ => false end.

(** What a call into a collaborator outside the two files comes back
    with: a value, or a failure of its own. *)
Inductive reply (A : Type) : Type :=
| Reply (a : A)
| Fail (code : Z).
Arguments Reply {A} a.
Arguments Fail {A} code.

(** [for x in xs: body], where the body may raise. *)
Fixpoint mapM {A B} (f : A -> result B) (xs : list A) : result (list B) :=
  match xs with
  | [] => Ok []
  | x :: xs' =>
      bind (f x) (fun y => bind (mapM f xs') (fun ys => Ok (y :: ys)))
  end.

(** [l[i]] for [i >= 0]. *)
Definition getitem {A} (l : list A) (i : nat) : result A :=
  match nth_error l i with
  | Some a => Ok a
  | None => Raise IndexError
  end.

(** [l[i]] for any integer [i]: a negative index counts from the end. *)
Definition getitem_int {A} (l : list A) (i : Z) : result A :=
  let n := Z.of_nat (length l) in
  if (i <? - n) || (n <=? i) then Raise IndexError
  else getitem l (Z.to_nat (if i <? 0 then i + n else i)).

(** [l[i] = v] for any integer [i]. *)
Fixpoint set_nth {A} (l : list A) (i : nat) (v : A) : list A :=
  match l, i with
  | [], _ => []
  | _ :: l', O => v :: l'
  | x :: l', S i' => x :: set_nth l' i' v
  end.

Definition setitem_int {A} (l : list A) (i : Z) (v : A) : result (list A) :=
  let n := Z.of_nat (length l) in
  if (i <? - n) || (n <=? i) then Raise IndexError
  else Ok (set_nth l (Z.to_nat (if i <? 0 then i + n else i)) v).

(** [np.arange(start, stop)] on integers. *)
Definition np_arange (start stop : Z) : list Z :=
  map (fun i => start + Z.of_nat i) (seq 0 (Z.to_nat (stop - start))).

Definition Qltb (a b : Q) : bool := negb (Qle_bool b a).

Definition Qmax' (a b : Q) : Q := if Qle_bool a b then b else a.
Definition Qmin' (a b : Q) : Q := if Qle_bool a b then a else b.

(** [int(x)] of a float: truncation towards zero. *)
Definition int (x : Q) : Z := Z.quot (Qnum x) (Z.pos (Qden x)).

(** [np.round]: to the nearest integer, ties to the even one. *)
Definition np_round (x : Q) : Z :=
  let f := Qfloor x in
  let r := (x - inject_Z f)%Q in
  if Qltb r (1 # 2) then f
  else if Qltb (1 # 2) r then f + 1
  else if Z.even f then f else f + 1.

(** [np.clip(x, lo, hi)] is [minimum(maximum(x, lo), hi)]. *)
Definition np_clip (x lo hi : Z) : Z := Z.min (Z.max x lo) hi.

(** [np.argmin]: the first index holding the least value. *)
Fixpoint np_argmin_from (best : Z) (best_idx idx : nat) (l : list Z) : nat :=
  match l with
  | [] => best_idx
  | x :: l' =>
      if x <? best then np_argmin_from x idx (S idx) l'
      else np_argmin_from best best_idx (S idx) l'
  end.

Definition np_argmin (l : list Z) : nat :=
  match l with
  | [] => O
  | x :: l' => np_argmin_from x O 1%nat l'
  end.

(** [np.linspace(start, stop, num)] for [num >= 2]. *)
Definition np_linspace (start stop : Q) (num : nat) : list Q :=
  let step := ((stop - start) / inject_Z (Z.of_nat num - 1))%Q in
  map (fun i => (start + inject_Z (Z.of_nat i) * step)%Q) (seq 0 num).

(** [l[a:b]] with Python's treatment of negative and out-of-range bounds. *)
Definition slice_bound (n i : Z) : Z :=
  if i <? 0 then Z.max 0 (i + n) else Z.min i n.

Definition slice {A} (l : list A) (a b : Z) : list A :=
  let n := Z.of_nat (length l) in
  let a' := slice_bound n a in
  let b' := slice_bound n b in
  firstn (Z.to_nat (b' - a')) (skipn (Z.to_nat a') l).

End Py.

Import Py.

Notation "x <- c1 ;; c2" := (Py.bind c1 (fun x => c2))
  (at level 61, c1 at next level, right associativity).

(** ** The parts of [acconeer.exptool.a121] the two files use *)

Module a121.

Inductive Profile : Type :=
| PROFILE_1 | PROFILE_2 | PROFILE_3 | PROFILE_4 | PROFILE_5.

Inductive PRF : Type :=
| PRF_19_5_MHz | PRF_13_0_MHz | PRF_8_7_MHz | PRF_6_5_MHz.

Definition Profile_eqb (a b : Profile) : bool :=
  match a, b with
  | PROFILE_1, PROFILE_1 | PROFILE_2, PROFILE_2 | PROFILE_3, PROFILE_3
  | PROFILE_4, PROFILE_4 | PROFILE_5, PROFILE_5 => true
  | _, _ => false
  end.

Definition PRF_eqb (a b : PRF) : bool :=
  match a, b with
  | PRF_19_5_MHz, PRF_19_5_MHz | PRF_13_0_MHz, PRF_13_0_MHz
  | PRF_8_7_MHz, PRF_8_7_MHz | PRF_6_5_MHz, PRF_6_5_MHz => true
  | _, _ => false
  end.

(** [prf.frequency], in kHz. *)
Definition PRF_frequency (prf : PRF) : Z :=
  match prf with
  | PRF_19_5_MHz => 19500
  | PRF_13_0_MHz => 13000
  | PRF_8_7_MHz => 8700
  | PRF_6_5_MHz => 6500
  end.

(** [a121.SubsweepConfig]: the fields the two files pass or read.  A field
    the caller leaves out keeps the library default, written [None]. *)
Record SubsweepConfig : Type := {
  start_point : Z;
  num_points : Z;
  step_length : Z;
  profile : Profile;
  hwaas : Z;
  receiver_gain : Z;
  phase_enhancement : bool;
  enable_loopback : option bool;
  prf : option PRF
}.

Record SensorConfig : Type := {
  subsweeps : list SubsweepConfig;
  sweeps_per_frame : Z
}.

(** An extended session configuration: a list of groups, each a dictionary
    from sensor id to sensor configuration. *)
Record SessionConfig : Type := {
  groups : list (list (Z * SensorConfig));
  extended : bool
}.

(** [a121.SessionConfig(groups, extended=True)]: the unit tests of the
    library pin that an empty list of groups is refused. *)
Definition SessionConfig_new (gs : list (list (Z * SensorConfig)))
    (ext : bool) : result SessionConfig :=
  match gs with
  | [] => Raise (ValueError "empty session config")
  | _ => Ok {| groups := gs; extended := ext |}
  end.

End a121.

Import a121.

(** ** [_processors.py] *)

Inductive ProcessorMode : Type :=
| DISTANCE_ESTIMATION | LEAKAGE_CALIBRATION | RECORDED_THRESHOLD_CALIBRATION.

Inductive ThresholdMethod : Type :=
| CFAR | FIXED | RECORDED.

Definition ProcessorMode_eqb (a b : ProcessorMode) : bool :=
  match a, b with
  | DISTANCE_ESTIMATION, DISTANCE_ESTIMATION
  | LEAKAGE_CALIBRATION, LEAKAGE_CALIBRATION
  | RECORDED_THRESHOLD_CALIBRATION, RECORDED_THRESHOLD_CALIBRATION => true
  | _, _ => false
  end.

Definition ThresholdMethod_eqb (a b : ThresholdMethod) : bool :=
  match a, b with
  | CFAR, CFAR | FIXED, FIXED | RECORDED, RECORDED => true
  | _, _ => false
  end.

Module Processor.

Definition ENVELOPE_WIDTH_M (p : Profile) : Q :=
  match p with
  | PROFILE_1 => 0.04
  | PROFILE_2 => 0.07
  | PROFILE_3 => 0.14
  | PROFILE_4 => 0.19
  | PROFILE_5 => 0.32
  end.

Definition APPROX_BASE_STEP_LENGTH_M : Q := 2.5e-3.
Definition CFAR_GUARD_LENGTH_ADJUSTMENT : Q := 2.
Definition CFAR_WINDOW_LENGTH_ADJUSTMENT : Q := 0.25.

Record ProcessorConfig : Type := {
  processor_mode : ProcessorMode;
  threshold_method : ThresholdMethod;
  sc_bg_num_std_dev : Q;
  fixed_threshold_value : Q;
  cfar_guard_length_m : option Q;
  cfar_window_length_m : option Q;
  cfar_sensitivity : Q;
  cfar_one_sided : bool
}.


Record ProcessorContext : Type := {
  recorded_threshold : option (list Q);
  abs_noise_std : option Q
}.

(** *** Validation of the selected subsweeps *)

(** [{f(c) for c in subsweep_configs}], as the list of distinct values in
    order of first occurrence. *)
Fixpoint distinct {A} (eqb : A -> A -> bool) (l : list A) : list A :=
  match l with
  | [] => []
  | x :: l' => x :: filter (fun y => negb (eqb x y)) (distinct eqb l')
  end.

(** [(x,) = s] after the guard [len(s) > 1]: unpacking the empty set raises
    ValueError as well. *)
Definition unpack_single {A} (s : list A) : result A :=
  match s with
  | [x] => Ok x
  | _ => Raise (ValueError "")
  end.

Definition _get_profile (subsweep_configs : list SubsweepConfig)
    : result Profile :=
  let profiles := distinct Profile_eqb (map a121.profile subsweep_configs) in
  if (1 <? length profiles)%nat then Raise (ValueError "")
  else unpack_single profiles.

Definition _get_step_length (subsweep_configs : list SubsweepConfig)
    : result Z :=
  let step_lengths := distinct Z.eqb (map a121.step_length subsweep_configs) in
  if (1 <? length step_lengths)%nat then Raise (ValueError "")
  else unpack_single step_lengths.

Definition _get_start_point (subsweep_configs : list SubsweepConfig)
    : result Z :=
  c <- getitem subsweep_configs 0 ;; Ok (a121.start_point c).

Definition _get_num_points (subsweep_configs : list SubsweepConfig) : Z :=
  fold_left Z.add (map a121.num_points subsweep_configs) 0.

(** The loop of [_validate_range]; [next_expected_start_point] is [None]
    before the first subsweep. *)
Fixpoint _validate_range_loop (step_length : Z)
    (next_expected_start_point : option Z)
    (subsweep_configs : list SubsweepConfig) : result unit :=
  match subsweep_configs with
  | [] => Ok tt
  | c :: rest =>
      let continue_ :=
        _validate_range_loop step_length
          (Some (a121.start_point c + a121.num_points c * step_length)) rest in
      match next_expected_start_point with
      | Some expected =>
          if negb (a121.start_point c =? expected) then Raise (ValueError "")
          else continue_
      | None => continue_
      end
  end.

Definition _validate_range (subsweep_configs : list SubsweepConfig)
    : result unit :=
  step_length <- _get_step_length subsweep_configs ;;
  _validate_range_loop step_length None subsweep_configs.

Fixpoint _validate_phase (subsweep_configs : list SubsweepConfig)
    : result unit :=
  match subsweep_configs with
  | [] => Ok tt
  | c :: rest =>
      if negb (a121.phase_enhancement c) then Raise (ValueError "")
      else _validate_phase rest
  end.

Definition _validate (subsweep_configs : list SubsweepConfig) : result unit :=
  _ <- _validate_range subsweep_configs ;;
  _validate_phase subsweep_configs.

(** [distance_filter_init_margin]: [(margin_m, margin_p)].  The quotient
    is one of Python floats: a zero step length raises. *)
Definition distance_filter_init_margin (profile : Profile) (step_length : Z)
    : result (Q * Z) :=
  if step_length =? 0 then Raise ZeroDivisionError
  else
    let margin_p :=
      Qceiling (ENVELOPE_WIDTH_M profile
                / (APPROX_BASE_STEP_LENGTH_M * inject_Z step_length)) in
    let margin_m :=
      (inject_Z margin_p * APPROX_BASE_STEP_LENGTH_M * inject_Z step_length)%Q in
    Ok (margin_m, margin_p).

(** *** Construction *)

Definition _get_subsweep_configs (sensor_config : SensorConfig)
    (subsweep_indexes : list Z) : result (list SubsweepConfig) :=
  mapM (getitem_int (subsweeps sensor_config)) subsweep_indexes.

(** The attributes [__init__] derives from the subsweep selection. *)
Record Attributes : Type := {
  profile : Profile;
  step_length : Z;
  approx_step_length_m : Q;
  start_point : Z;
  num_points : Z;
  step_length_m : Q;
  margin_p : Z;
  start_point_cropped : Z;
  num_points_cropped : Z;
  distances_m : list Q
}.

(** [Processor.__init__] from its first statement down to [distances_m]:
    selection and validation of the subsweeps, and the attributes derived
    from them.  [base_step_length_m] is [metadata.base_step_length_m].
    What follows in [__init__] (the filter design by [scipy.signal.butter]
    and the set-up of the chosen mode) is reached only when this part
    returns. *)
Definition __init__ (sensor_config : SensorConfig)
    (base_step_length_m : option Q) (subsweep_indexes : option (list Z))
    : result Attributes :=
  let subsweep_indexes :=
    match subsweep_indexes with
    | None => np_arange 0 (Z.of_nat (length (subsweeps sensor_config)))
    | Some l => l
    end in
  subsweep_configs <- _get_subsweep_configs sensor_config subsweep_indexes ;;
  _ <- _validate subsweep_configs ;;
  profile <- _get_profile subsweep_configs ;;
  step_length <- _get_step_length subsweep_configs ;;
  let approx_step_length_m :=
    (inject_Z step_length * APPROX_BASE_STEP_LENGTH_M)%Q in
  start_point <- _get_start_point subsweep_configs ;;
  let num_points := _get_num_points subsweep_configs in
  base <- match base_step_length_m with
          | None => Raise AssertionError
          | Some base => Ok base
          end ;;
  let step_length_m := (inject_Z step_length * base)%Q in
  margin <- distance_filter_init_margin profile step_length ;;
  let margin_p := snd margin in
  let start_point_cropped := start_point + margin_p in
  let num_points_cropped := num_points - 2 * margin_p in
  Ok {| profile := profile;
        step_length := step_length;
        approx_step_length_m := approx_step_length_m;
        start_point := start_point;
        num_points := num_points;
        step_length_m := step_length_m;
        margin_p := margin_p;
        start_point_cropped := start_point_cropped;
        num_points_cropped := num_points_cropped;
        distances_m :=
          map (fun i =>
                 (inject_Z (start_point_cropped + i * step_length) * base)%Q)
            (np_arange 0 num_points_cropped) |}.

(** *** Recorded-threshold calibration *)


(** The [ProcessorResult] of this mode: [recorded_threshold] and
    [extra_result.abs_sweep]; the other fields keep their default. *)
Module ProcessorResult.
Record t : Type := {
  recorded_threshold : option (list R);
  extra_result_abs_sweep : list R
}.
End ProcessorResult.



(** [np.zeros(n)] and [np.full(n, v)]: a negative [n] is refused. *)
Definition np_full {A} (n : Z) (v : A) : result (list A) :=
  if n <? 0 then Raise (ValueError "negative dimensions are not allowed")
  else Ok (repeat v (Z.to_nat n)).




(** *** Set-up of distance estimation *)

(** What [_init_process_distance_estimation] stores: the threshold array
    for the fixed and recorded methods, the CFAR parameters otherwise. *)
Inductive ThresholdSetup : Type :=
| StoredThreshold (threshold : list Q)
| CfarSetup (cfar_guard_length_m cfar_window_length_m : Q)
    (cfar_one_sided : bool) (cfar_sensitivity : Q) (idx_cfar_pts : list Z).

Definition _init_process_distance_estimation (attrs : Attributes)
    (processor_config : ProcessorConfig) (context : option ProcessorContext)
    : result ThresholdSetup :=
  match threshold_method processor_config with
  | RECORDED =>
      match context with
      | Some {| recorded_threshold := Some thr |} => Ok (StoredThreshold thr)
      | _ => Raise (ValueError "Missing recorded threshold in context")
      end
  | FIXED =>
      thr <- np_full (num_points_cropped attrs)
               (fixed_threshold_value processor_config) ;;
      Ok (StoredThreshold thr)
  | CFAR =>
      let guard_m :=
        match cfar_guard_length_m processor_config with
        | None => (ENVELOPE_WIDTH_M (profile attrs)
                   * CFAR_GUARD_LENGTH_ADJUSTMENT)%Q
        | Some g => g
        end in
      let window_m :=
        match cfar_window_length_m processor_config with
        | None => (ENVELOPE_WIDTH_M (profile attrs)
                   * CFAR_WINDOW_LENGTH_ADJUSTMENT)%Q
        | Some w => w
        end in
      if Qeq_bool (step_length_m attrs) 0
         || Qeq_bool (approx_step_length_m attrs) 0 then
        Raise ZeroDivisionError
      else
        let guard_half_length :=
          np_round (guard_m / 2.0 / step_length_m attrs) in
        let window_length :=
          np_round (window_m / approx_step_length_m attrs) in
        Ok (CfarSetup guard_m window_m (cfar_one_sided processor_config)
              (cfar_sensitivity processor_config)
              (map (fun i => guard_half_length + i)
                 (np_arange 0 window_length)))
  end.

(** *** CFAR threshold *)

(** A threshold array: [None] is NaN. *)
Definition threshold_array : Type := list (option Q).

Definition np_max (l : list Z) : result Z :=
  match l with
  | [] => Raise (ValueError "zero-size array to reduction operation maximum")
  | x :: l' => Ok (fold_left Z.max l' x)
  end.

(** [np.take(a, indexes)] with the default mode: an index out of bounds
    raises. *)
Definition np_take (a : list Q) (indexes : list Z) : result (list Q) :=
  mapM (getitem_int a) indexes.

(** [np.mean] of a non-empty array. *)
Definition np_mean (l : list Q) : Q :=
  (fold_left Qplus l 0 / inject_Z (Z.of_nat (length l)))%Q.

Definition _calculate_cfar_threshold (abs_sweep : list Q)
    (idx_cfar_pts : list Z) (alpha : Q) (one_side : bool)
    (abs_noise_std : option Q) : result threshold_array :=
  let threshold : threshold_array := repeat None (length abs_sweep) in
  start_idx <- np_max idx_cfar_pts ;;
  let size := Z.of_nat (length abs_sweep) in
  let take_relative_indexes :=
    if one_side then map Z.opp idx_cfar_pts
    else map Z.opp idx_cfar_pts ++ idx_cfar_pts in
  let end_idx := if one_side then size else size - start_idx in
  threshold <-
    fold_left
      (fun acc idx =>
         threshold <- acc ;;
         let take_indexes := map (fun r => idx + r) take_relative_indexes in
         taken <- np_take abs_sweep take_indexes ;;
         setitem_int threshold idx (Some (np_mean taken)))
      (np_arange start_idx end_idx) (Ok threshold) ;;
  let threshold :=
    match abs_noise_std with
    | Some std => map (option_map (fun t => (t + std)%Q)) threshold
    | None => threshold
    end in
  if Qeq_bool (alpha + 1e-10) 0 then Raise ZeroDivisionError
  else
    Ok (map (option_map (fun t => (t * (1.0 / (alpha + 1e-10)))%Q)) threshold).

(** *** Peak search *)

Definition isnan (t : option Q) : bool :=
  match t with None => true | Some _ => false end.

(** [x <= t] and the like against a threshold value: any comparison with
    NaN is false. *)
Definition le_threshold (x : Q) (t : option Q) : bool :=
  match t with Some t' => Qle_bool x t' | None => false end.

(** [np.argmax]: the first index holding the greatest value. *)
Fixpoint np_argmax_from (best : Q) (best_idx idx : nat) (l : list Q) : nat :=
  match l with
  | [] => best_idx
  | x :: l' =>
      if Qltb best x then np_argmax_from x idx (S idx) l'
      else np_argmax_from best best_idx (S idx) l'
  end.

Definition np_argmax (l : list Q) : nat :=
  match l with
  | [] => O
  | x :: l' => np_argmax_from x O 1%nat l'
  end.

Inductive inner_exit : Type :=
| Break (d_upper : nat)
| Found (peak d_upper : nat).

(** The inner [while True] of [_find_peaks], entered with [d_upper]. *)
Fixpoint find_peaks_inner (fuel : nat) (abs_sweep : list Q)
    (threshold : threshold_array) (d d_upper : nat)
    : option (result inner_exit) :=
  match fuel with
  | O => None
  | S fuel' =>
      let N := length abs_sweep in
      if (N - 1 <=? d_upper)%nat then Some (Ok (Break d_upper))
      else
        match getitem threshold d_upper with
        | Raise e => Some (Raise e)
        | Ok t_upper =>
            if isnan t_upper then Some (Ok (Break d_upper))
            else if le_threshold (nth d_upper abs_sweep 0%Q) t_upper then
              Some (Ok (Break d_upper))
            else if Qltb (nth d abs_sweep 0%Q) (nth d_upper abs_sweep 0%Q) then
              Some (Ok (Break d_upper))
            else if Qltb (nth d_upper abs_sweep 0%Q) (nth d abs_sweep 0%Q) then
              Some (Ok (Found
                          (np_argmax
                             (Py.slice abs_sweep (Z.of_nat d)
                                (Z.of_nat d_upper)) + d)%nat
                          d_upper))
            else find_peaks_inner fuel' abs_sweep threshold d (S d_upper)
        end
  end.

(** The outer [while d < N - 1]. *)
Fixpoint find_peaks_outer (fuel : nat) (abs_sweep : list Q)
    (threshold : threshold_array) (d : nat) (found_peaks : list nat)
    : option (result (list nat)) :=
  match fuel with
  | O => None
  | S fuel' =>
      let N := length abs_sweep in
      if negb (d + 1 <? N)%nat then Some (Ok found_peaks)
      else
        match getitem threshold (d - 1) with
        | Raise e => Some (Raise e)
        | Ok t_prev =>
            if isnan t_prev then
              find_peaks_outer fuel' abs_sweep threshold (d + 1) found_peaks
            else
              match getitem threshold (d + 1) with
              | Raise e => Some (Raise e)
              | Ok t_next =>
                  if isnan t_next then Some (Ok found_peaks)
                  else
                    match getitem threshold d with
                    | Raise e => Some (Raise e)
                    | Ok t_d =>
                        if le_threshold (nth d abs_sweep 0%Q) t_d then
                          find_peaks_outer fuel' abs_sweep threshold (d + 2)
                            found_peaks
                        else if le_threshold (nth (d - 1) abs_sweep 0%Q) t_prev
                        then
                          find_peaks_outer fuel' abs_sweep threshold (d + 1)
                            found_peaks
                        else if Qle_bool (nth d abs_sweep 0%Q)
                                  (nth (d - 1) abs_sweep 0%Q) then
                          find_peaks_outer fuel' abs_sweep threshold (d + 1)
                            found_peaks
                        else
                          match find_peaks_inner fuel' abs_sweep threshold d
                                  (d + 1) with
                          | None => None
                          | Some (Raise e) => Some (Raise e)
                          | Some (Ok (Break d_upper)) =>
                              find_peaks_outer fuel' abs_sweep threshold
                                d_upper found_peaks
                          | Some (Ok (Found peak d_upper)) =>
                              find_peaks_outer fuel' abs_sweep threshold
                                d_upper (found_peaks ++ [peak])
                          end
                    end
              end
        end
  end.

(** [_find_peaks].  Each round of either loop moves its index up, so
    [length abs_sweep + 1] rounds are enough; the [None] case below is
    shown unreachable ([find_peaks_outer_fuel]). *)
Definition _find_peaks (abs_sweep : list Q) (threshold : option threshold_array)
    : result (list nat) :=
  match threshold with
  | None => Raise (ValueError "")
  | Some threshold =>
      match find_peaks_outer (length abs_sweep + 1) abs_sweep threshold 1 []
      with
      | Some r => r
      | None => Ok []
      end
  end.

(** *** Peak interpolation *)

(** One round of the loop of [_interpolate_peaks]: the distance and the
    amplitude appended for [peak_idx].  A float that is not finite (the
    quotient by [2 * a] when [a] is zero, and what is computed from it) is
    [None]. *)
Definition interpolate_peak (abs_sweep : list Q) (peak_idx start_point
    step_length : Z) : result (option Q * option Q) :=
  let x0 := inject_Z (peak_idx - 1) in
  let x1 := inject_Z peak_idx in
  let x2 := inject_Z (peak_idx + 1) in
  let y := Py.slice abs_sweep (peak_idx - 1) (peak_idx + 2) in
  y2 <- getitem y 2 ;;
  y1 <- getitem y 1 ;;
  y0 <- getitem y 0 ;;
  let a := ((x0 * (y2 - y1) + x1 * (y0 - y2) + x2 * (y1 - y0))
            / ((x0 - x1) * (x0 - x2) * (x1 - x2)))%Q in
  let b := ((y1 - y0) / (x1 - x0) - a * (x0 + x1))%Q in
  let c := (y0 - a * x0 ^ 2 - b * x0)%Q in
  if Qeq_bool a 0 then Ok (None, None)
  else
    let peak_loc := (- b / (2 * a))%Q in
    Ok (Some ((inject_Z start_point + peak_loc * inject_Z step_length) * 2.5)%Q,
        Some (a * peak_loc ^ 2 + b * peak_loc + c)%Q).

Definition _interpolate_peaks (abs_sweep : list Q) (peak_idxs : list Z)
    (start_point step_length : Z)
    : result (list (option Q) * list (option Q)) :=
  r <- mapM (fun peak_idx =>
               interpolate_peak abs_sweep peak_idx start_point step_length)
         peak_idxs ;;
  Ok (map fst r, map snd r).

(** *** Distance estimation *)


(** The [ProcessorResult] of distance estimation, with the fields of its
    [extra_result] alongside. *)
Module EstimationResult.
Record t : Type := {
  estimated_distances : list (option Q);
  estimated_amplitudes : list (option Q);
  abs_sweep : list Q;
  used_threshold : threshold_array;
  distances_m : list Q
}.
End EstimationResult.


End Processor.

(** ** What the detector imports from [_processors.py] and [_aggregator.py] *)

Inductive MeasurementType : Type :=
| CLOSE_RANGE | FAR_RANGE.

Inductive PeakSortingMethod : Type :=
| STRONGEST | CLOSEST.

Definition MeasurementType_eqb (a b : MeasurementType) : bool :=
  match a, b with
  | CLOSE_RANGE, CLOSE_RANGE | FAR_RANGE, FAR_RANGE => true
  | _, _ => false
  end.

(** Modelled from the spec: the [ProcessorConfig] the detector builds.  The
    declaration is not in the [_processors.py] at hand (which has neither
    [measurement_type] nor [threshold_sensitivity]); the fields are those
    the detector names. *)
Module ProcessorConfig.
Record t : Type := {
  processor_mode : ProcessorMode;
  threshold_method : ThresholdMethod;
  measurement_type : MeasurementType;
  fixed_threshold_value : Q;
  threshold_sensitivity : Q;
  cfar_one_sided : bool
}.
End ProcessorConfig.

(** Modelled from the spec: the [ProcessorContext] the detector fills in:
    optional recorded threshold, direct leakage and phase-jitter
    compensation reference. *)
Module ProcessorContext.
Record t : Type := {
  recorded_threshold : option (list Q);
  direct_leakage : option (list (Q * Q));
  phase_jitter_comp_ref : option (list Q)
}.
End ProcessorContext.

(** Modelled from the spec: the fields of [ProcessorResult] the detector
    reads. *)
Module ProcessorResult.
Record t : Type := {
  recorded_threshold : option (list Q);
  direct_leakage : option (list (Q * Q));
  phase_jitter_comp_reference : option (list Q)
}.
End ProcessorResult.

(** Modelled from the spec: [ProcessorSpec] of [_aggregator.py]: group
    index, sensor id, subsweep indexes, processor configuration and an
    optional processor context. *)
Module ProcessorSpec.
Record t : Type := {
  processor_config : ProcessorConfig.t;
  group_index : Z;
  sensor_id : Z;
  subsweep_indexes : list Z;
  processor_context : option ProcessorContext.t
}.
End ProcessorSpec.

(** ** [_detector.py]: the planner *)

Module Detector.

Record DetectorConfig : Type := {
  start_m : Q;
  end_m : Q;
  max_step_length : option Z;
  max_profile : Profile;
  signal_quality : Q;
  threshold_method : ThresholdMethod;
  peaksorting_method : PeakSortingMethod;
  num_frames_in_recorded_threshold : Z;
  fixed_threshold_value : Q;
  threshold_sensitivity : Q;
  cfar_one_sided : bool
}.

Record SubsweepGroupPlan : Type := {
  step_length : Z;
  breakpoints : list Z;
  profile : Profile;
  hwaas : list Z
}.

(** [Dict[MeasurementType, List[SubsweepGroupPlan]]]: a key is present
    exactly when its entry is [Some]. *)
Record Plan : Type := {
  close_range : option (list SubsweepGroupPlan);
  far_range : option (list SubsweepGroupPlan)
}.

Definition MAX_MEAS_DIST_M : list (PRF * Q) :=
  [ (PRF_19_5_MHz, 3.1); (PRF_13_0_MHz, 7.0);
    (PRF_8_7_MHz, 12.7); (PRF_6_5_MHz, 18.5) ]%Q.

Definition all_profiles : list Profile :=
  [PROFILE_1; PROFILE_2; PROFILE_3; PROFILE_4; PROFILE_5].

Definition MIN_DIST_M (p : Profile) : Q :=
  match p with
  | PROFILE_1 => 0.10
  | PROFILE_2 => 0.28
  | PROFILE_3 => 0.56
  | PROFILE_4 => 0.76
  | PROFILE_5 => 1.28
  end.

Definition MIN_NUM_POINTS_IN_ENVELOPE_FWHM_SPAN : Q := 4.0.
Definition VALID_STEP_LENGTHS_IN_COARSE : list Z := [1; 2; 3; 4; 6; 8; 12; 24].
Definition NUM_POINTS_IN_COARSE : Z := 24.
Definition NUM_SUBSWEEPS_IN_SENSOR_CONFIG : nat := 4.
Definition MAX_HWAAS : Z := 511.
Definition MIN_HWAAS : Z := 4.

Definition RLG_PER_HWAAS_MAP (p : Profile) : Q :=
  match p with
  | PROFILE_1 => 11.3
  | PROFILE_2 => 13.7
  | PROFILE_3 => 19.0
  | PROFILE_4 => 20.5
  | PROFILE_5 => 21.6
  end.

(** [np.log10]. *)
Definition log10 (x : R) : R := (ln x / ln 10)%R.

(** [int(10 ** ((rlg - rlg_per_hwaas) / 10))] for one segment end point.
    The end point is an integer number of points, so its sign is decided
    on [Z]: a negative end point makes [np.log10] return NaN and [int]
    raise; at zero [np.log10] is [-inf], the power is [0.0]. *)
Definition hwaas_in_subsweep (rlg_per_hwaas : Q) (breakpoint : Z)
    (signal_quality : Q) : result Z :=
  if breakpoint <? 0 then
    Raise (ValueError "cannot convert float NaN to integer")
  else if breakpoint =? 0 then Ok 0
  else
    let subsweep_end_point_m :=
      (Q2R Processor.APPROX_BASE_STEP_LENGTH_M * IZR breakpoint)%R in
    let rlg := (Q2R signal_quality + 40 * log10 subsweep_end_point_m)%R in
    Ok (Int_part (Rpower 10 ((rlg - Q2R rlg_per_hwaas) / 10))).

Definition _calculate_hwaas (profile : Profile) (breakpoints : list Z)
    (signal_quality : Q) : result (list Z) :=
  let rlg_per_hwaas := RLG_PER_HWAAS_MAP profile in
  mapM
    (fun idx =>
       bp <- getitem breakpoints (idx + 1) ;;
       hwaas_in_subsweep <- hwaas_in_subsweep rlg_per_hwaas bp signal_quality ;;
       Ok (np_clip hwaas_in_subsweep MIN_HWAAS MAX_HWAAS))
    (seq 0 (length breakpoints - 1)).

(** [_m_to_points].  When the span is zero NumPy evaluates [0/0] and
    returns NaN break points, which no integer list can hold; every caller
    hands the result straight to [_calculate_hwaas], whose [int()] raises
    ValueError on NaN, so that error is raised here. *)
Definition _m_to_points (breakpoints_m : list Q) (step_length : Z)
    : result (list Z) :=
  match breakpoints_m with
  | [] => Raise IndexError
  | first :: _ =>
      let last_ := last breakpoints_m first in
      let start_point :=
        Py.int (first / Processor.APPROX_BASE_STEP_LENGTH_M) in
      let num_steps :=
        ((last_ - first) / Processor.APPROX_BASE_STEP_LENGTH_M)%Q in
      if Qeq_bool (last_ - first) 0 then
        Raise (ValueError "cannot convert float NaN to integer")
      else
        let bpts :=
          map (fun m => (num_steps / (last_ - first) * (m - first)
                         + inject_Z start_point)%Q) breakpoints_m in
        Ok (map (fun bpt =>
                   Qfloor (bpt / inject_Z step_length) * step_length) bpts)
  end.

(** Names the detector imports from [_processors.py] that the
    [_processors.py] at hand does not define: the table
    [Processor.ENVELOPE_FWHM_M], the helpers [Processor.calc_cfar_margin]
    and [Processor.distance_filter_edge_margin], and three defaults of
    [DetectorConfig].  The planner is stated for any values of them. *)
Record ProcessorImports : Type := {
  ENVELOPE_FWHM_M : Profile -> Q;
  calc_cfar_margin : Profile -> Z -> Z;
  distance_filter_edge_margin : Profile -> Z -> Z;
  DEFAULT_FIXED_THRESHOLD_VALUE : Q;
  DEFAULT_THRESHOLD_SENSITIVITY : Q;
  DEFAULT_CFAR_ONE_SIDED : bool
}.

Section Planner.

Variable imports : ProcessorImports.

(** [DetectorConfig()] with every field at its default. *)
Definition DetectorConfig_default : DetectorConfig := {|
  start_m := 0.2;
  end_m := 1.0;
  max_step_length := None;
  max_profile := PROFILE_5;
  signal_quality := 18.0;
  threshold_method := CFAR;
  peaksorting_method := STRONGEST;
  num_frames_in_recorded_threshold := 20;
  fixed_threshold_value := DEFAULT_FIXED_THRESHOLD_VALUE imports;
  threshold_sensitivity := DEFAULT_THRESHOLD_SENSITIVITY imports;
  cfar_one_sided := DEFAULT_CFAR_ONE_SIDED imports
|}.

Definition _limit_step_length (profile : Profile) (user_limit : option Z)
    : Z :=
  let fwhm_p :=
    (ENVELOPE_FWHM_M imports profile
     / Processor.APPROX_BASE_STEP_LENGTH_M)%Q in
  let limit := Py.int (fwhm_p / MIN_NUM_POINTS_IN_ENVELOPE_FWHM_SPAN) in
  let limit :=
    match user_limit with
    | Some user_limit => Z.min user_limit limit
    | None => limit
    end in
  if limit <? NUM_POINTS_IN_COARSE then
    let idx_closest :=
      np_argmin
        (map (fun v => Z.abs (v - limit)) VALID_STEP_LENGTHS_IN_COARSE) in
    nth idx_closest VALID_STEP_LENGTHS_IN_COARSE 0
  else (limit / NUM_POINTS_IN_COARSE) * NUM_POINTS_IN_COARSE.

(** The dictionary [min_dist_m], one entry per profile in the order of
    [MIN_DIST_M], as a function on its keys. *)
Definition _add_to_min_dist_m (config : DetectorConfig) (profile : Profile)
    : Q :=
  let min_dist := MIN_DIST_M profile in
  if ThresholdMethod_eqb (threshold_method config) CFAR then
    let step_length :=
      _limit_step_length profile (max_step_length config) in
    let cfar_margin_m :=
      (inject_Z (calc_cfar_margin imports profile step_length)
       * inject_Z step_length * Processor.APPROX_BASE_STEP_LENGTH_M)%Q in
    (min_dist + cfar_margin_m)%Q
  else min_dist.

Definition _add_margin_to_breakpoints (profile : Profile) (step_length : Z)
    (base_bpts : list Z) (has_neighbour : bool * bool)
    (config : DetectorConfig) : result (list Z) :=
  let margin_p :=
    distance_filter_edge_margin imports profile step_length * step_length in
  let left_margin := margin_p in
  let right_margin := margin_p in
  let left_margin :=
    if fst has_neighbour then left_margin + margin_p else left_margin in
  let right_margin :=
    if snd has_neighbour then right_margin + margin_p else right_margin in
  let cfar_margin :=
    calc_cfar_margin imports profile step_length * step_length in
  let is_cfar := ThresholdMethod_eqb (threshold_method config) CFAR in
  let left_margin :=
    if is_cfar then left_margin + cfar_margin else left_margin in
  let right_margin :=
    if is_cfar then right_margin + cfar_margin else right_margin in
  match base_bpts with
  | [] => Raise IndexError
  | b0 :: rest =>
      let bpts := (b0 - left_margin) :: rest in
      Ok (removelast bpts ++ [last bpts 0 + right_margin])
  end.

Definition mk_plan (step_length : Z) (breakpoints : list Z)
    (profile : Profile) (hwaas : list Z) : SubsweepGroupPlan :=
  {| step_length := step_length; breakpoints := breakpoints;
     profile := profile; hwaas := hwaas |}.

(** The three blocks of [_create_group_plans], each returning the plan
    it appends, if any. *)
Definition close_range_block (config : DetectorConfig) (transition_m : Q)
    : result (option SubsweepGroupPlan) :=
  if Qltb (start_m config) transition_m then
    let profile := PROFILE_1 in
    let step_length := _limit_step_length profile (max_step_length config) in
    breakpoints <- _m_to_points [start_m config; transition_m] step_length ;;
    hwaas <- _calculate_hwaas profile breakpoints (signal_quality config) ;;
    let has_neighbour := (false, Qltb transition_m (end_m config)) in
    extended_breakpoints <-
      _add_margin_to_breakpoints profile step_length breakpoints
        has_neighbour config ;;
    Ok (Some (mk_plan step_length extended_breakpoints profile hwaas))
  else Ok None.

Definition far_range_first_block (config : DetectorConfig)
    (min_dist_m : Profile -> Q) (transition_m : Q) (plans_nonempty : bool)
    : result (option SubsweepGroupPlan) :=
  let far_range_start_m := Qmax' (start_m config) transition_m in
  if negb (Profile_eqb (max_profile config) PROFILE_1)
     && Qltb far_range_start_m (end_m config) then
    let viable_profiles :=
      filter (fun p => Qle_bool (min_dist_m p) far_range_start_m)
        all_profiles in
    profile_to_be_used <-
      match viable_profiles with
      | [] => Raise IndexError
      | p :: _ => Ok (last viable_profiles p)
      end ;;
    let end_m := Qmin' (end_m config) (min_dist_m (max_profile config)) in
    let step_length :=
      _limit_step_length profile_to_be_used (max_step_length config) in
    breakpoints <- _m_to_points [far_range_start_m; end_m] step_length ;;
    hwaas <-
      _calculate_hwaas profile_to_be_used breakpoints
        (signal_quality config) ;;
    let has_neighbour :=
      (plans_nonempty, Qltb (min_dist_m (max_profile config)) end_m) in
    extended_breakpoints <-
      _add_margin_to_breakpoints profile_to_be_used step_length breakpoints
        has_neighbour config ;;
    Ok (Some (mk_plan step_length extended_breakpoints
                profile_to_be_used hwaas))
  else Ok None.

Definition far_range_second_block (config : DetectorConfig)
    (min_dist_m : Profile -> Q) (plans_nonempty : bool)
    (far_subgroup_plans : list SubsweepGroupPlan)
    : result (option SubsweepGroupPlan) :=
  if Qltb (min_dist_m (max_profile config)) (end_m config) then
    let breakpoints_m :=
      np_linspace (min_dist_m (max_profile config)) (end_m config)
        (NUM_SUBSWEEPS_IN_SENSOR_CONFIG + 1 - length far_subgroup_plans) in
    let profile := max_profile config in
    let step_length :=
      _limit_step_length (max_profile config) (max_step_length config) in
    breakpoints <- _m_to_points breakpoints_m step_length ;;
    hwaas <- _calculate_hwaas profile breakpoints (signal_quality config) ;;
    let has_neighbour :=
      (plans_nonempty || negb (length far_subgroup_plans =? 0)%nat, false) in
    extended_breakpoints <-
      _add_margin_to_breakpoints profile step_length breakpoints
        has_neighbour config ;;
    Ok (Some (mk_plan step_length extended_breakpoints profile hwaas))
  else Ok None.

Definition option_to_list {A} (o : option A) : list A :=
  match o with Some a => [a] | None => [] end.

Definition _create_group_plans (config : DetectorConfig) : result Plan :=
  let min_dist_m := _add_to_min_dist_m config in
  let transition_m := min_dist_m PROFILE_1 in
  close <- close_range_block config transition_m ;;
  let plans_nonempty := match close with Some _ => true | None => false end in
  far1 <- far_range_first_block config min_dist_m transition_m
            plans_nonempty ;;
  let far_subgroup_plans := option_to_list far1 in
  far2 <- far_range_second_block config min_dist_m plans_nonempty
            far_subgroup_plans ;;
  let far_subgroup_plans := far_subgroup_plans ++ option_to_list far2 in
  Ok {| close_range :=
          match close with Some p => Some [p] | None => None end;
        far_range :=
          if negb (length far_subgroup_plans =? 0)%nat
          then Some far_subgroup_plans else None |}.

(** *** From plans to the session configuration *)

(** [sorted(viable_prfs, key=lambda prf: prf.frequency)]. *)
Fixpoint insert_by_frequency (prf : PRF) (l : list PRF) : list PRF :=
  match l with
  | [] => [prf]
  | x :: l' =>
      if PRF_frequency prf <? PRF_frequency x then prf :: l
      else x :: insert_by_frequency prf l'
  end.

Definition sorted_by_frequency (l : list PRF) : list PRF :=
  fold_left (fun acc prf => insert_by_frequency prf acc) l [].

Definition _select_prf (breakpoint : Z) (profile : Profile) : result PRF :=
  let max_meas_dist_m := MAX_MEAS_DIST_M in
  let max_meas_dist_m :=
    if existsb (fun kv => PRF_eqb (fst kv) PRF_19_5_MHz) max_meas_dist_m
       && negb (Profile_eqb profile PROFILE_1)
       && negb (Profile_eqb profile PROFILE_2)
    then filter (fun kv => negb (PRF_eqb (fst kv) PRF_19_5_MHz))
           max_meas_dist_m
    else max_meas_dist_m in
  let breakpoint_m :=
    (inject_Z breakpoint * Processor.APPROX_BASE_STEP_LENGTH_M)%Q in
  let viable_prfs :=
    map fst (filter (fun kv => Qltb breakpoint_m (snd kv)) max_meas_dist_m) in
  match sorted_by_frequency viable_prfs with
  | [] => Raise IndexError
  | prf :: rest => Ok (last rest prf)
  end.

(** [int((b1 - b0) / step_length)]; the planner's step lengths are
    positive. *)
Definition num_points_between (b0 b1 step_length : Z) : Z :=
  Py.int (inject_Z (b1 - b0) / inject_Z step_length).

Definition _close_subsweep_group_plans_to_sensor_config
    (plan_ : list SubsweepGroupPlan) : result SensorConfig :=
  plan <- match plan_ with
          | [plan] => Ok plan
          | _ => Raise (ValueError "")
          end ;;
  hwaas0 <- getitem (hwaas plan) 0 ;;
  let loopback := {|
    a121.start_point := 0;
    a121.num_points := 1;
    a121.step_length := 1;
    a121.profile := PROFILE_4;
    a121.hwaas := hwaas0;
    a121.receiver_gain := 15;
    a121.phase_enhancement := true;
    a121.enable_loopback := Some true;
    a121.prf := None |} in
  b1 <- getitem (breakpoints plan) 1 ;;
  b0 <- getitem (breakpoints plan) 0 ;;
  let num_points := num_points_between b0 b1 (step_length plan) in
  prf <- _select_prf b1 (profile plan) ;;
  let ranging := {|
    a121.start_point := b0;
    a121.num_points := num_points;
    a121.step_length := step_length plan;
    a121.profile := profile plan;
    a121.hwaas := hwaas0;
    a121.receiver_gain := 5;
    a121.phase_enhancement := true;
    a121.enable_loopback := None;
    a121.prf := Some prf |} in
  Ok {| subsweeps := [loopback; ranging]; sweeps_per_frame := 10 |}.

(** The inner loop of [_far_...]: one subsweep per pair of consecutive
    break points of [plan], numbered from [subsweep_idx]. *)
Definition far_plan_subsweeps (plan : SubsweepGroupPlan) (subsweep_idx : Z)
    : result (list SubsweepConfig * list Z) :=
  subsweeps <-
    mapM
      (fun bp_idx =>
         b1 <- getitem (breakpoints plan) (bp_idx + 1) ;;
         b0 <- getitem (breakpoints plan) bp_idx ;;
         let num_points := num_points_between b0 b1 (step_length plan) in
         hwaas_i <- getitem (hwaas plan) bp_idx ;;
         prf <- _select_prf b1 (profile plan) ;;
         Ok {| a121.start_point := b0;
               a121.num_points := num_points;
               a121.step_length := step_length plan;
               a121.profile := profile plan;
               a121.hwaas := hwaas_i;
               a121.receiver_gain := 10;
               a121.phase_enhancement := true;
               a121.enable_loopback := None;
               a121.prf := Some prf |})
      (seq 0 (length (breakpoints plan) - 1)) ;;
  Ok (subsweeps,
      map (fun i => subsweep_idx + Z.of_nat i)
        (seq 0 (length (breakpoints plan) - 1))).

Fixpoint far_plans_loop (subsweep_group_plans : list SubsweepGroupPlan)
    (subsweep_idx : Z)
    : result (list SubsweepConfig * list (list Z)) :=
  match subsweep_group_plans with
  | [] => Ok ([], [])
  | plan :: rest =>
      here <- far_plan_subsweeps plan subsweep_idx ;;
      there <- far_plans_loop rest
                 (subsweep_idx + Z.of_nat (length (snd here))) ;;
      Ok (fst here ++ fst there, snd here :: snd there)
  end.

Definition _far_subsweep_group_plans_to_sensor_config_and_subsweep_indexes
    (subsweep_group_plans : list SubsweepGroupPlan)
    : result (SensorConfig * list (list Z)) :=
  r <- far_plans_loop subsweep_group_plans 0 ;;
  Ok ({| subsweeps := fst r; sweeps_per_frame := 1 |}, snd r).

(** [ProcessorConfig(...)]: a field that is not passed keeps its
    default ([DISTANCE_ESTIMATION], [FAR_RANGE], and the imported
    [DEFAULT_*] values). *)
Definition close_range_processor_config : ProcessorConfig.t := {|
  ProcessorConfig.processor_mode := DISTANCE_ESTIMATION;
  ProcessorConfig.threshold_method := RECORDED;
  ProcessorConfig.measurement_type := CLOSE_RANGE;
  ProcessorConfig.fixed_threshold_value :=
    DEFAULT_FIXED_THRESHOLD_VALUE imports;
  ProcessorConfig.threshold_sensitivity :=
    DEFAULT_THRESHOLD_SENSITIVITY imports;
  ProcessorConfig.cfar_one_sided := DEFAULT_CFAR_ONE_SIDED imports |}.

Definition far_range_processor_config (config : DetectorConfig)
    : ProcessorConfig.t := {|
  ProcessorConfig.processor_mode := DISTANCE_ESTIMATION;
  ProcessorConfig.threshold_method := threshold_method config;
  ProcessorConfig.measurement_type := FAR_RANGE;
  ProcessorConfig.fixed_threshold_value := fixed_threshold_value config;
  ProcessorConfig.threshold_sensitivity := threshold_sensitivity config;
  ProcessorConfig.cfar_one_sided := cfar_one_sided config |}.

Definition mk_spec (processor_config : ProcessorConfig.t)
    (group_index sensor_id : Z) (subsweep_indexes : list Z)
    : ProcessorSpec.t := {|
  ProcessorSpec.processor_config := processor_config;
  ProcessorSpec.group_index := group_index;
  ProcessorSpec.sensor_id := sensor_id;
  ProcessorSpec.subsweep_indexes := subsweep_indexes;
  ProcessorSpec.processor_context := None |}.

Definition _detector_to_session_config_and_processor_specs
    (config : DetectorConfig) (sensor_id : Z)
    : result (SessionConfig * list ProcessorSpec.t) :=
  plans <- _create_group_plans config ;;
  close <-
    match close_range plans with
    | Some close_plans =>
        sensor_config <-
          _close_subsweep_group_plans_to_sensor_config close_plans ;;
        Ok ([[(sensor_id, sensor_config)]],
            [mk_spec close_range_processor_config 0 sensor_id [0; 1]],
            1)
    | None => Ok ([], [], 0)
    end ;;
  let '(groups, processor_specs, group_index) := close in
  far <-
    match far_range plans with
    | Some far_plans =>
        r <- _far_subsweep_group_plans_to_sensor_config_and_subsweep_indexes
               far_plans ;;
        let processor_config := far_range_processor_config config in
        Ok (groups ++ [[(sensor_id, fst r)]],
            processor_specs
            ++ map (mk_spec processor_config group_index sensor_id) (snd r))
    | None => Ok (groups, processor_specs)
    end ;;
  session_config <- SessionConfig_new (fst far) true ;;
  Ok (session_config, snd far).

End Planner.

(** *** Calibration context and status *)

Record DetectorContext : Type := {
  direct_leakage : option (list (Q * Q));
  phase_jitter_comp_reference : option (list Q);
  recorded_thresholds : option (list (list Q));
  recorded_threshold_session_config_used : option SessionConfig;
  close_range_session_config_used : option SessionConfig
}.

(** [DetectorContext()]. *)
Definition DetectorContext_default : DetectorContext := {|
  direct_leakage := None;
  phase_jitter_comp_reference := None;
  recorded_thresholds := None;
  recorded_threshold_session_config_used := None;
  close_range_session_config_used := None |}.

Inductive DetailedStatus : Type :=
| OK
| CLOSE_RANGE_CALIBRATION_MISSING
| CLOSE_RANGE_CALIBRATION_CONFIG_MISMATCH
| RECORDED_THRESHOLD_MISSING
| RECORDED_THRESHOLD_CONFIG_MISMATCH.

Record DetectorStatus : Type := {
  detector_state : DetailedStatus;
  ready_to_calibrate_close_range : bool;
  ready_to_record_threshold : bool;
  ready_to_start : bool
}.

Definition DetailedStatus_eqb (a b : DetailedStatus) : bool :=
  match a, b with
  | OK, OK
  | CLOSE_RANGE_CALIBRATION_MISSING, CLOSE_RANGE_CALIBRATION_MISSING
  | CLOSE_RANGE_CALIBRATION_CONFIG_MISMATCH,
    CLOSE_RANGE_CALIBRATION_CONFIG_MISMATCH
  | RECORDED_THRESHOLD_MISSING, RECORDED_THRESHOLD_MISSING
  | RECORDED_THRESHOLD_CONFIG_MISMATCH, RECORDED_THRESHOLD_CONFIG_MISMATCH =>
      true
  | _, _ => false
  end.

(** [==] on session configurations, and between a session configuration
    and an optional one. *)
Definition SessionConfig_eq_dec (a b : SessionConfig) : {a = b} + {a <> b}.
Proof.
  repeat decide equality.
Defined.

Definition SessionConfig_eqb (a b : SessionConfig) : bool :=
  if SessionConfig_eq_dec a b then true else false.

Definition eq_optional (a : SessionConfig) (b : option SessionConfig) : bool :=
  match b with
  | Some b' => SessionConfig_eqb a b'
  | None => false
  end.

Definition is_not_None {A} (o : option A) : bool :=
  match o with Some _ => true | None => false end.

Definition _close_range_calibrated (context : DetectorContext) : result bool :=
  let has_dl := is_not_None (direct_leakage context) in
  let has_pjcr := is_not_None (phase_jitter_comp_reference context) in
  if negb (Bool.eqb has_dl has_pjcr) then Raise (RuntimeError "")
  else Ok (has_dl && has_pjcr).

Definition _recorded_threshold_calibrated (context : DetectorContext) : bool :=
  is_not_None (recorded_thresholds context).

Definition _update_processor_mode (processor_specs : list ProcessorSpec.t)
    (processor_mode : ProcessorMode) : list ProcessorSpec.t :=
  map
    (fun spec =>
       let pc := ProcessorSpec.processor_config spec in
       let new_processor_config := {|
         ProcessorConfig.processor_mode := processor_mode;
         ProcessorConfig.threshold_method := ProcessorConfig.threshold_method pc;
         ProcessorConfig.measurement_type := ProcessorConfig.measurement_type pc;
         ProcessorConfig.fixed_threshold_value :=
           ProcessorConfig.fixed_threshold_value pc;
         ProcessorConfig.threshold_sensitivity :=
           ProcessorConfig.threshold_sensitivity pc;
         ProcessorConfig.cfar_one_sided := ProcessorConfig.cfar_one_sided pc |} in
       {| ProcessorSpec.processor_config := new_processor_config;
          ProcessorSpec.group_index := ProcessorSpec.group_index spec;
          ProcessorSpec.sensor_id := ProcessorSpec.sensor_id spec;
          ProcessorSpec.subsweep_indexes := ProcessorSpec.subsweep_indexes spec;
          ProcessorSpec.processor_context :=
            ProcessorSpec.processor_context spec |})
    processor_specs.

Definition is_close_range (spec : ProcessorSpec.t) : bool :=
  MeasurementType_eqb
    (ProcessorConfig.measurement_type (ProcessorSpec.processor_config spec))
    CLOSE_RANGE.

Definition _filter_close_range_spec (specs : list ProcessorSpec.t)
    : result (list ProcessorSpec.t) :=
  let NUM_CLOSE_RANGE_SPECS := 1%nat in
  let close_range_specs := filter is_close_range specs in
  if negb (length close_range_specs =? NUM_CLOSE_RANGE_SPECS)%nat then
    Raise (ValueError "Incorrect subsweep config for close range measurement")
  else Ok close_range_specs.

Section Status.

Variable imports : ProcessorImports.

Definition _has_close_range_measurement (config : DetectorConfig)
    : result bool :=
  r <- _detector_to_session_config_and_processor_specs imports config 1 ;;
  Ok (existsb is_close_range (snd r)).

Definition _has_recorded_threshold_mode (config : DetectorConfig)
    : result bool :=
  r <- _detector_to_session_config_and_processor_specs imports config 1 ;;
  Ok (existsb
        (fun spec =>
           ThresholdMethod_eqb
             (ProcessorConfig.threshold_method
                (ProcessorSpec.processor_config spec)) RECORDED)
        (snd r)).

Definition mk_status (detector_state : DetailedStatus)
    (ready_to_calibrate_close_range ready_to_record_threshold : bool)
    : DetectorStatus := {|
  detector_state := detector_state;
  ready_to_calibrate_close_range := ready_to_calibrate_close_range;
  ready_to_record_threshold := ready_to_record_threshold;
  ready_to_start := DetailedStatus_eqb detector_state OK |}.

Definition get_detector_status (config : DetectorConfig)
    (context : DetectorContext) : result DetectorStatus :=
  r <- _detector_to_session_config_and_processor_specs imports config 1 ;;
  let session_config := fst r in
  has_close <- _has_close_range_measurement config ;;
  if has_close then
    calibrated <- _close_range_calibrated context ;;
    if calibrated then
      if negb (eq_optional session_config
                 (close_range_session_config_used context)) then
        Ok (mk_status CLOSE_RANGE_CALIBRATION_CONFIG_MISMATCH true false)
      else if negb (_recorded_threshold_calibrated context) then
        Ok (mk_status RECORDED_THRESHOLD_MISSING true true)
      else if negb (eq_optional session_config
                      (recorded_threshold_session_config_used context)) then
        Ok (mk_status RECORDED_THRESHOLD_CONFIG_MISMATCH true false)
      else Ok (mk_status OK true true)
    else Ok (mk_status CLOSE_RANGE_CALIBRATION_MISSING true false)
  else
    has_recorded <- _has_recorded_threshold_mode config ;;
    if has_recorded then
      if _recorded_threshold_calibrated context then
        if negb (eq_optional session_config
                   (recorded_threshold_session_config_used context)) then
          Ok (mk_status RECORDED_THRESHOLD_CONFIG_MISMATCH false true)
        else Ok (mk_status OK false true)
      else Ok (mk_status RECORDED_THRESHOLD_MISSING false true)
    else Ok (mk_status OK false false).

End Status.

(** *** The detector object *)

(** [AggregatorResult] of [_aggregator.py], as far as the detector reads
    it. *)
Record AggregatorResult (ExtendedResult : Type) : Type := {
  processor_results : list ProcessorResult.t;
  estimated_distances : option (list Q);
  service_extended_result : ExtendedResult
}.

Module DetectorResult.
Record t (ExtendedResult : Type) : Type := {
  distances : option (list Q);
  processor_results : list ProcessorResult.t;
  service_extended_result : ExtendedResult
}.
End DetectorResult.

Section Lifecycle.

Variable imports : ProcessorImports.

(** The collaborators are outside the two files: the sensor link
    ([a121.Client]), the recorder and the [Aggregator].  [World] is
    whatever state they keep; each call may change it and may raise. *)
Variables World ExtendedMetadata ExtendedResult Aggregator : Type.
Variables Recorder RecorderResult : Type.

Record Collaborators : Type := {
  client_setup_session :
    SessionConfig -> World -> reply ExtendedMetadata * World;
  client_start_session :
    option Recorder -> World -> reply unit * World;
  client_get_next : World -> reply ExtendedResult * World;
  client_stop_session : World -> reply RecorderResult * World;
  Aggregator_new :
    SessionConfig -> ExtendedMetadata -> option PeakSortingMethod ->
    list ProcessorSpec.t -> World -> reply Aggregator * World;
  Aggregator_process :
    Aggregator -> ExtendedResult -> World ->
    reply (AggregatorResult ExtendedResult) * World;
  is_H5Recorder : Recorder -> bool;
  record_algo_data :
    Recorder -> Z -> DetectorConfig -> DetectorContext -> World ->
    reply unit * World
}.

Variable env : Collaborators.

(** The attributes of a [Detector].  [session_config] and
    [processor_specs] are assigned by [__init__] through
    [update_config] and are never [None]. *)
Record Detector : Type := {
  sensor_id : Z;
  detector_config : DetectorConfig;
  started : bool;
  context : DetectorContext;
  aggregator : option Aggregator;
  session_config : SessionConfig;
  processor_specs : list ProcessorSpec.t
}.

(** A method runs on the detector and the world; an exception leaves
    both as they are at the point where it is raised. *)
Definition M (A : Type) : Type :=
  Detector * World -> result A * (Detector * World).

Definition ret {A} (a : A) : M A := fun s => (Ok a, s).
Definition raise {A} (e : exn) : M A := fun s => (Raise e, s).
Definition lift {A} (r : result A) : M A := fun s => (r, s).

Definition mbind {A B} (m : M A) (k : A -> M B) : M B :=
  fun s =>
    match m s with
    | (Ok a, s') => k a s'
    | (Raise e, s') => (Raise e, s')
    end.

Definition self : M Detector := fun s => (Ok (fst s), s).

Definition assign (f : Detector -> Detector) : M unit :=
  fun s => (Ok tt, (f (fst s), snd s)).

(** A call into a collaborator; its failure propagates unchanged. *)
Definition external {A} (call : World -> reply A * World) : M A :=
  fun s =>
    match call (snd s) with
    | (Reply a, w) => (Ok a, (fst s, w))
    | (Fail code, w) => (Raise (ExternalError code), (fst s, w))
    end.

Notation "x <~ c1 ;; c2" := (mbind c1 (fun x => c2))
  (at level 61, c1 at next level, right associativity).

Definition set_started (b : bool) (d : Detector) : Detector :=
  {| sensor_id := sensor_id d; detector_config := detector_config d;
     started := b; context := context d; aggregator := aggregator d;
     session_config := session_config d;
     processor_specs := processor_specs d |}.

Definition set_aggregator (a : option Aggregator) (d : Detector) : Detector :=
  {| sensor_id := sensor_id d; detector_config := detector_config d;
     started := started d; context := context d; aggregator := a;
     session_config := session_config d;
     processor_specs := processor_specs d |}.

Definition set_context (c : DetectorContext) (d : Detector) : Detector :=
  {| sensor_id := sensor_id d; detector_config := detector_config d;
     started := started d; context := c; aggregator := aggregator d;
     session_config := session_config d;
     processor_specs := processor_specs d |}.

Definition set_session_config_and_processor_specs (sc : SessionConfig)
    (specs : list ProcessorSpec.t) (d : Detector) : Detector :=
  {| sensor_id := sensor_id d; detector_config := detector_config d;
     started := started d; context := context d;
     aggregator := aggregator d;
     session_config := sc; processor_specs := specs |}.

Definition set_direct_leakage (v : option (list (Q * Q)))
    (c : DetectorContext) : DetectorContext :=
  {| direct_leakage := v;
     phase_jitter_comp_reference := phase_jitter_comp_reference c;
     recorded_thresholds := recorded_thresholds c;
     recorded_threshold_session_config_used :=
       recorded_threshold_session_config_used c;
     close_range_session_config_used := close_range_session_config_used c |}.

Definition set_phase_jitter_comp_reference (v : option (list Q))
    (c : DetectorContext) : DetectorContext :=
  {| direct_leakage := direct_leakage c;
     phase_jitter_comp_reference := v;
     recorded_thresholds := recorded_thresholds c;
     recorded_threshold_session_config_used :=
       recorded_threshold_session_config_used c;
     close_range_session_config_used := close_range_session_config_used c |}.

Definition set_recorded_thresholds (v : option (list (list Q)))
    (c : DetectorContext) : DetectorContext :=
  {| direct_leakage := direct_leakage c;
     phase_jitter_comp_reference := phase_jitter_comp_reference c;
     recorded_thresholds := v;
     recorded_threshold_session_config_used :=
       recorded_threshold_session_config_used c;
     close_range_session_config_used := close_range_session_config_used c |}.

Definition set_recorded_threshold_session_config_used
    (v : option SessionConfig) (c : DetectorContext) : DetectorContext :=
  {| direct_leakage := direct_leakage c;
     phase_jitter_comp_reference := phase_jitter_comp_reference c;
     recorded_thresholds := recorded_thresholds c;
     recorded_threshold_session_config_used := v;
     close_range_session_config_used := close_range_session_config_used c |}.

Definition set_close_range_session_config_used
    (v : option SessionConfig) (c : DetectorContext) : DetectorContext :=
  {| direct_leakage := direct_leakage c;
     phase_jitter_comp_reference := phase_jitter_comp_reference c;
     recorded_thresholds := recorded_thresholds c;
     recorded_threshold_session_config_used :=
       recorded_threshold_session_config_used c;
     close_range_session_config_used := v |}.

(** [self.context.<field> = v]. *)
Definition assign_context (f : DetectorContext -> DetectorContext)
    : M unit :=
  assign (fun d => set_context (f (context d)) d).

Definition update_config (config : DetectorConfig) : M unit :=
  d <~ self ;;
  r <~ lift (_detector_to_session_config_and_processor_specs imports
               config (sensor_id d)) ;;
  assign (set_session_config_and_processor_specs (fst r) (snd r)).

(** [Detector(client=..., sensor_id=..., detector_config=...,
    context=...)]. *)
Definition __init__ (sensor_id : Z) (detector_config : DetectorConfig)
    (context : option DetectorContext) : result Detector :=
  r <- _detector_to_session_config_and_processor_specs imports
         detector_config sensor_id ;;
  Ok {| sensor_id := sensor_id;
        detector_config := detector_config;
        started := false;
        context := match context with
                   | None => DetectorContext_default
                   | Some c => c
                   end;
        aggregator := None;
        session_config := fst r;
        processor_specs := snd r |}.

(** The two [is None] guards on [processor_specs] and [session_config]
    that follow the [started] guard in [calibrate_close_range] and
    [record_threshold] cannot fire and are left out. *)
Definition calibrate_close_range : M unit :=
  d <~ self ;;
  if started d then raise (RuntimeError "Already started")
  else
    close_range_spec <~ lift (_filter_close_range_spec (processor_specs d)) ;;
    let spec := _update_processor_mode close_range_spec LEAKAGE_CALIBRATION in
    extended_metadata <~
      external (client_setup_session env (session_config d)) ;;
    aggregator <~
      external (Aggregator_new env (session_config d) extended_metadata
                  None spec) ;;
    _ <~ external (client_start_session env None) ;;
    extended_result <~ external (client_get_next env) ;;
    aggregator_result <~
      external (Aggregator_process env aggregator extended_result) ;;
    _ <~ external (client_stop_session env) ;;
    processor_result <~
      lift (match processor_results aggregator_result with
            | [processor_result] => Ok processor_result
            | _ => Raise (ValueError "")
            end) ;;
    _ <~ assign_context
           (set_direct_leakage
              (ProcessorResult.direct_leakage processor_result)) ;;
    match ProcessorResult.phase_jitter_comp_reference processor_result with
    | None => raise AssertionError
    | Some pjcr =>
        _ <~ assign_context (set_phase_jitter_comp_reference (Some pjcr)) ;;
        _ <~ assign_context
               (set_close_range_session_config_used
                  (Some (session_config d))) ;;
        assign_context (set_recorded_thresholds None)
    end.

Definition mk_context (recorded_threshold : option (list Q))
    (direct_leakage : option (list (Q * Q)))
    (phase_jitter_comp_ref : option (list Q)) : ProcessorContext.t := {|
  ProcessorContext.recorded_threshold := recorded_threshold;
  ProcessorContext.direct_leakage := direct_leakage;
  ProcessorContext.phase_jitter_comp_ref := phase_jitter_comp_ref |}.

Definition with_context (spec : ProcessorSpec.t)
    (context : ProcessorContext.t) : ProcessorSpec.t := {|
  ProcessorSpec.processor_config := ProcessorSpec.processor_config spec;
  ProcessorSpec.group_index := ProcessorSpec.group_index spec;
  ProcessorSpec.sensor_id := ProcessorSpec.sensor_id spec;
  ProcessorSpec.subsweep_indexes := ProcessorSpec.subsweep_indexes spec;
  ProcessorSpec.processor_context := Some context |}.

(** The body of the loop of [_add_context_to_processor_spec] for the
    spec at position [idx]. *)
Definition add_context_to_one (d : Detector) (idx : nat)
    (spec : ProcessorSpec.t) : result ProcessorSpec.t :=
  let pc := ProcessorSpec.processor_config spec in
  let ctx := context d in
  let is_close :=
    MeasurementType_eqb (ProcessorConfig.measurement_type pc) CLOSE_RANGE in
  if is_close
     && ProcessorMode_eqb (ProcessorConfig.processor_mode pc)
          DISTANCE_ESTIMATION then
    calibrated <- _close_range_calibrated ctx ;;
    if negb calibrated then
      Raise (Exception "Close range calibration not performed")
    else
      match recorded_thresholds ctx with
      | None => Raise (Exception "Recorded threshold calibration not performed")
      | Some thresholds =>
          threshold <- getitem thresholds idx ;;
          Ok (with_context spec
                (mk_context (Some threshold) (direct_leakage ctx)
                   (phase_jitter_comp_reference ctx)))
      end
  else if is_close
          && ProcessorMode_eqb (ProcessorConfig.processor_mode pc)
               RECORDED_THRESHOLD_CALIBRATION then
    calibrated <- _close_range_calibrated ctx ;;
    if negb calibrated then
      Raise (Exception "Close range calibration not performed")
    else
      Ok (with_context spec
            (mk_context None (direct_leakage ctx)
               (phase_jitter_comp_reference ctx)))
  else if MeasurementType_eqb (ProcessorConfig.measurement_type pc) FAR_RANGE
          && ThresholdMethod_eqb (ProcessorConfig.threshold_method pc)
               RECORDED
          && _recorded_threshold_calibrated ctx
          && eq_optional (session_config d)
               (recorded_threshold_session_config_used ctx) then
    match recorded_thresholds ctx with
    | None => Raise (Exception "Recorded threshold calibration not performed")
    | Some thresholds =>
        threshold <- getitem thresholds idx ;;
        Ok (with_context spec (mk_context (Some threshold) None None))
    end
  else Ok spec.

Definition _add_context_to_processor_spec (d : Detector)
    (processor_specs : list ProcessorSpec.t)
    : result (list ProcessorSpec.t) :=
  mapM (fun ispec => add_context_to_one d (fst ispec) (snd ispec))
    (combine (seq 0 (length processor_specs)) processor_specs).

(** [for _ in range(n)]: read a frame and process it, keeping the last
    aggregator result. *)
Fixpoint record_frames (n : nat) (aggregator : Aggregator)
    (aggregator_result : option (AggregatorResult ExtendedResult))
    : M (option (AggregatorResult ExtendedResult)) :=
  match n with
  | O => ret aggregator_result
  | S n' =>
      extended_result <~ external (client_get_next env) ;;
      r <~ external (Aggregator_process env aggregator extended_result) ;;
      record_frames n' aggregator (Some r)
  end.

(** [for processor_result in ...: self.context.recorded_thresholds
    .append(threshold)]. *)
Fixpoint append_thresholds (results : list ProcessorResult.t) : M unit :=
  match results with
  | [] => ret tt
  | processor_result :: rest =>
      match ProcessorResult.recorded_threshold processor_result with
      | None => raise AssertionError
      | Some threshold =>
          _ <~ assign_context
                 (fun c =>
                    set_recorded_thresholds
                      (Some (match recorded_thresholds c with
                             | Some l => l ++ [threshold]
                             | None => [threshold]
                             end)) c) ;;
          append_thresholds rest
      end
  end.

Definition record_threshold : M unit :=
  d <~ self ;;
  if started d then raise (RuntimeError "Already started")
  else
    let specs_updated :=
      _update_processor_mode (processor_specs d)
        RECORDED_THRESHOLD_CALIBRATION in
    specs <~ lift (_add_context_to_processor_spec d specs_updated) ;;
    extended_metadata <~
      external (client_setup_session env (session_config d)) ;;
    aggregator <~
      external (Aggregator_new env (session_config d) extended_metadata
                  None specs) ;;
    _ <~ external (client_start_session env None) ;;
    aggregator_result <~
      record_frames
        (Z.to_nat (num_frames_in_recorded_threshold (detector_config d)))
        aggregator None ;;
    _ <~ external (client_stop_session env) ;;
    match aggregator_result with
    | None => raise AssertionError
    | Some aggregator_result =>
        _ <~ assign_context (set_recorded_thresholds (Some [])) ;;
        _ <~ append_thresholds (processor_results aggregator_result) ;;
        assign_context
          (set_recorded_threshold_session_config_used
             (Some (session_config d)))
    end.

Definition _ensure_detector_is_calibrated (d : Detector) : result unit :=
  has_close <- _has_close_range_measurement imports (detector_config d) ;;
  _ <- (if has_close then
          calibrated <- _close_range_calibrated (context d) ;;
          if negb (calibrated && _recorded_threshold_calibrated (context d))
          then Raise (ValueError "Detector not calibrated.")
          else Ok tt
        else Ok tt) ;;
  has_recorded <- _has_recorded_threshold_mode imports (detector_config d) ;;
  if has_recorded && negb (_recorded_threshold_calibrated (context d)) then
    Raise (ValueError "Detector not calibrated.")
  else Ok tt.

Definition _ensure_matching_session_config (d : Detector) : result unit :=
  let mismatch :=
    ValueError "Session config does not match config used during calibration" in
  has_close <- _has_close_range_measurement imports (detector_config d) ;;
  _ <- (if has_close
           && negb (eq_optional (session_config d)
                      (close_range_session_config_used (context d)))
        then Raise mismatch else Ok tt) ;;
  has_recorded <- _has_recorded_threshold_mode imports (detector_config d) ;;
  if has_recorded
     && negb (eq_optional (session_config d)
                (recorded_threshold_session_config_used (context d)))
  then Raise mismatch else Ok tt.

Definition start (recorder : option Recorder) : M unit :=
  d <~ self ;;
  if started d then raise (RuntimeError "Already started")
  else
    _ <~ lift (_ensure_detector_is_calibrated d) ;;
    _ <~ lift (_ensure_matching_session_config d) ;;
    specs <~ lift (_add_context_to_processor_spec d (processor_specs d)) ;;
    extended_metadata <~
      external (client_setup_session env (session_config d)) ;;
    let aggregator_config :=
      Some (peaksorting_method (detector_config d)) in
    aggregator <~
      external (Aggregator_new env (session_config d) extended_metadata
                  aggregator_config specs) ;;
    _ <~ assign (set_aggregator (Some aggregator)) ;;
    _ <~ match recorder with
         | Some rec =>
             if is_H5Recorder env rec then
               external (record_algo_data env rec (sensor_id d)
                           (detector_config d) (context d))
             else ret tt
         | None => ret tt
         end ;;
    _ <~ external (client_start_session env recorder) ;;
    assign (set_started true).

Definition get_next : M (DetectorResult.t ExtendedResult) :=
  d <~ self ;;
  if negb (started d) then raise (RuntimeError "Not started")
  else
    match aggregator d with
    | None => raise AssertionError
    | Some aggregator =>
        extended_result <~ external (client_get_next env) ;;
        aggregator_result <~
          external (Aggregator_process env aggregator extended_result) ;;
        ret {| DetectorResult.distances :=
                 estimated_distances aggregator_result;
               DetectorResult.processor_results :=
                 processor_results aggregator_result;
               DetectorResult.service_extended_result :=
                 service_extended_result aggregator_result |}
    end.

Definition stop : M RecorderResult :=
  d <~ self ;;
  if negb (started d) then raise (RuntimeError "Already stopped")
  else
    recorder_result <~ external (client_stop_session env) ;;
    _ <~ assign (set_started false) ;;
    ret recorder_result.

End Lifecycle.

End Detector.

(** ** An instance of the imported names

    Built from what the [_processors.py] at hand does define: the envelope
    widths for [ENVELOPE_FWHM_M], the point margin of
    [distance_filter_init_margin] for [distance_filter_edge_margin], and the
    CFAR guard half length plus window length of
    [_init_process_distance_estimation] for [calc_cfar_margin].  It is used
    to run the planner on concrete configurations. *)

Definition width_edge_margin (profile : Profile) (step_length : Z) : Z :=
  match Processor.distance_filter_init_margin profile step_length with
  | Ok margin => snd margin
  | Raise _ => 0
  end.

Definition width_cfar_margin (profile : Profile) (step_length : Z) : Z :=
  let step_m :=
    (inject_Z step_length * Processor.APPROX_BASE_STEP_LENGTH_M)%Q in
  np_round (Processor.ENVELOPE_WIDTH_M profile
            * Processor.CFAR_GUARD_LENGTH_ADJUSTMENT / 2.0 / step_m)
  + np_round (Processor.ENVELOPE_WIDTH_M profile
              * Processor.CFAR_WINDOW_LENGTH_ADJUSTMENT / step_m).

Definition width_imports : Detector.ProcessorImports := {|
  Detector.ENVELOPE_FWHM_M := Processor.ENVELOPE_WIDTH_M;
  Detector.calc_cfar_margin := width_cfar_margin;
  Detector.distance_filter_edge_margin := width_edge_margin;
  Detector.DEFAULT_FIXED_THRESHOLD_VALUE := 100.0;
  Detector.DEFAULT_THRESHOLD_SENSITIVITY := 0.5;
  Detector.DEFAULT_CFAR_ONE_SIDED := false |}.

(** ** Vocabulary of the statements *)

(** The limit [_limit_step_length] works from: the number of points that
    keeps four samples across the envelope FWHM, capped by the user. *)
Definition step_length_limit (imports : Detector.ProcessorImports)
    (profile : Profile) (user_limit : option Z) : Z :=
  let fwhm_limit :=
    Py.int (Detector.ENVELOPE_FWHM_M imports profile
            / Processor.APPROX_BASE_STEP_LENGTH_M
            / Detector.MIN_NUM_POINTS_IN_ENVELOPE_FWHM_SPAN) in
  match user_limit with
  | Some u => Z.min u fwhm_limit
  | None => fwhm_limit
  end.

(** The four conditions on the subsweeps one processor draws from. *)
Definition shares_profile (cs : list SubsweepConfig) : Prop :=
  forall c c', In c cs -> In c' cs -> a121.profile c = a121.profile c'.

Definition shares_step_length (cs : list SubsweepConfig) : Prop :=
  forall c c', In c cs -> In c' cs -> a121.step_length c = a121.step_length c'.

Definition phase_enhanced (cs : list SubsweepConfig) : Prop :=
  Forall (fun c => a121.phase_enhancement c = true) cs.

(** Each subsweep starts where the previous one ends: at the previous
    start point plus its number of points times the step length. *)
Fixpoint point_contiguous (cs : list SubsweepConfig) : Prop :=
  match cs with
  | c :: (c' :: _) as rest =>
      a121.start_point c'
      = a121.start_point c + a121.num_points c * a121.step_length c
      /\ point_contiguous rest
  | _ => True
  end.

(** The subsweep indexes [Processor.__init__] works with. *)
Definition selected_indexes (sensor_config : SensorConfig)
    (subsweep_indexes : option (list Z)) : list Z :=
  match subsweep_indexes with
  | None => np_arange 0 (Z.of_nat (length (subsweeps sensor_config)))
  | Some l => l
  end.

(** A sensor configuration with two contiguous far-range subsweeps, used to
    run the construction. *)
Definition two_subsweeps : SensorConfig := {|
  subsweeps :=
    [ {| a121.start_point := 80; a121.num_points := 10; a121.step_length := 4;
         a121.profile := PROFILE_3; a121.hwaas := 8; a121.receiver_gain := 10;
         a121.phase_enhancement := true; a121.enable_loopback := None;
         a121.prf := Some PRF_13_0_MHz |};
      {| a121.start_point := 120; a121.num_points := 20; a121.step_length := 4;
         a121.profile := PROFILE_3; a121.hwaas := 8; a121.receiver_gain := 10;
         a121.phase_enhancement := true; a121.enable_loopback := None;
         a121.prf := Some PRF_13_0_MHz |} ];
  sweeps_per_frame := 1 |}.

(** Collaborators that always answer, over a world that counts the frames
    read: the aggregator reports one processor result carrying a direct
    leakage, a phase-jitter reference and a recorded threshold.  Used to
    run the life cycle. *)
Definition answering_result : Detector.AggregatorResult unit := {|
  Detector.processor_results :=
    [ {| ProcessorResult.recorded_threshold := Some [1%Q];
         ProcessorResult.direct_leakage := Some [(1%Q, 0%Q)];
         ProcessorResult.phase_jitter_comp_reference := Some [0%Q] |} ];
  Detector.estimated_distances := None;
  Detector.service_extended_result := tt |}.

Definition answering : Detector.Collaborators nat unit unit unit unit unit := {|
  Detector.client_setup_session := fun _ w => (Reply tt, w);
  Detector.client_start_session := fun _ w => (Reply tt, w);
  Detector.client_get_next := fun w => (Reply tt, S w);
  Detector.client_stop_session := fun w => (Reply tt, w);
  Detector.Aggregator_new := fun _ _ _ _ w => (Reply tt, w);
  Detector.Aggregator_process := fun _ _ w => (Reply answering_result, w);
  Detector.is_H5Recorder := fun _ => true;
  Detector.record_algo_data := fun _ _ _ _ w => (Reply tt, w) |}.

(** A detector that has been started by hand, and one that has not. *)
Definition idle_detector : Detector.Detector unit := {|
  Detector.sensor_id := 1;
  Detector.detector_config := Detector.DetectorConfig_default width_imports;
  Detector.started := false;
  Detector.context := Detector.DetectorContext_default;
  Detector.aggregator := None;
  Detector.session_config :=
    {| groups := [[(1, two_subsweeps)]]; extended := true |};
  Detector.processor_specs :=
    [ Detector.mk_spec (Detector.close_range_processor_config width_imports)
        0 1 [0; 1] ] |}.

Definition running_detector : Detector.Detector unit :=
  Detector.set_aggregator (Some tt) (Detector.set_started true idle_detector).

Section CalibrationVocabulary.

Import Detector.
Variables World ExtendedMetadata ExtendedResult Aggregator : Type.
Variables Recorder RecorderResult : Type.
Variable env :
  Collaborators World ExtendedMetadata ExtendedResult Aggregator Recorder
    RecorderResult.

(** The context [calibrate_close_range] leaves behind when the processor
    result is [r] with phase-jitter reference [pjcr]. *)
Definition calibrated_context (d : Detector Aggregator)
    (r : ProcessorResult.t) (pjcr : list Q) : DetectorContext := {|
  direct_leakage := ProcessorResult.direct_leakage r;
  phase_jitter_comp_reference := Some pjcr;
  recorded_thresholds := None;
  recorded_threshold_session_config_used :=
    recorded_threshold_session_config_used (context d);
  close_range_session_config_used := Some (session_config d) |}.

(** One frame through the leakage-calibration pipeline: every collaborator
    answers, from world [w] to world [w'], and the aggregator reports
    [ar]. *)
Definition leakage_frame (d : Detector Aggregator) (spec : ProcessorSpec.t)
    (w w' : World) (ar : AggregatorResult ExtendedResult) : Prop :=
  exists md w1 agg w2 w3 er w4 w5 rr,
    client_setup_session env (session_config d) w = (Reply md, w1)
    /\ Aggregator_new env (session_config d) md None
         (_update_processor_mode [spec] LEAKAGE_CALIBRATION) w1
       = (Reply agg, w2)
    /\ client_start_session env None w2 = (Reply tt, w3)
    /\ client_get_next env w3 = (Reply er, w4)
    /\ Aggregator_process env agg er w4 = (Reply ar, w5)
    /\ client_stop_session env w5 = (Reply rr, w').

End CalibrationVocabulary.

(** The quadratic [a x^2 + b x + c]. *)
Definition quadratic (a b c x : Q) : Q := (a * x ^ 2 + b * x + c)%Q.

(** The first index with a complete CFAR window, [max(idx_cfar_pts)], and
    the index after the last one. *)
Definition cfar_start_idx (idx_cfar_pts : list Z) : Z :=
  fold_left Z.max (tl idx_cfar_pts) (hd 0 idx_cfar_pts).

Definition cfar_end_idx (size : nat) (idx_cfar_pts : list Z) (one_side : bool)
    : Z :=
  if one_side then Z.of_nat size
  else Z.of_nat size - cfar_start_idx idx_cfar_pts.

(** At index [p] the threshold is a number that the envelope strictly
    exceeds. *)
Definition exceeds_threshold (abs_sweep : list Q)
    (threshold : Processor.threshold_array) (p : nat) : Prop :=
  exists t, nth_error threshold p = Some (Some t) /\ (t < nth p abs_sweep 0)%Q.

(** NaN only towards the edges: between two indexes where the threshold is
    a number, it is a number. *)
Definition nan_at_edges_only (threshold : Processor.threshold_array) : Prop :=
  forall i j k ti tk,
    (i <= j <= k)%nat ->
    nth_error threshold i = Some (Some ti) ->
    nth_error threshold k = Some (Some tk) ->
    exists tj, nth_error threshold j = Some (Some tj).

(** The averaging window of index [i] lies inside a sweep of [size]
    points: every trailing offset, and in the two-sided case every leading
    offset as well. *)
Definition window_complete (size : nat) (idx_cfar_pts : list Z)
    (one_side : bool) (i : nat) : Prop :=
  forall pt, In pt idx_cfar_pts ->
    0 <= Z.of_nat i - pt
    /\ (one_side = false -> Z.of_nat i + pt < Z.of_nat size).








(** A break point, in metres. *)
Definition point_m (b : Z) : Q :=
  (inject_Z b * Processor.APPROX_BASE_STEP_LENGTH_M)%Q.

(** The detector configuration of the end-to-end scenario: [start_m = 0.0],
    [end_m = 2.0], [max_profile = PROFILE_3], the rest at the defaults. *)
Definition scenario_config (imports : Detector.ProcessorImports)
    : Detector.DetectorConfig := {|
  Detector.start_m := 0.0;
  Detector.end_m := 2.0;
  Detector.max_step_length := None;
  Detector.max_profile := PROFILE_3;
  Detector.signal_quality := 18.0;
  Detector.threshold_method := CFAR;
  Detector.peaksorting_method := STRONGEST;
  Detector.num_frames_in_recorded_threshold := 20;
  Detector.fixed_threshold_value :=
    Detector.DEFAULT_FIXED_THRESHOLD_VALUE imports;
  Detector.threshold_sensitivity :=
    Detector.DEFAULT_THRESHOLD_SENSITIVITY imports;
  Detector.cfar_one_sided := Detector.DEFAULT_CFAR_ONE_SIDED imports |}.



(** The two fields of a close-range calibration: [direct_leakage] is set
    exactly when [phase_jitter_comp_reference] is. *)
Definition paired (c : Detector.DetectorContext) : Prop :=
  Detector.direct_leakage c <> None
  <-> Detector.phase_jitter_comp_reference c <> None.

(** Exactly one of the two is [None]. *)
Definition half_set (c : Detector.DetectorContext) : Prop :=
  (Detector.direct_leakage c = None
   /\ Detector.phase_jitter_comp_reference c <> None)
  \/ (Detector.direct_leakage c <> None
      /\ Detector.phase_jitter_comp_reference c = None).

(** [c'] carries the two fields of [c]. *)
Definition same_pair (c c' : Detector.DetectorContext) : Prop :=
  Detector.direct_leakage c' = Detector.direct_leakage c
  /\ Detector.phase_jitter_comp_reference c'
     = Detector.phase_jitter_comp_reference c.

(** A method that, whatever its outcome, leaves the two fields of the
    detector's context as they were. *)
Definition keeps_pair {World Aggregator A : Type}
    (m : Detector.M World Aggregator A) : Prop :=
  forall s,
    same_pair (Detector.context (fst s))
      (Detector.context (fst (snd (m s)))).

(** A context handed in from outside with a direct leakage and no
    phase-jitter reference. *)
Definition leakage_only_context : Detector.DetectorContext := {|
  Detector.direct_leakage := Some [(1%Q, 0%Q)];
  Detector.phase_jitter_comp_reference := None;
  Detector.recorded_thresholds := None;
  Detector.recorded_threshold_session_config_used := None;
  Detector.close_range_session_config_used := None |}.



(** [sensor_config.num_subsweeps]. *)
Definition num_subsweeps (sensor_config : SensorConfig) : Z :=
  Z.of_nat (length (subsweeps sensor_config)).

(** The margin [_add_margin_to_breakpoints] puts on one side of a segment:
    one filter margin, a second one towards a neighbouring segment, and the
    CFAR margin when the threshold method is CFAR. *)
Definition segment_margin (imports : Detector.ProcessorImports)
    (profile : Profile) (step_length : Z) (neighbour : bool)
    (config : Detector.DetectorConfig) : Z :=
  let margin_p :=
    Detector.distance_filter_edge_margin imports profile step_length
    * step_length in
  (if neighbour then 2 * margin_p else margin_p)
  + (if ThresholdMethod_eqb (Detector.threshold_method config) CFAR
     then Detector.calc_cfar_margin imports profile step_length * step_length
     else 0).

(** Break points on the grid of a step length. *)
Definition on_grid (step_length : Z) (breakpoints : list Z) : Prop :=
  Forall (fun b => (step_length | b)) breakpoints.

(** What every plan of the planner satisfies: the step length is the one
    [_limit_step_length] gives for the plan's profile, the break points lie
    on its grid and are at least two, and there is one hardware-averaging
    count per segment, each within the sensor's limits. *)
Definition plan_well_formed (imports : Detector.ProcessorImports)
    (config : Detector.DetectorConfig) (plan : Detector.SubsweepGroupPlan)
    : Prop :=
  Detector.step_length plan
  = Detector._limit_step_length imports (Detector.profile plan)
      (Detector.max_step_length config)
  /\ on_grid (Detector.step_length plan) (Detector.breakpoints plan)
  /\ (2 <= length (Detector.breakpoints plan))%nat
  /\ length (Detector.hwaas plan)
     = (length (Detector.breakpoints plan) - 1)%nat
  /\ Forall (fun h => Detector.MIN_HWAAS <= h <= Detector.MAX_HWAAS)
       (Detector.hwaas plan).

(** The number of segments (subsweeps) of a plan, and of a list of
    plans. *)
Definition num_segments (plan : Detector.SubsweepGroupPlan) : nat :=
  (length (Detector.breakpoints plan) - 1)%nat.

Definition total_segments (plans : list Detector.SubsweepGroupPlan) : nat :=
  list_sum (map num_segments plans).

(** A method that never raises [e]. *)
Definition never_raises {World Aggregator A : Type} (e : exn)
    (m : Detector.M World Aggregator A) : Prop :=
  forall s, fst (m s) <> Raise e.

(** The context [record_threshold] leaves behind when the thresholds
    recorded are [thresholds]. *)
Definition recorded_context {Aggregator : Type}
    (d : Detector.Detector Aggregator) (thresholds : list (list Q))
    : Detector.DetectorContext := {|
  Detector.direct_leakage := Detector.direct_leakage (Detector.context d);
  Detector.phase_jitter_comp_reference :=
    Detector.phase_jitter_comp_reference (Detector.context d);
  Detector.recorded_thresholds := Some thresholds;
  Detector.recorded_threshold_session_config_used :=
    Some (Detector.session_config d);
  Detector.close_range_session_config_used :=
    Detector.close_range_session_config_used (Detector.context d) |}.

(** The idle detector after a close-range calibration, and the same
    detector configured to record its threshold over no frame at all. *)
Definition calibrated_detector : Detector.Detector unit :=
  Detector.set_context
    {| Detector.direct_leakage := Some [(1%Q, 0%Q)];
       Detector.phase_jitter_comp_reference := Some [0%Q];
       Detector.recorded_thresholds := None;
       Detector.recorded_threshold_session_config_used := None;
       Detector.close_range_session_config_used :=
         Some (Detector.session_config idle_detector) |}
    idle_detector.

Definition no_frames_detector : Detector.Detector unit := {|
  Detector.sensor_id := Detector.sensor_id calibrated_detector;
  Detector.detector_config := {|
    Detector.start_m := 0.2;
    Detector.end_m := 1.0;
    Detector.max_step_length := None;
    Detector.max_profile := PROFILE_5;
    Detector.signal_quality := 18.0;
    Detector.threshold_method := CFAR;
    Detector.peaksorting_method := STRONGEST;
    Detector.num_frames_in_recorded_threshold := 0;
    Detector.fixed_threshold_value := 100.0;
    Detector.threshold_sensitivity := 0.5;
    Detector.cfar_one_sided := false |};
  Detector.started := false;
  Detector.context := Detector.context calibrated_detector;
  Detector.aggregator := None;
  Detector.session_config := Detector.session_config calibrated_detector;
  Detector.processor_specs := Detector.processor_specs calibrated_detector |}.

(** The detector [Detector(client, sensor_id=1, detector_config=...)] builds
    for the scenario configuration. *)
Definition scenario_detector : Detector.Detector unit :=
  match Detector.__init__ width_imports unit 1 (scenario_config width_imports)
          None with
  | Ok d => d
  | Raise _ => idle_detector
  end.

(** A method that, whatever its outcome, leaves [f] of the detector as it
    was. *)
Definition leaves {World Aggregator A B : Type}
    (f : Detector.Detector Aggregator -> B)
    (m : Detector.M World Aggregator A) : Prop :=
  forall s, f (fst (snd (m s))) = f (fst s).

(** Everything of a detector but its context. *)
Definition outside_context {Aggregator : Type}
    (d : Detector.Detector Aggregator) :=
  (Detector.sensor_id d, Detector.detector_config d, Detector.started d,
   Detector.aggregator d, Detector.session_config d,
   Detector.processor_specs d).

(** A started detector has its aggregator: the assertion of [get_next]
    holds. *)
Definition aggregator_ready {Aggregator : Type}
    (d : Detector.Detector Aggregator) : Prop :=
  Detector.started d = true -> Detector.aggregator d <> None.

(** * Properties *)

Unset Implicit Arguments.

(** ** Generic facts about the error monad *)

Lemma mapM_length {A B} (f : A -> result B) (xs : list A) (ys : list B) :
  mapM f xs = Ok ys -> length ys = length xs.
Proof.
  revert ys; induction xs as [|x xs IH]; intros ys; simpl.
  - intros [= <-]; reflexivity.
  - destruct (f x) as [y|e]; simpl; [|discriminate].
    destruct (mapM f xs) as [ys'|e]; simpl; [|discriminate].
    intros [= <-]; simpl; f_equal; apply IH; reflexivity.
Qed.

Lemma mapM_Forall {A B} (P : B -> Prop) (f : A -> result B) (xs : list A)
    (ys : list B) :
  (forall x y, In x xs -> f x = Ok y -> P y) ->
  mapM f xs = Ok ys -> Forall P ys.
Proof.
  revert ys; induction xs as [|x xs IH]; intros ys HP; simpl.
  - intros [= <-]; constructor.
  - destruct (f x) as [y|e] eqn:Hfx; simpl; [|discriminate].
    destruct (mapM f xs) as [ys'|e]; simpl; [|discriminate].
    intros [= <-]; constructor.
    + apply (HP x y); [left; reflexivity | exact Hfx].
    + apply IH; [|reflexivity].
      intros x' y' Hin; apply HP; right; exact Hin.
Qed.

Lemma mapM_Raise {A B} (f : A -> result B) (xs : list A) (e : exn) :
  mapM f xs = Raise e -> exists x, In x xs /\ f x = Raise e.
Proof.
  induction xs as [|x xs IH]; simpl; [discriminate|].
  destruct (f x) as [y|e'] eqn:Hfx; simpl.
  - destruct (mapM f xs) as [ys|e'']; simpl; [discriminate|].
    intros [= ->]. destruct IH as [x' [Hin Hx']]; [reflexivity|].
    exists x'; split; [right; exact Hin | exact Hx'].
  - intros [= ->]. exists x; split; [left; reflexivity | exact Hfx].
Qed.

(** ** The planner: step length and hardware averaging *)

Section StepLength.

Import Detector.
Variable imports : ProcessorImports.





End StepLength.

(** C2.  The snap of [_limit_step_length] below 24 is to the CLOSEST member
    of the coarse set, not downwards: with a user cap of 11 points and a
    profile whose FWHM rule allows at least 11, the limit is 11 and the
    step length returned is 12, which exceeds it (snapping down would give
    8). *)
Theorem _limit_step_length_exceeds_limit
    (imports : Detector.ProcessorImports) (profile : Profile) :
  11 <= step_length_limit imports profile None ->
  step_length_limit imports profile (Some 11) = 11
  /\ Detector._limit_step_length imports profile (Some 11) = 12.
Proof.
  intros Hfwhm.
  assert (Hlimit : step_length_limit imports profile (Some 11) = 11).
  { unfold step_length_limit in *. lia. }
  split; [exact Hlimit|].
  unfold Detector._limit_step_length.
  fold (step_length_limit imports profile (Some 11)).
  rewrite Hlimit. reflexivity.
Qed.

Lemma _limit_step_length_exceeds_limit_witness :
  11 <= step_length_limit width_imports PROFILE_5 None
  /\ step_length_limit width_imports PROFILE_5 (Some 11) = 11
  /\ Detector._limit_step_length width_imports PROFILE_5 (Some 11) = 12.
Proof.
  split.
  - vm_compute; discriminate.
  - apply (_limit_step_length_exceeds_limit width_imports PROFILE_5).
    vm_compute; discriminate.
Defined.

(** Without any user cap the same happens for [PROFILE_4] when the FWHM
    table holds the envelope widths of the source: the limit is 19, the
    step length returned is 24. *)
Example _limit_step_length_profile_4 :
  step_length_limit width_imports PROFILE_4 None = 19
  /\ Detector._limit_step_length width_imports PROFILE_4 None = 24.
Proof. split; reflexivity. Qed.

Lemma np_clip_bounds (x lo hi : Z) : lo <= hi -> lo <= np_clip x lo hi <= hi.
Proof. unfold np_clip; lia. Qed.

Lemma hwaas_in_subsweep_Raise rlg bp sq e :
  Detector.hwaas_in_subsweep rlg bp sq = Raise e -> bp < 0.
Proof.
  unfold Detector.hwaas_in_subsweep.
  destruct (Z.ltb_spec bp 0) as [Hneg|_]; [intros _; exact Hneg|].
  destruct (bp =? 0); discriminate.
Qed.

Lemma hwaas_in_subsweep_Ok rlg bp sq :
  0 <= bp -> exists h, Detector.hwaas_in_subsweep rlg bp sq = Ok h.
Proof.
  intros Hbp. unfold Detector.hwaas_in_subsweep.
  destruct (Z.ltb_spec bp 0) as [Hneg|_]; [lia|].
  destruct (bp =? 0); eexists; reflexivity.
Qed.

Lemma _calculate_hwaas_cases (profile : Profile) (breakpoints : list Z)
    (signal_quality : Q) :
  match Detector._calculate_hwaas profile breakpoints signal_quality with
  | Ok hwaas =>
      length hwaas = (length breakpoints - 1)%nat
      /\ Forall (fun h => Detector.MIN_HWAAS <= h <= Detector.MAX_HWAAS) hwaas
      /\ Detector.MIN_HWAAS = 4 /\ Detector.MAX_HWAAS = 511
  | Raise _ => exists b, In b (tl breakpoints) /\ b < 0
  end.
Proof.
  unfold Detector._calculate_hwaas.
  destruct (mapM _ _) as [hwaas|e] eqn:Hm.
  - split; [|split; [|split; reflexivity]].
    + rewrite (mapM_length _ _ _ Hm), length_seq; reflexivity.
    + refine (mapM_Forall _ _ _ _ _ Hm).
      intros idx h _ Hf.
      destruct (getitem breakpoints (idx + 1)) as [bp|]; simpl in Hf;
        [|discriminate].
      destruct (Detector.hwaas_in_subsweep _ bp signal_quality) as [raw|];
        simpl in Hf; [|discriminate].
      injection Hf as <-. apply np_clip_bounds.
      unfold Detector.MIN_HWAAS, Detector.MAX_HWAAS; lia.
  - destruct (mapM_Raise _ _ _ Hm) as [idx [Hin Hf]].
    apply in_seq in Hin.
    unfold getitem in Hf.
    destruct (nth_error breakpoints (idx + 1)) as [bp|] eqn:Hnth; simpl in Hf.
    + exists bp; split.
      * destruct breakpoints as [|b0 rest]; [destruct idx; discriminate|].
        rewrite Nat.add_1_r in Hnth; simpl in Hnth |- *.
        eapply nth_error_In; exact Hnth.
      * destruct (Detector.hwaas_in_subsweep _ bp signal_quality) as [raw|e']
          eqn:Hh; simpl in Hf; [discriminate|].
        eapply hwaas_in_subsweep_Raise; exact Hh.
    + apply nth_error_None in Hnth. lia.
Qed.



(** ** Processor construction: validation of the subsweeps *)

Section Distinct.

Context {A : Type} (eqb : A -> A -> bool).
Hypothesis eqb_spec : forall x y, eqb x y = true <-> x = y.

Lemma In_distinct (l : list A) (y : A) :
  In y (Processor.distinct eqb l) <-> In y l.
Proof.
  induction l as [|a l IH]; simpl; [tauto|].
  rewrite filter_In, IH. split.
  - intros [H|[H _]]; [left|right]; assumption.
  - intros [H|H]; [left; assumption|].
    destruct (eqb a y) eqn:E.
    + left; apply eqb_spec; exact E.
    + right; split; [assumption | reflexivity].
Qed.

Lemma distinct_cases (l : list A) :
  match Processor.distinct eqb l with
  | [] => l = []
  | [x] => l <> [] /\ forall y, In y l -> y = x
  | x :: y :: _ => In x l /\ In y l /\ x <> y
  end.
Proof.
  destruct l as [|a l]; simpl; [reflexivity|].
  destruct (filter _ _) as [|y rest] eqn:Hf.
  - split; [discriminate|].
    intros y [<-|Hy]; [reflexivity|].
    destruct (eqb a y) eqn:E; [symmetry; apply eqb_spec; exact E|].
    assert (Hin : In y (filter (fun y0 => negb (eqb a y0))
                          (Processor.distinct eqb l))).
    { apply filter_In; split; [apply In_distinct; exact Hy|].
      rewrite E; reflexivity. }
    rewrite Hf in Hin; destruct Hin.
  - assert (Hin : In y (filter (fun y0 => negb (eqb a y0))
                          (Processor.distinct eqb l)))
      by (rewrite Hf; left; reflexivity).
    apply filter_In in Hin. destruct Hin as [Hin Hneq].
    split; [left; reflexivity|]. split.
    + right; apply In_distinct; exact Hin.
    + intros ->. rewrite (proj2 (eqb_spec y y) eq_refl) in Hneq.
      discriminate.
Qed.

End Distinct.

Lemma Profile_eqb_spec (a b : Profile) : Profile_eqb a b = true <-> a = b.
Proof. destruct a, b; simpl; split; congruence. Qed.

Lemma _get_step_length_cases (cs : list SubsweepConfig) :
  match Processor._get_step_length cs with
  | Ok s => cs <> [] /\ forall c, In c cs -> a121.step_length c = s
  | Raise e => e = ValueError "" /\ (cs = [] \/ ~ shares_step_length cs)
  end.
Proof.
  unfold Processor._get_step_length.
  pose proof (distinct_cases Z.eqb Z.eqb_eq (map a121.step_length cs)) as H.
  destruct (Processor.distinct Z.eqb (map a121.step_length cs))
    as [|x [|y rest]]; simpl.
  - split; [reflexivity|]. left. destruct cs; [reflexivity|discriminate].
  - destruct H as [Hne Hall]. split.
    + intros ->; apply Hne; reflexivity.
    + intros c Hc. apply Hall. apply in_map; exact Hc.
  - split; [reflexivity|]. right. destruct H as [Hx [Hy Hneq]].
    apply in_map_iff in Hx. destruct Hx as [c [<- Hc]].
    apply in_map_iff in Hy. destruct Hy as [c' [<- Hc']].
    intros Hshare. apply Hneq. apply Hshare; assumption.
Qed.

Lemma _get_profile_cases (cs : list SubsweepConfig) :
  match Processor._get_profile cs with
  | Ok p => cs <> [] /\ forall c, In c cs -> a121.profile c = p
  | Raise e => e = ValueError "" /\ (cs = [] \/ ~ shares_profile cs)
  end.
Proof.
  unfold Processor._get_profile.
  pose proof (distinct_cases Profile_eqb Profile_eqb_spec
                (map a121.profile cs)) as H.
  destruct (Processor.distinct Profile_eqb (map a121.profile cs))
    as [|x [|y rest]]; simpl.
  - split; [reflexivity|]. left. destruct cs; [reflexivity|discriminate].
  - destruct H as [Hne Hall]. split.
    + intros ->; apply Hne; reflexivity.
    + intros c Hc. apply Hall. apply in_map; exact Hc.
  - split; [reflexivity|]. right. destruct H as [Hx [Hy Hneq]].
    apply in_map_iff in Hx. destruct Hx as [c [<- Hc]].
    apply in_map_iff in Hy. destruct Hy as [c' [<- Hc']].
    intros Hshare. apply Hneq. apply Hshare; assumption.
Qed.

(** The loop of [_validate_range] started after a subsweep [prev]. *)
Lemma _validate_range_loop_cases (s : Z) (prev : SubsweepConfig)
    (cs : list SubsweepConfig) :
  (forall c, In c (prev :: cs) -> a121.step_length c = s) ->
  match Processor._validate_range_loop s
          (Some (a121.start_point prev + a121.num_points prev * s)) cs with
  | Ok _ => point_contiguous (prev :: cs)
  | Raise e => e = ValueError "" /\ ~ point_contiguous (prev :: cs)
  end.
Proof.
  revert prev; induction cs as [|c cs IH]; intros prev Hs; simpl; [exact I|].
  assert (Hprev : a121.step_length prev = s) by (apply Hs; left; reflexivity).
  destruct (Z.eqb_spec (a121.start_point c)
              (a121.start_point prev + a121.num_points prev * s)) as [He|Hne];
    simpl.
  - specialize (IH c ltac:(intros c' Hc'; apply Hs; right; exact Hc')).
    destruct (Processor._validate_range_loop s _ cs) as [u|e].
    + split; [rewrite Hprev; exact He | exact IH].
    + destruct IH as [-> Hnot]. split; [reflexivity|].
      intros [_ Hc]; apply Hnot; exact Hc.
  - split; [reflexivity|]. intros [He _]. apply Hne. rewrite <- Hprev.
    exact He.
Qed.

Lemma _validate_phase_cases (cs : list SubsweepConfig) :
  match Processor._validate_phase cs with
  | Ok _ => phase_enhanced cs
  | Raise e => e = ValueError "" /\ ~ phase_enhanced cs
  end.
Proof.
  induction cs as [|c cs IH]; simpl; [constructor|].
  destruct (a121.phase_enhancement c) eqn:Hc; simpl.
  - destruct (Processor._validate_phase cs) as [u|e].
    + constructor; assumption.
    + destruct IH as [-> Hnot]; split; [reflexivity|].
      intros H; inversion H; subst; apply Hnot; assumption.
  - split; [reflexivity|]. intros H; inversion H; subst. congruence.
Qed.

Lemma _validate_cases (cs : list SubsweepConfig) :
  match Processor._validate cs with
  | Ok _ =>
      cs <> [] /\ shares_step_length cs /\ point_contiguous cs
      /\ phase_enhanced cs
  | Raise e =>
      e = ValueError ""
      /\ (cs = [] \/ ~ shares_step_length cs \/ ~ point_contiguous cs
          \/ ~ phase_enhanced cs)
  end.
Proof.
  unfold Processor._validate, Processor._validate_range.
  pose proof (_get_step_length_cases cs) as Hstep.
  destruct (Processor._get_step_length cs) as [s|e]; simpl.
  - destruct Hstep as [Hne Hall].
    assert (Hshare : shares_step_length cs).
    { intros c c' Hc Hc'. rewrite (Hall c Hc), (Hall c' Hc'); reflexivity. }
    destruct cs as [|c cs]; [congruence|].
    simpl. pose proof (_validate_range_loop_cases s c cs Hall) as Hloop.
    destruct (Processor._validate_range_loop s _ cs) as [u|e]; simpl.
    + pose proof (_validate_phase_cases (c :: cs)) as Hphase.
      simpl in Hphase.
      destruct (if negb (a121.phase_enhancement c) then _ else _) as [u'|e].
      * tauto.
      * destruct Hphase as [-> Hnot]. split; [reflexivity|]. tauto.
    + destruct Hloop as [-> Hnot]. split; [reflexivity|]. tauto.
  - destruct Hstep as [-> [H|H]]; (split; [reflexivity|]); tauto.
Qed.

Lemma distance_filter_init_margin_not_ValueError profile step_length msg :
  Processor.distance_filter_init_margin profile step_length
  <> Raise (ValueError msg).
Proof.
  unfold Processor.distance_filter_init_margin.
  destruct (step_length =? 0); discriminate.
Qed.

(** What [__init__] does with a selection [cs] that the index lookup
    returned: a ValueError exactly when validation rejects it. *)
Lemma Processor_init_ValueError_iff sensor_config base idx cs :
  Processor._get_subsweep_configs sensor_config
    (selected_indexes sensor_config idx) = Ok cs ->
  (exists msg, Processor.__init__ sensor_config base idx
               = Raise (ValueError msg))
  <-> (cs = [] \/ ~ shares_profile cs \/ ~ shares_step_length cs
       \/ ~ phase_enhanced cs \/ ~ point_contiguous cs).
Proof.
  intros Hsel. unfold Processor.__init__.
  fold (selected_indexes sensor_config idx). rewrite Hsel. simpl.
  pose proof (_validate_cases cs) as Hv.
  destruct (Processor._validate cs) as [u|e]; simpl.
  - destruct Hv as [Hne [Hstep [Hcont Hphase]]].
    pose proof (_get_profile_cases cs) as Hp.
    destruct (Processor._get_profile cs) as [p|e]; simpl.
    + destruct Hp as [_ Hp].
      assert (Hprof : shares_profile cs).
      { intros c c' Hc Hc'. rewrite (Hp c Hc), (Hp c' Hc'); reflexivity. }
      pose proof (_get_step_length_cases cs) as Hs.
      destruct (Processor._get_step_length cs) as [s|e]; simpl.
      * split; [|tauto]. intros [msg Hraise]. exfalso.
        unfold Processor._get_start_point in Hraise.
        destruct cs as [|c cs]; [congruence|]. simpl in Hraise.
        destruct base as [b|]; simpl in Hraise; [|discriminate].
        destruct (Processor.distance_filter_init_margin p s) as [m|e] eqn:Hm;
          simpl in Hraise; [discriminate|].
        injection Hraise as ->.
        exact (distance_filter_init_margin_not_ValueError _ _ _ Hm).
      * destruct Hs as [-> Hs]. split; [tauto|]. intros _. eexists; reflexivity.
    + destruct Hp as [-> Hp]. split; [tauto|]. intros _. eexists; reflexivity.
  - destruct Hv as [-> Hv]. split; [tauto|]. intros _. eexists; reflexivity.
Qed.

Lemma Processor_init_returns sensor_config b idx cs :
  Processor._get_subsweep_configs sensor_config
    (selected_indexes sensor_config idx) = Ok cs ->
  cs <> [] -> shares_profile cs -> shares_step_length cs ->
  phase_enhanced cs -> point_contiguous cs ->
  (forall c, In c cs -> a121.step_length c <> 0) ->
  exists attrs,
    Processor.__init__ sensor_config (Some b) idx = Ok attrs
    /\ forall c, In c cs ->
         a121.profile c = Processor.profile attrs
         /\ a121.step_length c = Processor.step_length attrs.
Proof.
  intros Hsel Hne Hprof Hstep Hphase Hcont Hnz. unfold Processor.__init__.
  fold (selected_indexes sensor_config idx). rewrite Hsel. simpl.
  pose proof (_validate_cases cs) as Hv.
  destruct (Processor._validate cs) as [u|e]; simpl; [|tauto].
  pose proof (_get_profile_cases cs) as Hp.
  destruct (Processor._get_profile cs) as [p|e]; simpl; [|tauto].
  pose proof (_get_step_length_cases cs) as Hs.
  destruct (Processor._get_step_length cs) as [s|e]; simpl; [|tauto].
  destruct Hp as [_ Hp]. destruct Hs as [_ Hs].
  destruct cs as [|c cs]; [congruence|].
  unfold Processor._get_start_point; simpl.
  unfold Processor.distance_filter_init_margin.
  destruct (Z.eqb_spec s 0) as [->|Hs0].
  - exfalso. apply (Hnz c); [left; reflexivity|]. apply Hs. left; reflexivity.
  - simpl. eexists; split; [reflexivity|]. simpl.
    intros c' Hc'. split; [apply Hp | apply Hs]; exact Hc'.
Qed.

(** In distance-estimation mode with the recorded method, the mode set-up
    that ends [__init__] refuses a missing recorded threshold, whatever the
    subsweeps. *)
Lemma _init_process_distance_estimation_missing_threshold attrs config context :
  Processor.threshold_method config = RECORDED ->
  (context = None
   \/ exists c, context = Some c /\ Processor.recorded_threshold c = None) ->
  Processor._init_process_distance_estimation attrs config context
  = Raise (ValueError "Missing recorded threshold in context").
Proof.
  intros Hm Hc. unfold Processor._init_process_distance_estimation.
  rewrite Hm. destruct Hc as [->|[c [-> Hc]]]; [reflexivity|].
  destruct c as [thr noise]; simpl in Hc; subst; reflexivity.
Qed.

(** C9, as stated, fails on the empty selection: it satisfies the four
    conditions, and construction raises ValueError. *)
Lemma Processor_init_empty_selection :
  shares_profile [] /\ shares_step_length [] /\ phase_enhanced []
  /\ point_contiguous []
  /\ Processor._get_subsweep_configs two_subsweeps [] = Ok []
  /\ Processor.__init__ two_subsweeps (Some 2.5e-3%Q) (Some [])
     = Raise (ValueError "").
Proof.
  repeat split; try (intros c c' []); try constructor.
Qed.

(** C9 (amended).  For the subsweeps [cs] selected by the indexes,
    construction raises ValueError in its validation of the subsweeps if
    and only if [cs] is empty or violates one of: same profile, same step
    length, phase enhancement everywhere, contiguous point ranges.  A
    non-empty selection satisfying the four passes: with a base step length
    in the metadata and a non-zero step length, [__init__] derives its
    attributes, among them the shared profile and step length. *)
Theorem Processor_init_validation sensor_config base idx cs :
  Processor._get_subsweep_configs sensor_config
    (selected_indexes sensor_config idx) = Ok cs ->
  ((exists msg, Processor.__init__ sensor_config base idx
                = Raise (ValueError msg))
   <-> (cs = [] \/ ~ shares_profile cs \/ ~ shares_step_length cs
        \/ ~ phase_enhanced cs \/ ~ point_contiguous cs))
  /\ (cs <> [] -> shares_profile cs -> shares_step_length cs ->
      phase_enhanced cs -> point_contiguous cs ->
      forall b, base = Some b ->
      (forall c, In c cs -> a121.step_length c <> 0) ->
      exists attrs,
        Processor.__init__ sensor_config base idx = Ok attrs
        /\ forall c, In c cs ->
             a121.profile c = Processor.profile attrs
             /\ a121.step_length c = Processor.step_length attrs).
Proof.
  intros Hsel. split.
  - apply Processor_init_ValueError_iff; exact Hsel.
  - intros Hne Hprof Hstep Hphase Hcont b -> Hnz.
    apply (Processor_init_returns sensor_config b idx cs); assumption.
Qed.

Lemma two_subsweeps_valid :
  subsweeps two_subsweeps <> []
  /\ shares_profile (subsweeps two_subsweeps)
  /\ shares_step_length (subsweeps two_subsweeps)
  /\ phase_enhanced (subsweeps two_subsweeps)
  /\ point_contiguous (subsweeps two_subsweeps)
  /\ (forall c, In c (subsweeps two_subsweeps) -> a121.step_length c <> 0).
Proof.
  simpl. repeat split; try discriminate.
  - intros c c' [<-|[<-|[]]] [<-|[<-|[]]]; reflexivity.
  - intros c c' [<-|[<-|[]]] [<-|[<-|[]]]; reflexivity.
  - repeat constructor.
  - intros c [<-|[<-|[]]]; discriminate.
Qed.

Lemma Processor_init_validation_witness :
  Processor._get_subsweep_configs two_subsweeps
    (selected_indexes two_subsweeps None) = Ok (subsweeps two_subsweeps)
  /\ ((exists msg, Processor.__init__ two_subsweeps (Some 2.5e-3%Q) None
                   = Raise (ValueError msg))
      <-> (subsweeps two_subsweeps = []
           \/ ~ shares_profile (subsweeps two_subsweeps)
           \/ ~ shares_step_length (subsweeps two_subsweeps)
           \/ ~ phase_enhanced (subsweeps two_subsweeps)
           \/ ~ point_contiguous (subsweeps two_subsweeps)))
  /\ exists attrs,
       Processor.__init__ two_subsweeps (Some 2.5e-3%Q) None = Ok attrs
       /\ forall c, In c (subsweeps two_subsweeps) ->
            a121.profile c = Processor.profile attrs
            /\ a121.step_length c = Processor.step_length attrs.
Proof.
  split; [reflexivity|].
  destruct (Processor_init_validation two_subsweeps (Some 2.5e-3%Q) None
              (subsweeps two_subsweeps) eq_refl) as [Hiff Hok].
  split; [exact Hiff|].
  destruct two_subsweeps_valid as [Hne [Hp [Hs [Hph [Hc Hnz]]]]].
  exact (Hok Hne Hp Hs Hph Hc _ eq_refl Hnz).
Defined.

(** ** The detector life cycle *)

Section LifecycleGuards.

Import Detector.
Variable imports : ProcessorImports.
Variables World ExtendedMetadata ExtendedResult Aggregator : Type.
Variables Recorder RecorderResult : Type.
Variable env :
  Collaborators World ExtendedMetadata ExtendedResult Aggregator Recorder
    RecorderResult.

Lemma get_next_not_started (d : Detector Aggregator) (w : World) :
  started d = false ->
  get_next env (d, w) = (Raise (RuntimeError "Not started"), (d, w)).
Proof.
  intros H. unfold get_next, mbind, self, raise; simpl. rewrite H.
  reflexivity.
Qed.

Lemma get_next_started (d : Detector Aggregator) (w : World) :
  started d = true ->
  forall msg, fst (get_next env (d, w)) <> Raise (RuntimeError msg).
Proof.
  intros H msg. unfold get_next, mbind, self, raise, external, ret; simpl.
  rewrite H; simpl.
  destruct (aggregator d) as [agg|]; simpl; [|discriminate].
  destruct (client_get_next env w) as [[er|code] w1]; simpl; [|discriminate].
  destruct (Aggregator_process env agg er w1) as [[ar|code] w2]; simpl;
    discriminate.
Qed.

Lemma get_next_returns (d : Detector Aggregator) (w : World) agg er w1 ar w2 :
  started d = true -> aggregator d = Some agg ->
  client_get_next env w = (Reply er, w1) ->
  Aggregator_process env agg er w1 = (Reply ar, w2) ->
  get_next env (d, w)
  = (Ok {| DetectorResult.distances := estimated_distances ar;
           DetectorResult.processor_results := processor_results ar;
           DetectorResult.service_extended_result :=
             service_extended_result ar |},
     (d, w2)).
Proof.
  intros H Hagg Hnext Hproc.
  unfold get_next, mbind, self, raise, external, ret; simpl.
  rewrite H, Hagg; simpl. rewrite Hnext; simpl. rewrite Hproc; reflexivity.
Qed.

Lemma stop_not_started (d : Detector Aggregator) (w : World) :
  started d = false ->
  stop env (d, w) = (Raise (RuntimeError "Already stopped"), (d, w)).
Proof.
  intros H. unfold stop, mbind, self, raise; simpl. rewrite H. reflexivity.
Qed.

Lemma stop_started (d : Detector Aggregator) (w : World) :
  started d = true ->
  match client_stop_session env w with
  | (Reply r, w1) => stop env (d, w) = (Ok r, (set_started false d, w1))
  | (Fail code, w1) => stop env (d, w) = (Raise (ExternalError code), (d, w1))
  end.
Proof.
  intros H. unfold stop, mbind, self, raise, external, assign, ret; simpl.
  rewrite H; simpl.
  destruct (client_stop_session env w) as [[r|code] w1]; reflexivity.
Qed.

Lemma start_already_started (d : Detector Aggregator) (w : World) recorder :
  started d = true ->
  start imports env recorder (d, w)
  = (Raise (RuntimeError "Already started"), (d, w)).
Proof.
  intros H. unfold start, mbind, self, raise; simpl. rewrite H. reflexivity.
Qed.

(** C8.  [get_next] raises its not-started error exactly when the
    detector is not started, and once started raises no life-cycle error
    and hands back the aggregator's result; [stop] raises its own error
    exactly when the detector is not started, and on success clears
    [started], so that a second [stop] is rejected; [start] on a started
    detector is rejected.  (A failure of the sensor link or of the
    aggregator is passed on as it is.) *)
Theorem lifecycle_guards (d : Detector Aggregator) (w : World) :
  (fst (get_next env (d, w)) = Raise (RuntimeError "Not started")
   <-> started d = false)
  /\ (started d = true ->
      (forall msg, fst (get_next env (d, w)) <> Raise (RuntimeError msg))
      /\ forall agg er w1 ar w2,
           aggregator d = Some agg ->
           client_get_next env w = (Reply er, w1) ->
           Aggregator_process env agg er w1 = (Reply ar, w2) ->
           exists result, get_next env (d, w) = (Ok result, (d, w2)))
  /\ ((exists msg, fst (stop env (d, w)) = Raise (RuntimeError msg))
      <-> started d = false)
  /\ (started d = true ->
      forall r w1,
        client_stop_session env w = (Reply r, w1) ->
        exists d',
          stop env (d, w) = (Ok r, (d', w1))
          /\ started d' = false
          /\ forall w2,
               stop env (d', w2)
               = (Raise (RuntimeError "Already stopped"), (d', w2)))
  /\ (started d = true ->
      forall recorder,
        start imports env recorder (d, w)
        = (Raise (RuntimeError "Already started"), (d, w))).
Proof.
  repeat split.
  - intros Hraise. destruct (started d) eqn:Hs; [|reflexivity].
    exfalso. exact (get_next_started d w Hs _ Hraise).
  - intros Hs. rewrite (get_next_not_started d w Hs). reflexivity.
  - apply get_next_started; assumption.
  - intros agg er w1 ar w2 Hagg Hnext Hproc. eexists.
    apply (get_next_returns d w agg er w1 ar w2); assumption.
  - intros [msg Hraise]. destruct (started d) eqn:Hs; [|reflexivity].
    exfalso. pose proof (stop_started d w Hs) as Hstop.
    destruct (client_stop_session env w) as [[r|code] w1];
      rewrite Hstop in Hraise; discriminate.
  - intros Hs. rewrite (stop_not_started d w Hs). eexists; reflexivity.
  - intros Hs r w1 Hreply. pose proof (stop_started d w Hs) as Hstop.
    rewrite Hreply in Hstop. exists (set_started false d).
    split; [exact Hstop|]. split; [reflexivity|].
    intros w2. apply stop_not_started. reflexivity.
  - intros Hs recorder. apply start_already_started; exact Hs.
Qed.

End LifecycleGuards.

Lemma lifecycle_guards_witness :
  Detector.started running_detector = true
  /\ (exists result,
        Detector.get_next answering (running_detector, O)
        = (Ok result, (running_detector, 1%nat)))
  /\ (exists d',
        Detector.stop answering (running_detector, O) = (Ok tt, (d', O))
        /\ Detector.started d' = false
        /\ forall w2,
             Detector.stop answering (d', w2)
             = (Raise (RuntimeError "Already stopped"), (d', w2)))
  /\ Detector.start width_imports answering None (running_detector, O)
     = (Raise (RuntimeError "Already started"), (running_detector, O)).
Proof.
  destruct (lifecycle_guards width_imports nat unit unit unit unit unit
              answering running_detector O)
    as [_ [Hnext [_ [Hstop Hstart]]]].
  split; [reflexivity|]. split; [|split].
  - destruct (Hnext eq_refl) as [_ Hresult].
    exact (Hresult tt tt 1%nat answering_result 1%nat eq_refl eq_refl eq_refl).
  - exact (Hstop eq_refl tt O eq_refl).
  - exact (Hstart eq_refl None).
Defined.

Section CloseRangeCalibration.

Import Detector.
Variables World ExtendedMetadata ExtendedResult Aggregator : Type.
Variables Recorder RecorderResult : Type.
Variable env :
  Collaborators World ExtendedMetadata ExtendedResult Aggregator Recorder
    RecorderResult.

Local Arguments _update_processor_mode : simpl never.

Lemma _filter_close_range_spec_Ok specs l :
  _filter_close_range_spec specs = Ok l ->
  l = filter is_close_range specs /\ exists spec, l = [spec].
Proof.
  unfold _filter_close_range_spec.
  destruct (filter is_close_range specs) as [|spec [|spec' rest]]; simpl;
    try discriminate.
  intros [= <-]. split; [reflexivity | eexists; reflexivity].
Qed.

Lemma _filter_close_range_spec_Raise specs :
  length (filter is_close_range specs) <> 1%nat ->
  exists e, _filter_close_range_spec specs = Raise e.
Proof.
  intros H. unfold _filter_close_range_spec.
  destruct (Nat.eqb_spec (length (filter is_close_range specs)) 1);
    [contradiction|]. simpl. eexists; reflexivity.
Qed.

Lemma calibrate_close_range_success (d : Detector Aggregator) (w w' : World)
    spec ar r pjcr :
  started d = false ->
  filter is_close_range (processor_specs d) = [spec] ->
  leakage_frame env d spec w w' ar ->
  processor_results ar = [r] ->
  ProcessorResult.phase_jitter_comp_reference r = Some pjcr ->
  calibrate_close_range env (d, w)
  = (Ok tt, (set_context (calibrated_context d r pjcr) d, w')).
Proof.
  intros Hs Hf Hframe Hr Hp.
  destruct Hframe as (md & w1 & agg & w2 & w3 & er & w4 & w5 & rr
                      & H1 & H2 & H3 & H4 & H5 & H6).
  unfold calibrate_close_range, mbind, self, raise, external, lift,
    assign_context, assign, ret; simpl.
  rewrite Hs. unfold _filter_close_range_spec. rewrite Hf; simpl.
  rewrite H1; simpl. rewrite H2; simpl. rewrite H3; simpl.
  rewrite H4; simpl. rewrite H5; simpl. rewrite H6; simpl.
  rewrite Hr; simpl. rewrite Hp; simpl. reflexivity.
Qed.

Lemma calibrate_close_range_inversion (d d' : Detector Aggregator)
    (w w' : World) :
  calibrate_close_range env (d, w) = (Ok tt, (d', w')) ->
  started d = false
  /\ exists spec ar r pjcr,
       filter is_close_range (processor_specs d) = [spec]
       /\ leakage_frame env d spec w w' ar
       /\ processor_results ar = [r]
       /\ ProcessorResult.phase_jitter_comp_reference r = Some pjcr
       /\ d' = set_context (calibrated_context d r pjcr) d.
Proof.
  unfold calibrate_close_range, mbind, self, raise, external, lift,
    assign_context, assign, ret; simpl.
  destruct (started d) eqn:Hs; [discriminate|].
  destruct (_filter_close_range_spec (processor_specs d)) as [l|e] eqn:Hf;
    [|discriminate].
  apply _filter_close_range_spec_Ok in Hf. destruct Hf as [Hl [spec ->]].
  simpl.
  destruct (client_setup_session env (session_config d) w)
    as [[md|c] w1] eqn:H1; [|discriminate]. simpl.
  destruct (Aggregator_new env (session_config d) md None _ w1)
    as [[agg|c] w2] eqn:H2; [|discriminate]. simpl.
  destruct (client_start_session env None w2) as [[[]|c] w3] eqn:H3;
    [|discriminate]. simpl.
  destruct (client_get_next env w3) as [[er|c] w4] eqn:H4; [|discriminate].
  simpl.
  destruct (Aggregator_process env agg er w4) as [[ar|c] w5] eqn:H5;
    [|discriminate]. simpl.
  destruct (client_stop_session env w5) as [[rr|c] w6] eqn:H6;
    [|discriminate]. simpl.
  destruct (processor_results ar) as [|r [|r' rest]] eqn:Hr; simpl;
    try discriminate.
  destruct (ProcessorResult.phase_jitter_comp_reference r) as [pjcr|] eqn:Hp;
    simpl; [|discriminate].
  intros [= <- <-]. split; [reflexivity|].
  exists spec, ar, r, pjcr. split; [symmetry; exact Hl|].
  split; [|split; [exact Hr|split; [exact Hp|reflexivity]]].
  exists md, w1, agg, w2, w3, er, w4, w5, rr. repeat split; assumption.
Qed.

Lemma calibrate_close_range_rejects (d : Detector Aggregator) (w : World) :
  length (filter is_close_range (processor_specs d)) <> 1%nat ->
  exists e, calibrate_close_range env (d, w) = (Raise e, (d, w)).
Proof.
  intros H.
  unfold calibrate_close_range, mbind, self, raise, lift; simpl.
  destruct (started d); [eexists; reflexivity|].
  destruct (_filter_close_range_spec_Raise _ H) as [e ->].
  eexists; reflexivity.
Qed.

(** C7.  With the detector not started and exactly one close-range spec,
    a [calibrate_close_range] whose collaborators answer stores the
    direct leakage and the phase-jitter reference of the single processor
    result, records the session configuration used and resets
    [recorded_thresholds] to [None]; the remaining context field and every
    other attribute of the detector are untouched.  Every successful call
    is of this form.  With no or several close-range specs the call
    raises and changes nothing. *)
Theorem calibrate_close_range_effect (d : Detector Aggregator) (w : World) :
  (forall w' spec ar r pjcr,
     started d = false ->
     filter is_close_range (processor_specs d) = [spec] ->
     leakage_frame env d spec w w' ar ->
     processor_results ar = [r] ->
     ProcessorResult.phase_jitter_comp_reference r = Some pjcr ->
     calibrate_close_range env (d, w)
     = (Ok tt, (set_context (calibrated_context d r pjcr) d, w')))
  /\ (forall d' w',
        calibrate_close_range env (d, w) = (Ok tt, (d', w')) ->
        started d = false
        /\ exists spec ar r pjcr,
             filter is_close_range (processor_specs d) = [spec]
             /\ leakage_frame env d spec w w' ar
             /\ processor_results ar = [r]
             /\ ProcessorResult.phase_jitter_comp_reference r = Some pjcr
             /\ d' = set_context (calibrated_context d r pjcr) d)
  /\ (length (filter is_close_range (processor_specs d)) <> 1%nat ->
      exists e, calibrate_close_range env (d, w) = (Raise e, (d, w))).
Proof.
  split; [|split].
  - intros w' spec ar r pjcr. apply calibrate_close_range_success.
  - intros d' w'. apply calibrate_close_range_inversion.
  - apply calibrate_close_range_rejects.
Qed.

End CloseRangeCalibration.

Lemma calibrate_close_range_effect_witness :
  exists d',
    Detector.calibrate_close_range answering (idle_detector, O)
    = (Ok tt, (d', 1%nat))
    /\ Detector.direct_leakage (Detector.context d') = Some [(1%Q, 0%Q)]
    /\ Detector.phase_jitter_comp_reference (Detector.context d') = Some [0%Q]
    /\ Detector.recorded_thresholds (Detector.context d') = None
    /\ Detector.close_range_session_config_used (Detector.context d')
       = Some (Detector.session_config idle_detector).
Proof.
  destruct (calibrate_close_range_effect nat unit unit unit unit unit
              answering idle_detector O) as [Hsuccess _].
  eexists. split.
  - apply (Hsuccess 1%nat
             (Detector.mk_spec
                (Detector.close_range_processor_config width_imports)
                0 1 [0; 1])
             answering_result
             {| ProcessorResult.recorded_threshold := Some [1%Q];
                ProcessorResult.direct_leakage := Some [(1%Q, 0%Q)];
                ProcessorResult.phase_jitter_comp_reference := Some [0%Q] |}
             [0%Q]); try reflexivity.
    exists tt, O, tt, O, O, tt, 1%nat, 1%nat, tt.
    repeat split; reflexivity.
  - repeat split; reflexivity.
Defined.

(** ** Peak interpolation *)

(** What [_interpolate_peaks] gets right: for three samples that are not
    on a line, the coefficients it computes are those of the quadratic
    through the samples, the location is its vertex and the amplitude its
    value there. *)
Lemma interpolate_peak_quadratic (abs_sweep : list Q) (p start step : Z)
    (y0 y1 y2 : Q) :
  Py.slice abs_sweep (p - 1) (p + 2) = [y0; y1; y2] ->
  ~ (y0 - 2 * y1 + y2 == 0)%Q ->
  exists a b c loc distance amplitude,
    Processor.interpolate_peak abs_sweep p start step
    = Ok (Some distance, Some amplitude)
    /\ (quadratic a b c (inject_Z (p - 1)) == y0)%Q
    /\ (quadratic a b c (inject_Z p) == y1)%Q
    /\ (quadratic a b c (inject_Z (p + 1)) == y2)%Q
    /\ (2 * a * loc + b == 0)%Q
    /\ (amplitude == quadratic a b c loc)%Q
    /\ (distance == (inject_Z start + loc * inject_Z step) * 2.5)%Q.
Proof.
  intros Hslice Hcurved. unfold Processor.interpolate_peak.
  rewrite Hslice; simpl.
  set (x0 := inject_Z (p - 1)). set (x1 := inject_Z p).
  set (x2 := inject_Z (p + 1)).
  assert (Hx0 : (x0 == x1 - 1)%Q).
  { unfold x0, x1. rewrite <- Z.add_opp_r, inject_Z_plus. reflexivity. }
  assert (Hx2 : (x2 == x1 + 1)%Q).
  { unfold x2, x1. rewrite inject_Z_plus. reflexivity. }
  set (a := ((x0 * (y2 - y1) + x1 * (y0 - y2) + x2 * (y1 - y0))
             / ((x0 - x1) * (x0 - x2) * (x1 - x2)))%Q).
  set (b := ((y1 - y0) / (x1 - x0) - a * (x0 + x1))%Q).
  set (c := (y0 - a * x0 ^ 2 - b * x0)%Q).
  assert (Ha : (a == (y0 - 2 * y1 + y2) / 2)%Q).
  { unfold a. rewrite Hx0, Hx2. field. split; lra. }
  assert (Hb : (b == (y1 - y0) - a * (2 * x1 - 1))%Q).
  { unfold b. rewrite Hx0. field. lra. }
  assert (Hne : ~ (a == 0)%Q).
  { rewrite Ha. intros H. apply Hcurved.
    setoid_replace (y0 - 2 * y1 + y2)%Q with (2 * ((y0 - 2 * y1 + y2) / 2))%Q
      by field.
    rewrite H. reflexivity. }
  destruct (Qeq_bool a 0) eqn:E; [apply Qeq_bool_iff in E; contradiction|].
  exists a, b, c, (- b / (2 * a))%Q. do 2 eexists.
  split; [reflexivity|]. unfold quadratic.
  fold x0 x1 x2.
  split; [|split; [|split; [|split; [|split]]]].
  - unfold c. ring.
  - unfold c. rewrite Hb, Hx0. ring.
  - unfold c. rewrite Hb, Hx0, Hx2.
    setoid_replace y2 with (2 * a - y0 + 2 * y1)%Q; [ring|].
    rewrite Ha. field.
  - field. exact Hne.
  - reflexivity.
  - reflexivity.
Qed.

(** On samples of [y = -(x - 5)^2 + 10] the vertex is found at [x = 5]
    with amplitude [10]; the envelope below holds the samples at
    [x = 3 .. 7], so that [start_point = 3] and the distance reported is
    that of point [5]. *)
Lemma interpolate_peak_parabola :
  exists distance amplitude,
    Processor.interpolate_peak [6; 9; 10; 9; 6]%Q 2 3 1
    = Ok (Some distance, Some amplitude)
    /\ (distance == 5 * 2.5)%Q /\ (amplitude == 10)%Q.
Proof.
  do 2 eexists. split; [vm_compute; reflexivity|]. split; reflexivity.
Qed.

(** C4.  The distance [_interpolate_peaks] reports is the interpolated
    point index times the literal [2.5], not times the base step length in
    metres: for the parabola samples above with [start_point = 3] and
    [step_length = 1] the vertex is at point 5 and the amplitude is 10, as
    claimed, but the distance reported is [12.5], where the claim's formula
    with the base step length of [2.5e-3] m gives [0.0125]. *)
Theorem _interpolate_peaks_distance_not_in_metres :
  exists distance amplitude,
    Processor._interpolate_peaks [6; 9; 10; 9; 6]%Q [2] 3 1
    = Ok ([Some distance], [Some amplitude])
    /\ (amplitude == 10)%Q
    /\ (distance == 5 * 2.5)%Q
    /\ ~ (distance == 5 * Processor.APPROX_BASE_STEP_LENGTH_M)%Q.
Proof.
  do 2 eexists. split; [vm_compute; reflexivity|].
  split; [reflexivity|]. split; [reflexivity|].
  intros H. vm_compute in H. discriminate.
Qed.

(** ** CFAR threshold and peak search *)

Lemma set_nth_length {A} (l : list A) (i : nat) (v : A) :
  length (set_nth l i v) = length l.
Proof.
  revert i; induction l as [|x l IH]; intros [|i]; simpl; auto.
Qed.

Lemma nth_error_set_nth_eq {A} (l : list A) (i : nat) (v : A) :
  (i < length l)%nat -> nth_error (set_nth l i v) i = Some v.
Proof.
  revert i; induction l as [|x l IH]; intros [|i]; simpl; intros H;
    try lia; auto.
  apply IH; lia.
Qed.

Lemma nth_error_set_nth_neq {A} (l : list A) (i j : nat) (v : A) :
  i <> j -> nth_error (set_nth l i v) j = nth_error l j.
Proof.
  revert i j; induction l as [|x l IH]; intros [|i] [|j]; simpl; intros H;
    try congruence; auto.
Qed.

Lemma getitem_int_Ok {A} (l : list A) (i : Z) :
  0 <= i < Z.of_nat (length l) ->
  exists a, getitem_int l i = Ok a /\ nth_error l (Z.to_nat i) = Some a.
Proof.
  intros Hi. unfold getitem_int, getitem.
  destruct (Z.ltb_spec i (- Z.of_nat (length l))); [lia|].
  destruct (Z.leb_spec (Z.of_nat (length l)) i); [lia|]. simpl.
  destruct (Z.ltb_spec i 0); [lia|].
  destruct (nth_error l (Z.to_nat i)) as [a|] eqn:Hn.
  - exists a; split; reflexivity.
  - apply nth_error_None in Hn. lia.
Qed.

Lemma np_take_Ok (a : list Q) (indexes : list Z) :
  Forall (fun i => 0 <= i < Z.of_nat (length a)) indexes ->
  exists l, Processor.np_take a indexes = Ok l.
Proof.
  unfold Processor.np_take. induction 1 as [|i rest Hi _ IH]; simpl.
  - eexists; reflexivity.
  - destruct (getitem_int_Ok a i Hi) as [x [-> _]]. simpl.
    destruct IH as [l ->]. simpl. eexists; reflexivity.
Qed.

Lemma setitem_int_Ok {A} (l : list A) (i : Z) (v : A) :
  0 <= i < Z.of_nat (length l) ->
  setitem_int l i v = Ok (set_nth l (Z.to_nat i) v).
Proof.
  intros Hi. unfold setitem_int.
  destruct (Z.ltb_spec i (- Z.of_nat (length l))); [lia|].
  destruct (Z.leb_spec (Z.of_nat (length l)) i); [lia|]. simpl.
  destruct (Z.ltb_spec i 0); [lia|]. reflexivity.
Qed.

Lemma fold_left_max_ge (l : list Z) (x : Z) :
  x <= fold_left Z.max l x /\ Forall (fun y => y <= fold_left Z.max l x) l.
Proof.
  revert x; induction l as [|y l IH]; intros x; simpl.
  - split; [lia | constructor].
  - destruct (IH (Z.max x y)) as [H1 H2]. split; [lia|].
    constructor; [lia | exact H2].
Qed.

Lemma cfar_start_idx_max (idx_cfar_pts : list Z) :
  idx_cfar_pts <> [] ->
  Processor.np_max idx_cfar_pts = Ok (cfar_start_idx idx_cfar_pts)
  /\ Forall (fun y => y <= cfar_start_idx idx_cfar_pts) idx_cfar_pts
  /\ In (cfar_start_idx idx_cfar_pts) idx_cfar_pts.
Proof.
  destruct idx_cfar_pts as [|x l]; [congruence|]. intros _.
  unfold cfar_start_idx; simpl. split; [reflexivity|].
  destruct (fold_left_max_ge l x) as [H1 H2].
  split; [constructor; assumption|].
  clear H1 H2. revert x; induction l as [|y l IH]; intros x; simpl.
  - left; reflexivity.
  - destruct (IH (Z.max x y)) as [H|H].
    + destruct (Z.max_spec x y) as [[_ E]|[_ E]].
      * right; left. rewrite <- H. symmetry; exact E.
      * left. rewrite <- H. symmetry; exact E.
    + right; right; exact H.
Qed.

(** The loop of [_calculate_cfar_threshold] over indexes whose windows lie
    inside the sweep: it fills exactly those indexes with a number. *)
Lemma cfar_loop_fills (abs_sweep : list Q) (rel : list Z) (idxs : list Z) :
  Forall (fun idx =>
            0 <= idx < Z.of_nat (length abs_sweep)
            /\ Forall (fun r => 0 <= idx + r < Z.of_nat (length abs_sweep)) rel)
    idxs ->
  forall t0 : Processor.threshold_array,
    length t0 = length abs_sweep ->
    exists t1,
      fold_left
        (fun acc idx =>
           threshold <- acc ;;
           taken <- Processor.np_take abs_sweep (map (fun r => idx + r) rel) ;;
           setitem_int threshold idx (Some (Processor.np_mean taken)))
        idxs (Ok t0) = Ok t1
      /\ length t1 = length abs_sweep
      /\ forall i,
           (In (Z.of_nat i) idxs -> exists v, nth_error t1 i = Some (Some v))
           /\ (~ In (Z.of_nat i) idxs -> nth_error t1 i = nth_error t0 i).
Proof.
  induction 1 as [|idx idxs [Hidx Hrel] _ IH]; intros t0 Hlen; simpl.
  - exists t0. split; [reflexivity|]. split; [exact Hlen|].
    intros i; split; [intros [] | reflexivity].
  - assert (Htake : Forall (fun i => 0 <= i < Z.of_nat (length abs_sweep))
                      (map (fun r => idx + r) rel)).
    { rewrite Forall_map. exact Hrel. }
    destruct (np_take_Ok abs_sweep _ Htake) as [taken ->]. simpl.
    rewrite setitem_int_Ok by (rewrite Hlen; exact Hidx).
    destruct (IH (set_nth t0 (Z.to_nat idx) (Some (Processor.np_mean taken))))
      as [t1 [Hfold [Hlen1 Hnth]]].
    { rewrite set_nth_length; exact Hlen. }
    exists t1. split; [exact Hfold|]. split; [exact Hlen1|].
    intros i. destruct (Hnth i) as [Hin Hout]. split.
    + intros [Heq|Hi]; [|apply Hin; exact Hi].
      destruct (In_dec Z.eq_dec (Z.of_nat i) idxs) as [Hi|Hi];
        [apply Hin; exact Hi|].
      rewrite (Hout Hi). subst idx. rewrite Nat2Z.id.
      eexists. apply nth_error_set_nth_eq. lia.
    + intros Hnot. rewrite Hout by (intros Hi; apply Hnot; right; exact Hi).
      apply nth_error_set_nth_neq. intros Heq. apply Hnot. left. lia.
Qed.

Lemma in_np_arange (start stop i : Z) :
  In i (np_arange start stop) <-> start <= i < stop.
Proof.
  unfold np_arange. rewrite in_map_iff. split.
  - intros [k [<- Hk]]. apply in_seq in Hk. lia.
  - intros Hi. exists (Z.to_nat (i - start)). split; [lia|].
    apply in_seq. lia.
Qed.

Lemma nth_error_repeat {A} (v : A) (n i : nat) :
  (i < n)%nat -> nth_error (repeat v n) i = Some v.
Proof.
  revert i; induction n as [|n IH]; intros [|i] H; simpl; try lia; auto.
  apply IH; lia.
Qed.

(** The NaN pattern of the CFAR threshold. *)
Lemma _calculate_cfar_threshold_nan (abs_sweep : list Q) (idx_cfar_pts : list Z)
    (alpha : Q) (one_side : bool) (abs_noise_std : option Q) :
  idx_cfar_pts <> [] ->
  Forall (fun pt => 0 <= pt) idx_cfar_pts ->
  ~ (alpha + 1e-10 == 0)%Q ->
  exists threshold,
    Processor._calculate_cfar_threshold abs_sweep idx_cfar_pts alpha one_side
      abs_noise_std = Ok threshold
    /\ length threshold = length abs_sweep
    /\ forall i, (i < length abs_sweep)%nat ->
         (cfar_start_idx idx_cfar_pts <= Z.of_nat i
            < cfar_end_idx (length abs_sweep) idx_cfar_pts one_side ->
          exists t, nth_error threshold i = Some (Some t))
         /\ (~ cfar_start_idx idx_cfar_pts <= Z.of_nat i
               < cfar_end_idx (length abs_sweep) idx_cfar_pts one_side ->
             nth_error threshold i = Some None).
Proof.
  intros Hne Hpos Halpha. unfold Processor._calculate_cfar_threshold.
  destruct (cfar_start_idx_max idx_cfar_pts Hne) as [-> [Hmax Hin]]. simpl.
  set (start := cfar_start_idx idx_cfar_pts) in *.
  set (N := length abs_sweep).
  set (rel := if one_side then map Z.opp idx_cfar_pts
              else map Z.opp idx_cfar_pts ++ idx_cfar_pts).
  set (stop := cfar_end_idx N idx_cfar_pts one_side).
  change (if one_side then Z.of_nat N else Z.of_nat N - start) with stop.
  assert (Hstart : 0 <= start).
  { rewrite Forall_forall in Hpos. apply Hpos. exact Hin. }
  assert (Hstop : stop <= Z.of_nat N).
  { unfold stop, cfar_end_idx. fold start. destruct one_side; lia. }
  assert (Hwin : Forall (fun idx =>
                           0 <= idx < Z.of_nat N
                           /\ Forall (fun r => 0 <= idx + r < Z.of_nat N) rel)
                   (np_arange start stop)).
  { rewrite Forall_forall. intros idx Hidx. apply in_np_arange in Hidx.
    split; [lia|]. rewrite Forall_forall. intros r Hr.
    rewrite Forall_forall in Hpos, Hmax.
    assert (Hneg : forall r, In r (map Z.opp idx_cfar_pts) ->
                             0 <= idx + r < Z.of_nat N).
    { intros r' Hr'. apply in_map_iff in Hr'. destruct Hr' as [pt [<- Hpt]].
      specialize (Hpos pt Hpt). specialize (Hmax pt Hpt). lia. }
    unfold rel in Hr. destruct one_side; [apply Hneg; exact Hr|].
    apply in_app_or in Hr. destruct Hr as [Hr|Hr]; [apply Hneg; exact Hr|].
    specialize (Hpos r Hr). specialize (Hmax r Hr).
    unfold stop, cfar_end_idx in Hidx. fold start in Hidx. lia. }
  destruct (cfar_loop_fills abs_sweep rel (np_arange start stop) Hwin
              (repeat None N) (repeat_length _ _)) as [t1 [-> [Hlen Hnth]]].
  simpl.
  destruct (Qeq_bool (alpha + 1e-10) 0) eqn:E;
    [apply Qeq_bool_iff in E; contradiction|].
  eexists. split; [reflexivity|].
  set (scale := map (option_map (fun t => (t * (1.0 / (alpha + 1e-10)))%Q))).
  set (t2 := match abs_noise_std with
             | Some std => map (option_map (fun t => (t + std)%Q)) t1
             | None => t1
             end).
  assert (Hlen2 : length t2 = N).
  { unfold t2. destruct abs_noise_std; [rewrite length_map|]; exact Hlen. }
  assert (Ht2 : forall i,
             (In (Z.of_nat i) (np_arange start stop) ->
              exists v, nth_error t2 i = Some (Some v))
             /\ (~ In (Z.of_nat i) (np_arange start stop) ->
                 nth_error t2 i = nth_error (repeat None N) i)).
  { intros i. destruct (Hnth i) as [Hin' Hout]. unfold t2.
    destruct abs_noise_std as [std|]; [|split; assumption]. split.
    - intros Hi. destruct (Hin' Hi) as [v Hv].
      rewrite nth_error_map, Hv. simpl. eexists; reflexivity.
    - intros Hi. rewrite nth_error_map, (Hout Hi).
      destruct (nth_error (repeat None N) i) as [o|] eqn:Hr; [|reflexivity].
      apply nth_error_In, repeat_spec in Hr. subst o. reflexivity. }
  split; [unfold scale; rewrite length_map; exact Hlen2|].
  intros i Hi. destruct (Ht2 i) as [Hin' Hout]. split.
  - intros Hrange. destruct (Hin' (proj2 (in_np_arange _ _ _) Hrange))
      as [v Hv].
    unfold scale. rewrite nth_error_map, Hv. simpl. eexists; reflexivity.
  - intros Hrange.
    assert (Hnot : ~ In (Z.of_nat i) (np_arange start stop)).
    { intros H. apply Hrange. apply in_np_arange. exact H. }
    unfold scale. rewrite nth_error_map, (Hout Hnot).
    rewrite nth_error_repeat by exact Hi. reflexivity.
Qed.

Lemma le_threshold_false (x t : Q) :
  Processor.le_threshold x (Some t) = false -> (t < x)%Q.
Proof.
  simpl. intros H. apply Qnot_le_lt. intros Hle.
  apply Qle_bool_iff in Hle. congruence.
Qed.

Lemma np_argmax_from_range (l : list Q) (best : Q) (best_idx idx : nat) :
  Processor.np_argmax_from best best_idx idx l = best_idx
  \/ (idx <= Processor.np_argmax_from best best_idx idx l < idx + length l)%nat.
Proof.
  revert best best_idx idx; induction l as [|x l IH]; intros best best_idx idx;
    simpl; [left; reflexivity|].
  destruct (Qltb best x).
  - destruct (IH x idx (S idx)) as [->|H]; right; lia.
  - destruct (IH best best_idx (S idx)) as [->|H]; [left; reflexivity|].
    right; lia.
Qed.

Lemma np_argmax_lt (l : list Q) :
  l <> [] -> (Processor.np_argmax l < length l)%nat.
Proof.
  destruct l as [|x l]; [congruence|]. intros _. simpl.
  destruct (np_argmax_from_range l x 0 1) as [->|H]; lia.
Qed.

Lemma slice_length {A} (l : list A) (d du : nat) :
  (d <= du <= length l)%nat ->
  length (Py.slice l (Z.of_nat d) (Z.of_nat du)) = (du - d)%nat.
Proof.
  intros H. unfold Py.slice, Py.slice_bound.
  destruct (Z.ltb_spec (Z.of_nat d) 0); [lia|].
  destruct (Z.ltb_spec (Z.of_nat du) 0); [lia|].
  rewrite length_firstn, length_skipn. lia.
Qed.

Section FindPeaks.

Variable abs_sweep : list Q.
Variable threshold : Processor.threshold_array.
Hypothesis same_shape : length threshold = length abs_sweep.
Hypothesis edges : nan_at_edges_only threshold.

Let N := length abs_sweep.

Lemma getitem_threshold (i : nat) :
  (i < N)%nat ->
  exists t, getitem threshold i = Ok t /\ nth_error threshold i = Some t.
Proof.
  intros Hi. unfold getitem.
  destruct (nth_error threshold i) as [t|] eqn:Hn.
  - exists t; split; reflexivity.
  - apply nth_error_None in Hn. unfold N in Hi. lia.
Qed.

Lemma find_peaks_inner_spec (d : nat) (fuel du : nat) :
  (N - 1 - du < fuel)%nat -> (d < du)%nat ->
  (forall j, (d <= j < du)%nat -> exceeds_threshold abs_sweep threshold j) ->
  exists ex,
    Processor.find_peaks_inner fuel abs_sweep threshold d du = Some (Ok ex)
    /\ match ex with
       | Processor.Break du' => (du <= du')%nat
       | Processor.Found p du' =>
           (du <= du')%nat /\ exceeds_threshold abs_sweep threshold p
       end.
Proof.
  revert du; induction fuel as [|fuel IH]; intros du Hfuel Hd Hinv; [lia|].
  simpl. fold N.
  destruct (Nat.leb_spec (N - 1) du) as [Hend|Hin].
  { eexists; split; [reflexivity|]. simpl; lia. }
  destruct (getitem_threshold du ltac:(lia)) as [t [-> Hn]].
  destruct t as [t|]; simpl;
    [|eexists; split; [reflexivity|]; simpl; lia].
  destruct (Qle_bool (nth du abs_sweep 0%Q) t) eqn:Hle.
  { eexists; split; [reflexivity|]. simpl; lia. }
  destruct (Qltb (nth d abs_sweep 0%Q) (nth du abs_sweep 0%Q)).
  { eexists; split; [reflexivity|]. simpl; lia. }
  destruct (Qltb (nth du abs_sweep 0%Q) (nth d abs_sweep 0%Q)).
  - eexists; split; [reflexivity|]. simpl. split; [lia|].
    apply Hinv.
    assert (Hlen : length (Py.slice abs_sweep (Z.of_nat d) (Z.of_nat du))
                   = (du - d)%nat)
      by (apply slice_length; fold N; lia).
    assert (Hne : Py.slice abs_sweep (Z.of_nat d) (Z.of_nat du) <> []).
    { intros E. rewrite E in Hlen. simpl in Hlen. lia. }
    pose proof (np_argmax_lt _ Hne) as Hlt. rewrite Hlen in Hlt. lia.
  - destruct (IH (S du)) as [ex [Hex Hm]]; [lia | lia | |].
    + intros j Hj. destruct (Nat.eq_dec j du) as [->|Hneq];
        [|apply Hinv; lia].
      exists t. split; [exact Hn|]. apply le_threshold_false. exact Hle.
    + exists ex. split; [exact Hex|].
      destruct ex as [du'|p du']; [lia|]. destruct Hm as [Hdu Hp].
      split; [lia | exact Hp].
Qed.

Lemma find_peaks_outer_spec (fuel d : nat) (found_peaks : list nat) :
  (N - d < fuel)%nat -> (1 <= d)%nat ->
  Forall (exceeds_threshold abs_sweep threshold) found_peaks ->
  exists peaks,
    Processor.find_peaks_outer fuel abs_sweep threshold d found_peaks
    = Some (Ok peaks)
    /\ Forall (exceeds_threshold abs_sweep threshold) peaks.
Proof.
  revert d found_peaks; induction fuel as [|fuel IH];
    intros d found_peaks Hfuel Hd Hfound; [lia|].
  simpl. fold N.
  destruct (Nat.ltb_spec (d + 1) N) as [Hin|Hout]; simpl;
    [|eexists; split; [reflexivity | exact Hfound]].
  destruct (getitem_threshold (d - 1)%nat ltac:(lia)) as [t_prev [-> Hprev]].
  destruct t_prev as [tp|]; simpl; [|apply IH; [lia | lia | exact Hfound]].
  destruct (getitem_threshold (d + 1)%nat ltac:(lia)) as [t_next [-> Hnext]].
  destruct t_next as [tn|]; simpl;
    [|eexists; split; [reflexivity | exact Hfound]].
  destruct (getitem_threshold d ltac:(lia)) as [t_d [-> Hhere]].
  destruct (edges (d - 1)%nat d (d + 1)%nat tp tn ltac:(lia) Hprev Hnext)
    as [td Htd].
  rewrite Hhere in Htd. injection Htd as ->.
  destruct (Processor.le_threshold (nth d abs_sweep 0%Q) (Some td)) eqn:Hle;
    [apply IH; [lia | lia | exact Hfound]|].
  destruct (Qle_bool (nth (d - 1)%nat abs_sweep 0%Q) tp);
    [apply IH; [lia | lia | exact Hfound]|].
  destruct (Qle_bool (nth d abs_sweep 0%Q) (nth (d - 1)%nat abs_sweep 0%Q));
    [apply IH; [lia | lia | exact Hfound]|].
  destruct (find_peaks_inner_spec d fuel (d + 1)%nat) as [ex [-> Hex]];
    [lia | lia | |].
  { intros j Hj. assert (j = d) as -> by lia.
    exists td. split; [exact Hhere|]. apply le_threshold_false. exact Hle. }
  destruct ex as [du'|p du'].
  - apply IH; [lia | lia | exact Hfound].
  - destruct Hex as [Hdu Hp]. apply IH; [lia | lia |].
    apply Forall_app. split; [exact Hfound|]. constructor; [exact Hp|].
    constructor.
Qed.

(** [_find_peaks] returns, and only indexes where the envelope strictly
    exceeds a threshold that is a number. *)
Lemma _find_peaks_exceed :
  exists peaks,
    Processor._find_peaks abs_sweep (Some threshold) = Ok peaks
    /\ Forall (exceeds_threshold abs_sweep threshold) peaks.
Proof.
  unfold Processor._find_peaks.
  destruct (find_peaks_outer_spec (length abs_sweep + 1)%nat 1%nat [])
    as [peaks [-> Hpeaks]]; [fold N; lia | lia | constructor |].
  exists peaks. split; [reflexivity | exact Hpeaks].
Qed.

End FindPeaks.

Lemma window_complete_iff (size : nat) (idx_cfar_pts : list Z) (one_side : bool)
    (i : nat) :
  idx_cfar_pts <> [] -> Forall (fun pt => 0 <= pt) idx_cfar_pts ->
  (i < size)%nat ->
  window_complete size idx_cfar_pts one_side i
  <-> cfar_start_idx idx_cfar_pts <= Z.of_nat i
        < cfar_end_idx size idx_cfar_pts one_side.
Proof.
  intros Hne Hpos Hi.
  destruct (cfar_start_idx_max idx_cfar_pts Hne) as [_ [Hmax Hin]].
  rewrite Forall_forall in Hpos, Hmax. unfold window_complete, cfar_end_idx.
  split.
  - intros H. destruct (H _ Hin) as [H1 H2].
    destruct one_side; [lia|]. specialize (H2 eq_refl). lia.
  - intros H pt Hpt. specialize (Hpos pt Hpt). specialize (Hmax pt Hpt).
    split; [lia|]. intros ->. lia.
Qed.

(** C5.  For a non-empty set of non-negative window offsets (and a
    sensitivity for which [alpha + 1e-10] is not zero),
    [_calculate_cfar_threshold] returns a threshold of the sweep's shape
    that is NaN exactly where the averaging window is incomplete: below
    [max(idx_cfar_pts)] and, two-sided, within [max(idx_cfar_pts)] of the
    right edge.  On that threshold [_find_peaks] returns, and every index
    it returns carries a threshold that is a number which the envelope
    strictly exceeds. *)
Theorem cfar_nan_is_never_a_peak (abs_sweep : list Q) (idx_cfar_pts : list Z)
    (alpha : Q) (one_side : bool) (abs_noise_std : option Q) :
  idx_cfar_pts <> [] ->
  Forall (fun pt => 0 <= pt) idx_cfar_pts ->
  ~ (alpha + 1e-10 == 0)%Q ->
  exists threshold peaks,
    Processor._calculate_cfar_threshold abs_sweep idx_cfar_pts alpha one_side
      abs_noise_std = Ok threshold
    /\ length threshold = length abs_sweep
    /\ (forall i, (i < length abs_sweep)%nat ->
          (nth_error threshold i = Some None
           <-> ~ window_complete (length abs_sweep) idx_cfar_pts one_side i)
          /\ (nth_error threshold i = Some None
              <-> (Z.of_nat i < cfar_start_idx idx_cfar_pts
                   \/ (one_side = false
                       /\ Z.of_nat (length abs_sweep)
                          - cfar_start_idx idx_cfar_pts <= Z.of_nat i))))
    /\ Processor._find_peaks abs_sweep (Some threshold) = Ok peaks
    /\ Forall (exceeds_threshold abs_sweep threshold) peaks
    /\ Forall (fun p => nth_error threshold p <> Some None) peaks.
Proof.
  intros Hne Hpos Halpha.
  destruct (_calculate_cfar_threshold_nan abs_sweep idx_cfar_pts alpha one_side
              abs_noise_std Hne Hpos Halpha) as [thr [Hthr [Hlen Hnan]]].
  assert (Hrange : forall i, (i < length abs_sweep)%nat ->
            (nth_error thr i = Some None
             <-> ~ cfar_start_idx idx_cfar_pts <= Z.of_nat i
                   < cfar_end_idx (length abs_sweep) idx_cfar_pts one_side)).
  { intros i Hi. destruct (Hnan i Hi) as [Hin Hout]. split.
    - intros E Hr. destruct (Hin Hr) as [t Ht]. congruence.
    - exact Hout. }
  assert (Hedges : nan_at_edges_only thr).
  { intros i j k ti tk Hijk Hi Hk.
    assert (Hi' : (i < length abs_sweep)%nat).
    { rewrite <- Hlen. apply nth_error_Some. congruence. }
    assert (Hk' : (k < length abs_sweep)%nat).
    { rewrite <- Hlen. apply nth_error_Some. congruence. }
    assert (Hj' : (j < length abs_sweep)%nat) by lia.
    destruct (Hnan j Hj') as [Hin _]. apply Hin.
    destruct (Z_lt_le_dec (Z.of_nat i) (cfar_start_idx idx_cfar_pts)) as [H|H].
    { assert (E : nth_error thr i = Some None)
        by (apply (Hrange i Hi'); lia). congruence. }
    destruct (Z_lt_le_dec (Z.of_nat k)
                (cfar_end_idx (length abs_sweep) idx_cfar_pts one_side))
      as [H'|H'].
    - lia.
    - assert (E : nth_error thr k = Some None)
        by (apply (Hrange k Hk'); lia). congruence. }
  destruct (_find_peaks_exceed abs_sweep thr Hlen Hedges) as [peaks [Hp Hex]].
  exists thr, peaks. split; [exact Hthr|]. split; [exact Hlen|].
  split; [|split; [exact Hp|split; [exact Hex|]]].
  - intros i Hi. split.
    + rewrite (Hrange i Hi).
      rewrite (window_complete_iff _ _ one_side i Hne Hpos Hi). reflexivity.
    + rewrite (Hrange i Hi). unfold cfar_end_idx.
      destruct one_side.
      * split; [intros H; left; lia|].
        intros [H|[H _]]; [lia | discriminate].
      * split; [|intros [H|[_ H]]; lia].
        intros H.
        destruct (Z_lt_le_dec (Z.of_nat i) (cfar_start_idx idx_cfar_pts));
          [left; lia | right; split; [reflexivity | lia]].
  - rewrite Forall_forall in Hex |- *. intros p Hin.
    destruct (Hex p Hin) as [t [Ht _]]. congruence.
Qed.

Lemma cfar_nan_is_never_a_peak_witness :
  exists threshold peaks,
    Processor._calculate_cfar_threshold
      [1; 1; 2; 5; 9; 12; 9; 5; 2; 1; 1; 3; 8; 8; 8; 3; 1; 1; 1; 1]%Q
      [2; 3] 2 false None = Ok threshold
    /\ Processor._find_peaks
         [1; 1; 2; 5; 9; 12; 9; 5; 2; 1; 1; 3; 8; 8; 8; 3; 1; 1; 1; 1]%Q
         (Some threshold) = Ok peaks
    /\ peaks = [5%nat; 12%nat]
    /\ Forall (fun p => nth_error threshold p <> Some None) peaks.
Proof.
  destruct (cfar_nan_is_never_a_peak
              [1; 1; 2; 5; 9; 12; 9; 5; 2; 1; 1; 3; 8; 8; 8; 3; 1; 1; 1; 1]%Q
              [2; 3] 2 false None)
    as [thr [peaks [Hthr [_ [_ [Hp [_ Hnan]]]]]]].
  - discriminate.
  - repeat constructor; lia.
  - intros H. vm_compute in H. discriminate.
  - exists thr, peaks. split; [exact Hthr|]. split; [exact Hp|].
    split; [|exact Hnan].
    vm_compute in Hthr. injection Hthr as <-.
    vm_compute in Hp. injection Hp as <-. reflexivity.
Defined.

(** ** Recorded-threshold calibration *)





















(** ** The planner: break points *)










Lemma Qltb_true (a b : Q) : (a < b)%Q -> Py.Qltb a b = true.
Proof.
  intros H. unfold Py.Qltb. destruct (Qle_bool b a) eqn:E; [|reflexivity].
  apply Qle_bool_iff in E. lra.
Qed.

Lemma Qltb_false (a b : Q) : (b <= a)%Q -> Py.Qltb a b = false.
Proof.
  intros H. unfold Py.Qltb. apply Qle_bool_iff in H. rewrite H. reflexivity.
Qed.




(** ** The end-to-end scenario of the planner *)

Section Scenario.

Import Detector.
Variable imports : ProcessorImports.

Let cfg := scenario_config imports.
Let step (p : Profile) := _limit_step_length imports p None.
Let md : Profile -> Q := _add_to_min_dist_m imports cfg.

(** What is asked of the imported helpers: at the step length the planner
    uses for a profile, margins that are not negative and span at most
    400 points (1 m); and effective minimum distances of profiles 1 and 3
    in the order of the base table. *)
Hypothesis cfar_margin_bounds :
  forall p, 0 <= calc_cfar_margin imports p (step p)
            /\ calc_cfar_margin imports p (step p) * step p <= 400.
Hypothesis edge_margin_bounds :
  forall p, 0 <= distance_filter_edge_margin imports p (step p)
            /\ distance_filter_edge_margin imports p (step p) * step p <= 400.
Hypothesis min_dist_order : (md PROFILE_1 < md PROFILE_3)%Q.










End Scenario.

(** ** From the plan to the session configuration *)



Section Conversion.

Import Detector.
Variable imports : ProcessorImports.








End Conversion.



(** ** The close-range calibration pair *)

Section CalibrationPair.

Import Detector.
Variable imports : ProcessorImports.
Variables World ExtendedMetadata ExtendedResult Aggregator : Type.
Variables Recorder RecorderResult : Type.
Variable env :
  Collaborators World ExtendedMetadata ExtendedResult Aggregator Recorder
    RecorderResult.

Lemma same_pair_refl c : same_pair c c.
Proof. split; reflexivity. Qed.

Lemma same_pair_trans c1 c2 c3 :
  same_pair c1 c2 -> same_pair c2 c3 -> same_pair c1 c3.
Proof. intros [H1 H2] [H3 H4]. split; congruence. Qed.

Lemma keeps_ret {A} (a : A) : keeps_pair (ret a : M World Aggregator A).
Proof. intros s. apply same_pair_refl. Qed.

Lemma keeps_raise {A} (e : exn) : keeps_pair (raise e : M World Aggregator A).
Proof. intros s. apply same_pair_refl. Qed.

Lemma keeps_lift {A} (r : result A) : keeps_pair (lift r : M World Aggregator A).
Proof. intros s. apply same_pair_refl. Qed.

Lemma keeps_self : keeps_pair (@self World Aggregator).
Proof. intros s. apply same_pair_refl. Qed.

Lemma keeps_external {A} (call : World -> reply A * World) :
  keeps_pair (external call : M World Aggregator A).
Proof.
  intros s. unfold external.
  destruct (call (snd s)) as [[a|code] w]; apply same_pair_refl.
Qed.

Lemma keeps_assign (f : Detector Aggregator -> Detector Aggregator) :
  (forall d, same_pair (context d) (context (f d))) ->
  keeps_pair (assign f : M World Aggregator unit).
Proof. intros Hf s. apply Hf. Qed.

Lemma keeps_assign_context (f : DetectorContext -> DetectorContext) :
  (forall c, same_pair c (f c)) ->
  keeps_pair (assign_context f : M World Aggregator unit).
Proof. intros Hf s. apply Hf. Qed.

Lemma keeps_bind {A B} (m : M World Aggregator A) (k : A -> M World Aggregator B) :
  keeps_pair m -> (forall a, keeps_pair (k a)) -> keeps_pair (mbind m k).
Proof.
  intros Hm Hk s. unfold mbind. specialize (Hm s).
  destruct (m s) as [[a|e] s']; simpl in Hm.
  - eapply same_pair_trans; [exact Hm | apply Hk].
  - exact Hm.
Qed.

Ltac keeps :=
  lazymatch goal with
  | |- keeps_pair (mbind _ _) => apply keeps_bind; [keeps | intros ?; keeps]
  | |- keeps_pair (ret _) => apply keeps_ret
  | |- keeps_pair (raise _) => apply keeps_raise
  | |- keeps_pair (lift _) => apply keeps_lift
  | |- keeps_pair (@self _ _) => apply keeps_self
  | |- keeps_pair (external _) => apply keeps_external
  | |- keeps_pair (assign _) =>
      apply keeps_assign; intros ?; split; reflexivity
  | |- keeps_pair (assign_context _) =>
      apply keeps_assign_context; intros ?; split; reflexivity
  | |- keeps_pair (if ?b then _ else _) => destruct b; keeps
  | |- keeps_pair (match ?x with _ => _ end) => destruct x; keeps
  | |- _ => idtac
  end.

Lemma record_frames_keeps (n : nat) (aggregator : Aggregator)
    (r : option (AggregatorResult ExtendedResult)) :
  keeps_pair (record_frames env n aggregator r).
Proof.
  revert r. induction n as [|n IH]; intros r; simpl; keeps. apply IH.
Qed.

Lemma append_thresholds_keeps (results : list ProcessorResult.t) :
  keeps_pair (append_thresholds results : M World Aggregator unit).
Proof.
  induction results as [|r results IH]; simpl; keeps. exact IH.
Qed.

Lemma record_threshold_keeps : keeps_pair (record_threshold env).
Proof.
  unfold record_threshold. keeps.
  - apply record_frames_keeps.
  - apply append_thresholds_keeps.
Qed.

Lemma start_keeps (recorder : option Recorder) :
  keeps_pair (start imports env recorder).
Proof. unfold start. keeps. Qed.

Lemma get_next_keeps : keeps_pair (get_next env).
Proof. unfold get_next. keeps. Qed.

Lemma stop_keeps : keeps_pair (stop env).
Proof. unfold stop. keeps. Qed.

Lemma update_config_keeps (config : DetectorConfig) :
  keeps_pair (update_config imports config : M World Aggregator unit).
Proof. unfold update_config. keeps. Qed.

Lemma _close_range_calibrated_half_set (c : DetectorContext) :
  half_set c -> _close_range_calibrated c = Raise (RuntimeError "").
Proof.
  unfold half_set, _close_range_calibrated.
  destruct (direct_leakage c), (phase_jitter_comp_reference c); simpl;
    intros [[H1 H2]|[H1 H2]]; congruence.
Qed.

Lemma _close_range_calibrated_paired (c : DetectorContext) :
  paired c ->
  _close_range_calibrated c = Ok (is_not_None (direct_leakage c)).
Proof.
  unfold paired, _close_range_calibrated.
  destruct (direct_leakage c), (phase_jitter_comp_reference c); simpl;
    intros [H1 H2]; try reflexivity; exfalso.
  - apply H1; [discriminate | reflexivity].
  - apply H2; [discriminate | reflexivity].
Qed.

Lemma _has_close_range_measurement_Ok (config : DetectorConfig) (b : bool) :
  _has_close_range_measurement imports config = Ok b ->
  exists r,
    _detector_to_session_config_and_processor_specs imports config 1 = Ok r.
Proof.
  unfold _has_close_range_measurement.
  destruct (_detector_to_session_config_and_processor_specs imports config 1)
    as [r|e]; [|discriminate].
  intros _. exists r. reflexivity.
Qed.

Lemma get_detector_status_half_set (config : DetectorConfig)
    (c : DetectorContext) :
  half_set c ->
  _has_close_range_measurement imports config = Ok true ->
  get_detector_status imports config c = Raise (RuntimeError "").
Proof.
  intros Hc Hclose. unfold get_detector_status.
  destruct (_has_close_range_measurement_Ok config true Hclose) as [r ->].
  cbn [Py.bind]. rewrite Hclose. cbn [Py.bind].
  rewrite (_close_range_calibrated_half_set c Hc). reflexivity.
Qed.

Lemma get_detector_status_far_only (config : DetectorConfig)
    (c : DetectorContext) :
  _has_close_range_measurement imports config = Ok false ->
  exists status, get_detector_status imports config c = Ok status.
Proof.
  intros Hclose. unfold get_detector_status.
  destruct (_has_close_range_measurement_Ok config false Hclose)
    as [r Hr].
  rewrite Hr. cbn [Py.bind]. rewrite Hclose. cbn [Py.bind].
  unfold _has_recorded_threshold_mode. rewrite Hr. cbn [Py.bind].
  destruct (existsb _ (snd r)); [|eexists; reflexivity].
  destruct (_recorded_threshold_calibrated c); [|eexists; reflexivity].
  destruct (negb _); eexists; reflexivity.
Qed.

Lemma start_half_set (d : Detector Aggregator) (w : World)
    (recorder : option Recorder) :
  half_set (context d) -> started d = false ->
  _has_close_range_measurement imports (detector_config d) = Ok true ->
  start imports env recorder (d, w) = (Raise (RuntimeError ""), (d, w)).
Proof.
  intros Hc Hs Hclose.
  unfold start, mbind, self, raise, lift; simpl. rewrite Hs.
  unfold _ensure_detector_is_calibrated. rewrite Hclose. cbn [Py.bind].
  rewrite (_close_range_calibrated_half_set (context d) Hc). reflexivity.
Qed.

Lemma calibrate_close_range_pair (d d' : Detector Aggregator)
    (w w' : World) :
  calibrate_close_range env (d, w) = (Ok tt, (d', w')) ->
  phase_jitter_comp_reference (context d') <> None
  /\ exists spec ar r,
       leakage_frame env d spec w w' ar
       /\ processor_results ar = [r]
       /\ direct_leakage (context d') = ProcessorResult.direct_leakage r.
Proof.
  intros H.
  destruct (calibrate_close_range_inversion World ExtendedMetadata
              ExtendedResult Aggregator Recorder RecorderResult env
              d d' w w' H)
    as (_ & spec & ar & r & pjcr & _ & Hframe & Hr & _ & ->).
  split; [discriminate|].
  exists spec, ar, r. split; [exact Hframe|]. split; [exact Hr|reflexivity].
Qed.

(** Claim C10.  The two fields of a close-range calibration.  A
    [calibrate_close_range] that returns leaves
    [phase_jitter_comp_reference] set and [direct_leakage] equal to the
    direct leakage of the single processor result of the calibration
    frame; [record_threshold], [start], [get_next] and [stop] leave both
    fields as they were, whatever their outcome.  For a context in which
    exactly one of the two is [None], [_close_range_calibrated] raises a
    [RuntimeError]; [get_detector_status] raises it when the configuration
    has a close-range measurement, and so does [start] on a detector that
    is not started, before the sensor is touched; for a configuration
    without a close-range measurement [get_detector_status] returns a
    status for every context. *)
Theorem close_range_calibration_pair (d : Detector Aggregator) (w : World)
    (config : DetectorConfig) (c : DetectorContext) :
  (forall d' w',
     calibrate_close_range env (d, w) = (Ok tt, (d', w')) ->
     phase_jitter_comp_reference (context d') <> None
     /\ exists spec ar r,
          leakage_frame env d spec w w' ar
          /\ processor_results ar = [r]
          /\ direct_leakage (context d')
             = ProcessorResult.direct_leakage r)
  /\ keeps_pair (record_threshold env)
  /\ (forall recorder, keeps_pair (start imports env recorder))
  /\ keeps_pair (get_next env)
  /\ keeps_pair (stop env)
  /\ (half_set c -> _close_range_calibrated c = Raise (RuntimeError ""))
  /\ (half_set c ->
      _has_close_range_measurement imports config = Ok true ->
      get_detector_status imports config c = Raise (RuntimeError ""))
  /\ (_has_close_range_measurement imports config = Ok false ->
      exists status, get_detector_status imports config c = Ok status)
  /\ (half_set (context d) -> started d = false ->
      _has_close_range_measurement imports (detector_config d) = Ok true ->
      forall recorder,
        start imports env recorder (d, w)
        = (Raise (RuntimeError ""), (d, w))).
Proof.
  split; [intros d' w'; apply calibrate_close_range_pair|].
  split; [apply record_threshold_keeps|].
  split; [apply start_keeps|].
  split; [apply get_next_keeps|].
  split; [apply stop_keeps|].
  split; [apply _close_range_calibrated_half_set|].
  split; [apply get_detector_status_half_set|].
  split; [apply get_detector_status_far_only|].
  intros Hc Hs Hclose recorder. apply start_half_set; assumption.
Qed.

End CalibrationPair.

Lemma close_range_calibration_pair_witness :
  half_set leakage_only_context
  /\ Detector._has_close_range_measurement width_imports
       (scenario_config width_imports) = Ok true
  /\ Detector.get_detector_status width_imports (scenario_config width_imports)
       leakage_only_context
     = Raise (RuntimeError "").
Proof.
  assert (Hc : half_set leakage_only_context)
    by (right; split; [discriminate | reflexivity]).
  assert (Hm : Detector._has_close_range_measurement width_imports
                 (scenario_config width_imports) = Ok true)
    by reflexivity.
  destruct (close_range_calibration_pair width_imports nat unit unit unit
              unit unit answering idle_detector O
              (scenario_config width_imports) leakage_only_context)
    as (_ & _ & _ & _ & _ & _ & Hstatus & _).
  split; [exact Hc|]. split; [exact Hm|]. exact (Hstatus Hc Hm).
Defined.

(** With the default configuration (0.2 m to 1.0 m, which needs no
    close-range measurement) [get_detector_status] reports a detector that
    is ready to start for a context that has a direct leakage and no
    phase-jitter reference: no [RuntimeError] is raised. *)
Lemma get_detector_status_leakage_only_far_range :
  half_set leakage_only_context
  /\ Detector.get_detector_status width_imports
       (Detector.DetectorConfig_default width_imports) leakage_only_context
     = Ok {| Detector.detector_state := Detector.OK;
             Detector.ready_to_calibrate_close_range := false;
             Detector.ready_to_record_threshold := false;
             Detector.ready_to_start := true |}.
Proof.
  split.
  - right. split; [discriminate | reflexivity].
  - reflexivity.
Qed.

(** ** Distance estimation: from the peak search to the estimates *)




Section PeakShape.

Variable abs_sweep : list Q.
Variable threshold : Processor.threshold_array.
Hypothesis covers : (length abs_sweep <= length threshold)%nat.

Let N := length abs_sweep.





End PeakShape.





(** ** The processor's margin, subsweep selection and point grid *)




Lemma getitem_int_cases {A} (l : list A) (i : Z) :
  match getitem_int l i with
  | Ok a =>
      - Z.of_nat (length l) <= i < Z.of_nat (length l)
      /\ nth_error l (Z.to_nat (i mod Z.of_nat (length l))) = Some a
  | Raise e =>
      e = IndexError
      /\ ~ (- Z.of_nat (length l) <= i < Z.of_nat (length l))
  end.
Proof.
  unfold getitem_int, getitem.
  set (n := Z.of_nat (length l)).
  destruct (Z.ltb_spec i (- n)); simpl; [split; [reflexivity | lia]|].
  destruct (Z.leb_spec n i); simpl; [split; [reflexivity | lia]|].
  assert (Hmod : (if i <? 0 then i + n else i) = i mod n).
  { destruct (Z.ltb_spec i 0).
    - apply (Z.mod_unique_pos i n (-1) (i + n)); lia.
    - symmetry. apply Z.mod_small. lia. }
  rewrite Hmod.
  assert (Hlt : (Z.to_nat (i mod n) < length l)%nat).
  { pose proof (Z.mod_pos_bound i n ltac:(lia)). lia. }
  destruct (nth_error l (Z.to_nat (i mod n))) as [a|] eqn:Hn.
  - split; [lia | reflexivity].
  - apply nth_error_None in Hn. lia.
Qed.

(** [_get_subsweep_configs]: when it returns, every index lies in
    [-n, n) for the [n] subsweeps of the sensor configuration, and the
    [k]-th subsweep returned is the one the [k]-th index names, a negative
    index counting from the end; otherwise it raises IndexError, and some
    index lies outside [-n, n). *)
Theorem _get_subsweep_configs_bounds (sensor_config : SensorConfig)
    (subsweep_indexes : list Z) :
  match Processor._get_subsweep_configs sensor_config subsweep_indexes with
  | Ok cs =>
      length cs = length subsweep_indexes
      /\ forall k i,
           nth_error subsweep_indexes k = Some i ->
           - num_subsweeps sensor_config <= i < num_subsweeps sensor_config
           /\ nth_error cs k
              = nth_error (subsweeps sensor_config)
                  (Z.to_nat (i mod num_subsweeps sensor_config))
  | Raise e =>
      e = IndexError
      /\ exists i,
           In i subsweep_indexes
           /\ ~ (- num_subsweeps sensor_config <= i
                 < num_subsweeps sensor_config)
  end.
Proof.
  unfold Processor._get_subsweep_configs, num_subsweeps.
  induction subsweep_indexes as [|i rest IH]; simpl.
  - split; [reflexivity|]. intros [|k] i H; discriminate.
  - pose proof (getitem_int_cases (subsweeps sensor_config) i) as Hi.
    destruct (getitem_int (subsweeps sensor_config) i) as [c|e]; simpl.
    + destruct (mapM _ rest) as [cs|e]; simpl.
      * destruct IH as [Hlen Hk]. split; [f_equal; exact Hlen|].
        intros [|k] j Hj; simpl in *.
        -- injection Hj as <-. destruct Hi as [Hr Hn].
           split; [exact Hr | symmetry; exact Hn].
        -- apply Hk. exact Hj.
      * destruct IH as [-> (j & Hin & Hout)]. split; [reflexivity|].
        exists j. split; [right; exact Hin | exact Hout].
    + destruct Hi as [-> Hout]. split; [reflexivity|].
      exists i. split; [left; reflexivity | exact Hout].
Qed.

Lemma fold_left_add_shift (l : list Z) (a : Z) :
  fold_left Z.add l a = a + fold_left Z.add l 0.
Proof.
  revert a; induction l as [|x l IH]; intros a; simpl; [lia|].
  rewrite (IH (a + x)), (IH x). lia.
Qed.

Lemma _get_num_points_cons (c : SubsweepConfig) (cs : list SubsweepConfig) :
  Processor._get_num_points (c :: cs)
  = a121.num_points c + Processor._get_num_points cs.
Proof.
  unfold Processor._get_num_points. simpl. apply fold_left_add_shift.
Qed.

Lemma point_contiguous_positions (s : Z) (cs : list SubsweepConfig) :
  (forall c, In c cs -> a121.step_length c = s) ->
  point_contiguous cs ->
  forall k c0 c,
    nth_error cs 0 = Some c0 -> nth_error cs k = Some c ->
    a121.start_point c
    = a121.start_point c0 + Processor._get_num_points (firstn k cs) * s.
Proof.
  intros Hs Hc k. revert cs Hs Hc.
  induction k as [|k IH]; intros cs Hs Hc c0 c H0 Hk.
  - rewrite H0 in Hk. injection Hk as ->.
    unfold Processor._get_num_points. simpl. lia.
  - destruct cs as [|c0' [|c1 rest]]; try discriminate.
    { destruct k; discriminate. }
    injection H0 as ->. simpl in Hk.
    destruct Hc as [Hstart Hrest].
    rewrite (IH (c1 :: rest)
               ltac:(intros c' Hc'; apply Hs; right; exact Hc')
               Hrest c1 c eq_refl Hk).
    rewrite firstn_cons, _get_num_points_cons, Hstart.
    rewrite (Hs c0 (or_introl eq_refl)). lia.
Qed.

(** Subsweeps that pass [_validate] tile one range of points: they share
    one step length, and each starts at the start point of the first plus
    the step length times the number of points of the subsweeps before
    it, so point [j] of the concatenated sweep is point
    [start_point + j * step_length]. *)
Theorem validated_subsweeps_tile (cs : list SubsweepConfig) :
  Processor._validate cs = Ok tt ->
  exists s p,
    Processor._get_step_length cs = Ok s
    /\ Processor._get_start_point cs = Ok p
    /\ forall k c,
         nth_error cs k = Some c ->
         a121.step_length c = s
         /\ a121.phase_enhancement c = true
         /\ a121.start_point c
            = p + Processor._get_num_points (firstn k cs) * s.
Proof.
  intros Hv. pose proof (_validate_cases cs) as H. rewrite Hv in H.
  destruct H as (Hne & _ & Hcont & Hphase).
  pose proof (_get_step_length_cases cs) as Hstep.
  destruct (Processor._get_step_length cs) as [s|e] eqn:E.
  - destruct Hstep as [_ Hall]. destruct cs as [|c0 rest]; [congruence|].
    exists s, (a121.start_point c0). split; [reflexivity|].
    split; [reflexivity|]. intros k c Hk.
    pose proof (nth_error_In _ _ Hk) as Hin.
    split; [apply Hall; exact Hin|]. split.
    + unfold phase_enhanced in Hphase. rewrite Forall_forall in Hphase.
      apply Hphase. exact Hin.
    + exact (point_contiguous_positions s (c0 :: rest) Hall Hcont k c0 c
               eq_refl Hk).
  - unfold Processor._validate, Processor._validate_range in Hv.
    rewrite E in Hv. discriminate.
Qed.

Lemma validated_subsweeps_tile_witness :
  exists s p,
    Processor._get_step_length (subsweeps two_subsweeps) = Ok s
    /\ Processor._get_start_point (subsweeps two_subsweeps) = Ok p
    /\ forall k c,
         nth_error (subsweeps two_subsweeps) k = Some c ->
         a121.step_length c = s
         /\ a121.phase_enhancement c = true
         /\ a121.start_point c
            = p + Processor._get_num_points
                    (firstn k (subsweeps two_subsweeps)) * s.
Proof.
  apply (validated_subsweeps_tile (subsweeps two_subsweeps)). reflexivity.
Defined.

(** ** The planner's helpers *)

Lemma Qltb_cases (a b : Q) :
  (Qltb a b = true /\ (a < b)%Q) \/ (Qltb a b = false /\ (b <= a)%Q).
Proof.
  destruct (Qlt_le_dec a b) as [H|H].
  - left. split; [apply Qltb_true; exact H | exact H].
  - right. split; [apply Qltb_false; exact H | exact H].
Qed.

(** [_select_prf] picks a PRF whose maximum measurable distance lies
    beyond the break point, never 19.5 MHz for a profile other than 1 and
    2, and among the PRFs allowed in this way the one of the highest
    frequency.  It raises IndexError exactly when no PRF reaches the break
    point, that is from 18.5 m (7400 points) on. *)
Theorem _select_prf_spec (breakpoint : Z) (profile : Profile) :
  match Detector._select_prf breakpoint profile with
  | Ok prf =>
      breakpoint < 7400
      /\ (exists max_dist_m,
            In (prf, max_dist_m) Detector.MAX_MEAS_DIST_M
            /\ (point_m breakpoint < max_dist_m)%Q)
      /\ (prf = PRF_19_5_MHz -> profile = PROFILE_1 \/ profile = PROFILE_2)
      /\ forall prf' max_dist_m,
           In (prf', max_dist_m) Detector.MAX_MEAS_DIST_M ->
           (point_m breakpoint < max_dist_m)%Q ->
           (prf' = PRF_19_5_MHz ->
            profile = PROFILE_1 \/ profile = PROFILE_2) ->
           PRF_frequency prf' <= PRF_frequency prf
  | Raise e => e = IndexError /\ 7400 <= breakpoint
  end.
Proof.
  unfold Detector._select_prf. fold (point_m breakpoint).
  assert (Hb : (point_m breakpoint == inject_Z breakpoint * (1 # 400))%Q).
  { unfold point_m, Processor.APPROX_BASE_STEP_LENGTH_M.
    setoid_replace (2.5e-3)%Q with (1 # 400)%Q by reflexivity. reflexivity. }
  assert (Hlim : breakpoint < 7400 <-> (point_m breakpoint < 18.5)%Q).
  { rewrite Hb, Zlt_Qlt.
    setoid_replace (18.5)%Q with (inject_Z 7400 * (1 # 400))%Q by reflexivity.
    set (x := inject_Z breakpoint). set (y := inject_Z 7400).
    split; intros H; lra. }
  assert (E1 : (3.1 == 31 # 10)%Q) by reflexivity.
  assert (E2 : (7.0 == 7)%Q) by reflexivity.
  assert (E3 : (12.7 == 127 # 10)%Q) by reflexivity.
  assert (E4 : (18.5 == 185 # 10)%Q) by reflexivity.
  set (bm := point_m breakpoint) in *.
  destruct (Qltb_cases bm 3.1) as [[C1 H1]|[C1 H1]];
    destruct (Qltb_cases bm 7.0) as [[C2 H2]|[C2 H2]];
    destruct (Qltb_cases bm 12.7) as [[C3 H3]|[C3 H3]];
    destruct (Qltb_cases bm 18.5) as [[C4 H4]|[C4 H4]];
    try (exfalso; lra);
    destruct profile;
    cbn [Detector.MAX_MEAS_DIST_M existsb PRF_eqb fst snd Profile_eqb
         negb andb orb filter map];
    rewrite ?C1, ?C2, ?C3, ?C4;
    cbn [map fst Detector.sorted_by_frequency fold_left
         Detector.insert_by_frequency PRF_frequency Z.ltb Z.compare
         Pos.compare Pos.compare_cont last];
    try (split; [reflexivity | apply Z.nlt_ge; intros Hn; apply Hlim in Hn;
                               lra]);
    (split; [apply Hlim; exact H4|]);
    (split; [eexists; split; [simpl; eauto 6 | assumption]|]);
    (split; [intros Hp; first [discriminate Hp | tauto]|]);
    intros prf' md Hin Hlt Hallowed;
    simpl in Hin;
    destruct Hin as [Hi|[Hi|[Hi|[Hi|[]]]]];
    injection Hi as <- <-; cbn [PRF_frequency]; try lia;
    try (exfalso; lra);
    exfalso; destruct (Hallowed eq_refl); discriminate.
Qed.





Lemma length_bump_last (l : list Z) (R : Z) :
  l <> [] -> length (removelast l ++ [last l 0 + R]) = length l.
Proof.
  intros H.
  pose proof (f_equal (@length Z) (app_removelast_last 0 H)) as E.
  rewrite length_app in E. rewrite length_app. simpl in *. lia.
Qed.

Lemma Forall_bump_last (P : Z -> Prop) (l : list Z) (R : Z) :
  l <> [] -> Forall P l -> (forall x, P x -> P (x + R)) ->
  Forall P (removelast l ++ [last l 0 + R]).
Proof.
  intros H Hall HR. rewrite (app_removelast_last 0 H) in Hall.
  apply Forall_app in Hall. destruct Hall as [Hinit Hlast].
  apply Forall_app. split; [exact Hinit|].
  inversion Hlast; subst. constructor; [apply HR; assumption | constructor].
Qed.

Lemma _add_margin_to_breakpoints_cases (imports : Detector.ProcessorImports)
    (profile : Profile) (step_length : Z) (base_bpts : list Z)
    (has_neighbour : bool * bool) (config : Detector.DetectorConfig) :
  match Detector._add_margin_to_breakpoints imports profile step_length
          base_bpts has_neighbour config with
  | Ok bpts =>
      length bpts = length base_bpts
      /\ match base_bpts with
         | [] => False
         | [b0] =>
             bpts
             = [b0 - segment_margin imports profile step_length
                       (fst has_neighbour) config
                + segment_margin imports profile step_length
                    (snd has_neighbour) config]
         | b0 :: rest =>
             bpts
             = (b0 - segment_margin imports profile step_length
                       (fst has_neighbour) config)
               :: removelast rest
               ++ [last rest 0
                   + segment_margin imports profile step_length
                       (snd has_neighbour) config]
         end
      /\ (on_grid step_length base_bpts -> on_grid step_length bpts)
  | Raise e => e = IndexError /\ base_bpts = []
  end.
Proof.
  unfold Detector._add_margin_to_breakpoints.
  destruct base_bpts as [|b0 rest]; [split; reflexivity|].
  set (edge := Detector.distance_filter_edge_margin imports profile
                 step_length).
  set (cfar := Detector.calc_cfar_margin imports profile step_length).
  assert (HL : forall nb : bool,
             (let m := edge * step_length in
              let m := if nb then m + edge * step_length else m in
              if ThresholdMethod_eqb (Detector.threshold_method config) CFAR
              then m + cfar * step_length else m)
             = segment_margin imports profile step_length nb config).
  { intros nb. unfold segment_margin. fold edge cfar.
    destruct nb, (ThresholdMethod_eqb _ CFAR); cbv zeta; lia. }
  assert (Hdiv : forall nb,
             (step_length
              | segment_margin imports profile step_length nb config)).
  { intros nb. unfold segment_margin. fold edge cfar.
    destruct nb, (ThresholdMethod_eqb _ CFAR);
      repeat first [ apply Z.divide_add_r | apply Z.divide_factor_r
                   | apply Z.divide_mul_r | apply Z.divide_refl
                   | apply Z.divide_0_r ]. }
  cbv zeta in HL.
  pose proof (HL (fst has_neighbour)) as HLf.
  pose proof (HL (snd has_neighbour)) as HLs.
  cbv zeta. rewrite HLf, HLs.
  set (L := segment_margin imports profile step_length (fst has_neighbour)
              config) in *.
  set (R := segment_margin imports profile step_length (snd has_neighbour)
              config) in *.
  destruct rest as [|b1 rest].
  - simpl. split; [reflexivity|]. split; [reflexivity|].
    unfold on_grid. intros Hg. inversion Hg; subst. constructor; [|constructor].
    apply Z.divide_add_r; [apply Z.divide_sub_r|]; first [assumption | apply Hdiv].
  - split; [|split].
    + apply (length_bump_last ((b0 - L) :: b1 :: rest) R). discriminate.
    + reflexivity.
    + unfold on_grid. intros Hg. inversion Hg as [|? ? H0 Hrest]; subst.
      apply (Forall_bump_last (fun b => (step_length | b))
               ((b0 - L) :: b1 :: rest) R); [discriminate | |].
      * constructor; [apply Z.divide_sub_r; [exact H0 | apply Hdiv]|].
        exact Hrest.
      * intros x Hx. apply Z.divide_add_r; [exact Hx | apply Hdiv].
Qed.

(** [_add_margin_to_breakpoints] raises IndexError on an empty list and
    otherwise returns as many break points as it was given: the first
    lowered by the left margin, the last raised by the right margin (one
    break point takes both), the ones between untouched.  The margins are
    multiples of the step length, so break points on the grid of the step
    length stay on it. *)
Theorem _add_margin_to_breakpoints_shape (imports : Detector.ProcessorImports)
    (profile : Profile) (step_length : Z) (base_bpts : list Z)
    (has_neighbour : bool * bool) (config : Detector.DetectorConfig) :
  match Detector._add_margin_to_breakpoints imports profile step_length
          base_bpts has_neighbour config with
  | Ok bpts =>
      length bpts = length base_bpts
      /\ match base_bpts with
         | [] => False
         | [b0] =>
             bpts
             = [b0 - segment_margin imports profile step_length
                       (fst has_neighbour) config
                + segment_margin imports profile step_length
                    (snd has_neighbour) config]
         | b0 :: rest =>
             bpts
             = (b0 - segment_margin imports profile step_length
                       (fst has_neighbour) config)
               :: removelast rest
               ++ [last rest 0
                   + segment_margin imports profile step_length
                       (snd has_neighbour) config]
         end
      /\ (on_grid step_length base_bpts -> on_grid step_length bpts)
  | Raise e => e = IndexError /\ base_bpts = []
  end.
Proof.
  pose proof (_add_margin_to_breakpoints_cases imports profile step_length
                base_bpts has_neighbour config) as H.
  destruct (Detector._add_margin_to_breakpoints imports profile step_length
              base_bpts has_neighbour config); exact H.
Qed.

(** ** Every plan of the planner is well formed *)

Lemma _m_to_points_Ok (breakpoints_m : list Q) (step_length : Z)
    (points : list Z) :
  Detector._m_to_points breakpoints_m step_length = Ok points ->
  length points = length breakpoints_m /\ on_grid step_length points.
Proof.
  unfold Detector._m_to_points.
  destruct breakpoints_m as [|first rest]; [discriminate|].
  set (l := first :: rest). clearbody l.
  destruct (Qeq_bool _ 0); [discriminate|].
  intros H. injection H as <-.
  split; [rewrite !length_map; reflexivity|].
  unfold on_grid. apply Forall_forall. intros p Hp.
  apply in_map_iff in Hp. destruct Hp as (x & <- & _).
  apply Z.divide_factor_r.
Qed.

Section PlannerInvariant.

Import Detector.
Variable imports : ProcessorImports.
Variable config : DetectorConfig.

(** One segment group as each block of [_create_group_plans] builds it. *)
Lemma planned_group (prof : Profile) (breakpoints_m : list Q)
    (has_neighbour : bool * bool) (bpts hw ext : list Z) :
  (2 <= length breakpoints_m)%nat ->
  _m_to_points breakpoints_m
    (_limit_step_length imports prof (max_step_length config)) = Ok bpts ->
  _calculate_hwaas prof bpts (signal_quality config) = Ok hw ->
  _add_margin_to_breakpoints imports prof
    (_limit_step_length imports prof (max_step_length config)) bpts
    has_neighbour config = Ok ext ->
  plan_well_formed imports config
    (mk_plan (_limit_step_length imports prof (max_step_length config))
       ext prof hw)
  /\ length ext = length breakpoints_m.
Proof.
  intros Hlen Hpts Hhw Hext.
  apply _m_to_points_Ok in Hpts. destruct Hpts as [Hl Hgrid].
  pose proof (_calculate_hwaas_cases prof bpts (signal_quality config))
    as Hc.
  rewrite Hhw in Hc. destruct Hc as (Hhl & Hclamp & _).
  pose proof (_add_margin_to_breakpoints_cases imports prof
                (_limit_step_length imports prof (max_step_length config))
                bpts has_neighbour config) as Hm.
  rewrite Hext in Hm. destruct Hm as (Hel & _ & Hg).
  unfold plan_well_formed. cbn [step_length breakpoints profile hwaas mk_plan].
  split; [|congruence].
  split; [reflexivity|]. split; [exact (Hg Hgrid)|].
  split; [lia|]. split; [lia | exact Hclamp].
Qed.

Lemma close_range_block_well_formed (transition_m : Q)
    (plan : SubsweepGroupPlan) :
  close_range_block imports config transition_m = Ok (Some plan) ->
  plan_well_formed imports config plan
  /\ profile plan = PROFILE_1 /\ num_segments plan = 1%nat.
Proof.
  unfold close_range_block. destruct (Qltb _ _); [|discriminate].
  destruct (_m_to_points _ _) as [bpts|] eqn:Hp; [|discriminate].
  cbn [Py.bind].
  destruct (_calculate_hwaas _ _ _) as [hw|] eqn:Hh; [|discriminate].
  cbn [Py.bind].
  destruct (_add_margin_to_breakpoints _ _ _ _ _ _) as [ext|] eqn:He;
    [|discriminate].
  cbn [Py.bind]. intros [= <-].
  pose proof (fun Hlen => planned_group PROFILE_1 _ _ bpts hw ext Hlen
                           Hp Hh He) as Hpg.
  destruct Hpg as [Hwf Hl]; [simpl; lia|].
  split; [exact Hwf|]. split; [reflexivity|].
  unfold num_segments. cbn [breakpoints mk_plan]. rewrite Hl. reflexivity.
Qed.

Lemma far_range_first_block_well_formed (min_dist_m : Profile -> Q)
    (transition_m : Q) (plans_nonempty : bool) (plan : SubsweepGroupPlan) :
  far_range_first_block imports config min_dist_m transition_m plans_nonempty
  = Ok (Some plan) ->
  plan_well_formed imports config plan /\ num_segments plan = 1%nat.
Proof.
  unfold far_range_first_block.
  destruct (negb _ && Qltb _ _); [|discriminate].
  destruct (match filter _ all_profiles with
            | [] => Raise IndexError
            | p :: _ => _
            end) as [p|]; [|discriminate].
  cbn [Py.bind].
  destruct (_m_to_points _ _) as [bpts|] eqn:Hp; [|discriminate].
  cbn [Py.bind].
  destruct (_calculate_hwaas _ _ _) as [hw|] eqn:Hh; [|discriminate].
  cbn [Py.bind].
  destruct (_add_margin_to_breakpoints _ _ _ _ _ _) as [ext|] eqn:He;
    [|discriminate].
  cbn [Py.bind]. intros [= <-].
  pose proof (fun Hlen => planned_group p _ _ bpts hw ext Hlen Hp Hh He)
    as Hpg.
  destruct Hpg as [Hwf Hl]; [simpl; lia|].
  split; [exact Hwf|].
  unfold num_segments. cbn [breakpoints mk_plan]. rewrite Hl. reflexivity.
Qed.

Lemma far_range_second_block_well_formed (min_dist_m : Profile -> Q)
    (plans_nonempty : bool) (far_subgroup_plans : list SubsweepGroupPlan)
    (plan : SubsweepGroupPlan) :
  (length far_subgroup_plans <= 1)%nat ->
  far_range_second_block imports config min_dist_m plans_nonempty
    far_subgroup_plans = Ok (Some plan) ->
  plan_well_formed imports config plan
  /\ num_segments plan
     = (NUM_SUBSWEEPS_IN_SENSOR_CONFIG - length far_subgroup_plans)%nat.
Proof.
  intros Hfar. unfold far_range_second_block.
  destruct (Qltb _ _); [|discriminate].
  destruct (_m_to_points _ _) as [bpts|] eqn:Hp; [|discriminate].
  cbn [Py.bind].
  destruct (_calculate_hwaas _ _ _) as [hw|] eqn:Hh; [|discriminate].
  cbn [Py.bind].
  destruct (_add_margin_to_breakpoints _ _ _ _ _ _) as [ext|] eqn:He;
    [|discriminate].
  cbn [Py.bind]. intros [= <-].
  assert (Hlin : length (np_linspace (min_dist_m (max_profile config))
                           (end_m config)
                           (NUM_SUBSWEEPS_IN_SENSOR_CONFIG + 1
                            - length far_subgroup_plans))
                 = (NUM_SUBSWEEPS_IN_SENSOR_CONFIG + 1
                    - length far_subgroup_plans)%nat).
  { unfold np_linspace. rewrite length_map, length_seq. reflexivity. }
  pose proof (fun Hlen => planned_group (max_profile config) _ _ bpts hw ext
                           Hlen Hp Hh He) as Hpg.
  destruct Hpg as [Hwf Hl];
    [rewrite Hlin; unfold NUM_SUBSWEEPS_IN_SENSOR_CONFIG; lia|].
  split; [exact Hwf|].
  unfold num_segments. cbn [breakpoints mk_plan]. rewrite Hl, Hlin.
  unfold NUM_SUBSWEEPS_IN_SENSOR_CONFIG. lia.
Qed.

Lemma _create_group_plans_cases (plans : Plan) :
  _create_group_plans imports config = Ok plans ->
  match close_range plans with
  | Some l =>
      exists plan,
        l = [plan] /\ plan_well_formed imports config plan
        /\ profile plan = PROFILE_1 /\ num_segments plan = 1%nat
  | None => True
  end
  /\ match far_range plans with
     | Some l =>
         l <> [] /\ Forall (plan_well_formed imports config) l
         /\ (total_segments l = 1%nat
             \/ total_segments l = NUM_SUBSWEEPS_IN_SENSOR_CONFIG)
     | None => True
     end.
Proof.
  unfold _create_group_plans.
  destruct (close_range_block _ _ _) as [close|] eqn:Hc; [|discriminate].
  cbn [Py.bind].
  destruct (far_range_first_block _ _ _ _ _) as [far1|] eqn:H1;
    [|discriminate].
  cbn [Py.bind].
  destruct (far_range_second_block _ _ _ _ _) as [far2|] eqn:H2;
    [|discriminate].
  cbn [Py.bind]. intros [= <-]. cbn [close_range far_range]. split.
  - destruct close as [plan|]; [|exact I].
    exists plan. split; [reflexivity|].
    exact (close_range_block_well_formed _ _ Hc).
  - destruct far1 as [p1|], far2 as [p2|]; cbn [option_to_list app length
                                                 Nat.eqb negb]; try exact I.
    + apply far_range_first_block_well_formed in H1.
      apply far_range_second_block_well_formed in H2; [|simpl; lia].
      destruct H1 as [W1 N1], H2 as [W2 N2].
      split; [discriminate|].
      split; [constructor; [exact W1|]; constructor; [exact W2|]; constructor|].
      right. unfold total_segments. simpl. rewrite N1, N2. reflexivity.
    + apply far_range_first_block_well_formed in H1. destruct H1 as [W1 N1].
      split; [discriminate|]. split; [constructor; [exact W1|]; constructor|].
      left. unfold total_segments. simpl. rewrite N1. reflexivity.
    + apply far_range_second_block_well_formed in H2; [|simpl; lia].
      destruct H2 as [W2 N2].
      split; [discriminate|]. split; [constructor; [exact W2|]; constructor|].
      right. unfold total_segments. simpl. rewrite N2. reflexivity.
Qed.

End PlannerInvariant.

(** Whatever the configuration, a plan that [_create_group_plans] returns
    holds at most one close-range group, of profile 1 and one segment, and
    far-range groups that make up one segment or exactly
    [NUM_SUBSWEEPS_IN_SENSOR_CONFIG] (four) segments; in every group the
    step length is the one [_limit_step_length] gives for the group's
    profile, the break points lie on the grid of that step length, and
    each segment has a hardware-averaging count within [4, 511]. *)
Theorem _create_group_plans_well_formed (imports : Detector.ProcessorImports)
    (config : Detector.DetectorConfig) :
  match Detector._create_group_plans imports config with
  | Ok plans =>
      match Detector.close_range plans with
      | Some l =>
          exists plan,
            l = [plan] /\ plan_well_formed imports config plan
            /\ Detector.profile plan = PROFILE_1
            /\ num_segments plan = 1%nat
      | None => True
      end
      /\ match Detector.far_range plans with
         | Some l =>
             l <> [] /\ Forall (plan_well_formed imports config) l
             /\ (total_segments l = 1%nat
                 \/ total_segments l
                    = Detector.NUM_SUBSWEEPS_IN_SENSOR_CONFIG)
         | None => True
         end
  | Raise _ => True
  end.
Proof.
  destruct (Detector._create_group_plans imports config) as [plans|e] eqn:E;
    [|exact I].
  exact (_create_group_plans_cases imports config plans E).
Qed.

(** ** From the plans to subsweeps the processor accepts *)

Lemma mapM_nth {A B} (f : A -> result B) (xs : list A) (ys : list B) :
  mapM f xs = Ok ys ->
  forall k x, nth_error xs k = Some x ->
              exists y, nth_error ys k = Some y /\ f x = Ok y.
Proof.
  revert ys; induction xs as [|x0 xs IH]; intros ys; simpl.
  - intros _ [|k] x H; discriminate.
  - destruct (f x0) as [y0|e] eqn:Hf; simpl; [|discriminate].
    destruct (mapM f xs) as [ys'|e]; simpl; [|discriminate].
    intros [= <-] [|k] x Hk; simpl in *.
    + injection Hk as <-. exists y0. split; [reflexivity | exact Hf].
    + apply (IH ys' eq_refl k x Hk).
Qed.

(** On the grid of a positive step length the number of points between
    two break points is exact. *)
Lemma num_points_between_exact (b0 b1 s : Z) :
  1 <= s -> (s | b0) -> (s | b1) ->
  Detector.num_points_between b0 b1 s * s = b1 - b0.
Proof.
  intros Hs [q0 ->] [q1 ->]. unfold Detector.num_points_between, Py.int.
  destruct s as [|p|p]; try lia.
  replace (q1 * Z.pos p - q0 * Z.pos p) with ((q1 - q0) * Z.pos p) by lia.
  cbn [Qdiv Qmult Qinv inject_Z Qnum Qden].
  rewrite Z.mul_1_r. rewrite Pos.mul_1_l.
  rewrite Z.quot_mul by lia. reflexivity.
Qed.

Lemma point_contiguous_nth (cs : list SubsweepConfig) :
  (forall k c c',
     nth_error cs k = Some c -> nth_error cs (S k) = Some c' ->
     a121.start_point c'
     = a121.start_point c + a121.num_points c * a121.step_length c) ->
  point_contiguous cs.
Proof.
  induction cs as [|c [|c' rest] IH]; intros H; [exact I | exact I|].
  split; [exact (H O c c' eq_refl eq_refl)|].
  apply IH. intros k x y Hx Hy. exact (H (S k) x y Hx Hy).
Qed.

Lemma seq_from (a n : nat) : seq a n = map (fun i => (a + i)%nat) (seq 0 n).
Proof.
  revert a; induction n as [|n IH]; intros a; [reflexivity|].
  cbn [seq map]. f_equal; [lia|].
  rewrite (IH (S a)), <- seq_shift, map_map. apply map_ext. intros i. lia.
Qed.

Section FarConversion.

Import Detector.

(** What each subsweep of a far-range plan is. *)
Lemma far_plan_subsweeps_spec (plan : SubsweepGroupPlan) (subsweep_idx : Z)
    (subs : list SubsweepConfig) (l : list Z) :
  far_plan_subsweeps plan subsweep_idx = Ok (subs, l) ->
  length subs = num_segments plan
  /\ l = map (fun i => subsweep_idx + Z.of_nat i) (seq 0 (num_segments plan))
  /\ forall k c,
       nth_error subs k = Some c ->
       exists b0 b1,
         nth_error (breakpoints plan) k = Some b0
         /\ nth_error (breakpoints plan) (k + 1) = Some b1
         /\ a121.start_point c = b0
         /\ a121.num_points c = num_points_between b0 b1 (step_length plan)
         /\ a121.step_length c = step_length plan
         /\ a121.profile c = profile plan
         /\ a121.phase_enhancement c = true.
Proof.
  unfold far_plan_subsweeps, num_segments.
  destruct (mapM _ _) as [subs'|e] eqn:Hm; [|discriminate].
  cbn [Py.bind]. intros [= <- <-].
  pose proof (mapM_length _ _ _ Hm) as Hlen. rewrite length_seq in Hlen.
  split; [exact Hlen|]. split; [reflexivity|].
  intros k c Hk.
  assert (Hlt : (k < length (breakpoints plan) - 1)%nat).
  { rewrite <- Hlen. apply nth_error_Some. congruence. }
  destruct (mapM_nth _ _ _ Hm k k) as (c' & Hc' & Hf).
  { rewrite nth_error_nth' with (d := O) by (rewrite length_seq; exact Hlt).
    rewrite seq_nth by exact Hlt. reflexivity. }
  rewrite Hk in Hc'. injection Hc' as <-.
  unfold getitem in Hf.
  destruct (nth_error (breakpoints plan) (k + 1)) as [b1|] eqn:H1;
    [|discriminate].
  destruct (nth_error (breakpoints plan) k) as [b0|] eqn:H0; [|discriminate].
  destruct (nth_error (hwaas plan) k) as [h|]; [|discriminate].
  cbn [Py.bind] in Hf.
  destruct (_select_prf b1 (profile plan)) as [prf|]; [|discriminate].
  cbn [Py.bind] in Hf. injection Hf as <-.
  exists b0, b1. repeat split.
Qed.

(** The subsweeps of a plan with break points on the grid of its positive
    step length meet the four conditions of the processor. *)
Lemma far_plan_subsweeps_valid (plan : SubsweepGroupPlan) (subsweep_idx : Z)
    (subs : list SubsweepConfig) (l : list Z) :
  1 <= step_length plan ->
  on_grid (step_length plan) (breakpoints plan) ->
  (2 <= length (breakpoints plan))%nat ->
  far_plan_subsweeps plan subsweep_idx = Ok (subs, l) ->
  subs <> [] /\ shares_profile subs /\ shares_step_length subs
  /\ phase_enhanced subs /\ point_contiguous subs
  /\ forall c, In c subs ->
       a121.step_length c = step_length plan
       /\ a121.profile c = profile plan.
Proof.
  intros Hs Hgrid Hlen Hf.
  destruct (far_plan_subsweeps_spec plan subsweep_idx subs l Hf)
    as (Hn & _ & Hk).
  unfold num_segments in Hn.
  assert (Hin : forall c, In c subs ->
                  a121.step_length c = step_length plan
                  /\ a121.profile c = profile plan
                  /\ a121.phase_enhancement c = true).
  { intros c Hc. apply In_nth_error in Hc. destruct Hc as [k Hc].
    destruct (Hk k c Hc) as (b0 & b1 & _ & _ & _ & _ & H1 & H2 & H3).
    repeat split; assumption. }
  split; [intros ->; simpl in Hn; lia|].
  split; [intros c c' Hc Hc';
          destruct (Hin c Hc) as (_ & -> & _);
          destruct (Hin c' Hc') as (_ & -> & _); reflexivity|].
  split; [intros c c' Hc Hc';
          destruct (Hin c Hc) as (-> & _);
          destruct (Hin c' Hc') as (-> & _); reflexivity|].
  split; [apply Forall_forall; intros c Hc; apply (Hin c Hc)|].
  split; [|intros c Hc; destruct (Hin c Hc) as (H1 & H2 & _);
           split; assumption].
  apply point_contiguous_nth. intros k c c' Hc Hc'.
  destruct (Hk k c Hc) as (b0 & b1 & H0 & H1 & -> & -> & -> & _).
  destruct (Hk (S k) c' Hc') as (b0' & b1' & H0' & _ & -> & _).
  rewrite Nat.add_1_r in H1. rewrite H1 in H0'. injection H0' as <-.
  unfold on_grid in Hgrid. rewrite Forall_forall in Hgrid.
  rewrite num_points_between_exact;
    [lia | exact Hs | apply Hgrid; eapply nth_error_In; exact H0
     | apply Hgrid; eapply nth_error_In; exact H1].
Qed.

(** Reading a run of subsweeps back by its indexes. *)
Lemma _get_subsweep_configs_run (pre here post : list SubsweepConfig)
    (sweeps : Z) :
  Processor._get_subsweep_configs
    {| subsweeps := pre ++ here ++ post; sweeps_per_frame := sweeps |}
    (map (fun i => Z.of_nat (length pre) + Z.of_nat i) (seq 0 (length here)))
  = Ok here.
Proof.
  unfold Processor._get_subsweep_configs. cbn [subsweeps].
  revert pre. induction here as [|c here IH]; intros pre; [reflexivity|].
  cbn [length seq map mapM].
  assert (Hget : getitem_int (pre ++ (c :: here) ++ post)
                   (Z.of_nat (length pre) + Z.of_nat 0) = Ok c).
  { destruct (getitem_int_Ok (pre ++ (c :: here) ++ post)
                (Z.of_nat (length pre) + Z.of_nat 0)) as (a & -> & Hn).
    - rewrite !length_app. simpl. lia.
    - replace (Z.to_nat (Z.of_nat (length pre) + Z.of_nat 0))
        with (length pre + 0)%nat in Hn by lia.
      rewrite nth_error_app2 in Hn by lia.
      replace (length pre + 0 - length pre)%nat with O in Hn by lia.
      simpl in Hn. congruence. }
  rewrite Hget. cbn [Py.bind].
  specialize (IH (pre ++ [c])).
  rewrite <- app_assoc in IH. cbn [app] in IH.
  rewrite <- seq_shift, map_map.
  rewrite (map_ext _ (fun i => Z.of_nat (length (pre ++ [c])) + Z.of_nat i))
    by (intros i; rewrite length_app; simpl; lia).
  change ((c :: here) ++ post) with (c :: here ++ post).
  rewrite IH. reflexivity.
Qed.

Lemma far_plans_loop_spec (plans : list SubsweepGroupPlan) :
  Forall (fun plan =>
            1 <= step_length plan
            /\ on_grid (step_length plan) (breakpoints plan)
            /\ (2 <= length (breakpoints plan))%nat) plans ->
  forall (pre : list SubsweepConfig) (sweeps : Z) subs ls,
    far_plans_loop plans (Z.of_nat (length pre)) = Ok (subs, ls) ->
    length subs = total_segments plans
    /\ concat ls
       = map (fun i => Z.of_nat (length pre) + Z.of_nat i)
           (seq 0 (length subs))
    /\ Forall2
         (fun plan l =>
            forall post base,
            exists attrs,
              Processor.__init__
                {| subsweeps := pre ++ subs ++ post;
                   sweeps_per_frame := sweeps |}
                (Some base) (Some l) = Ok attrs
              /\ Processor.profile attrs = profile plan
              /\ Processor.step_length attrs = step_length plan)
         plans ls.
Proof.
  induction 1 as [|plan plans (Hs & Hgrid & Hlen) _ IH];
    intros pre sweeps subs ls Hloop; simpl in Hloop.
  - injection Hloop as <- <-. repeat split. constructor.
  - destruct (far_plan_subsweeps plan (Z.of_nat (length pre)))
      as [[here l]|] eqn:Hhere; [|discriminate].
    cbn [Py.bind fst snd] in Hloop.
    destruct (far_plan_subsweeps_spec plan _ here l Hhere)
      as (Hn & Hl & _).
    assert (Hll : length l = length here).
    { rewrite Hl, length_map, length_seq. symmetry. exact Hn. }
    replace (Z.of_nat (length pre) + Z.of_nat (length l))
      with (Z.of_nat (length (pre ++ here))) in Hloop
      by (rewrite length_app; lia).
    destruct (far_plans_loop plans (Z.of_nat (length (pre ++ here))))
      as [[there ls']|] eqn:Hthere; [|discriminate].
    cbn [Py.bind fst snd] in Hloop. injection Hloop as <- <-.
    destruct (IH (pre ++ here) sweeps there ls' Hthere)
      as (Hn' & Hcat & Hall).
    split; [|split].
    + rewrite length_app, Hn, Hn'. reflexivity.
    + cbn [concat]. rewrite (length_app here there), seq_app, map_app.
      f_equal; [rewrite Hl, Hn; reflexivity|].
      rewrite Hcat. cbn [Nat.add].
      rewrite (seq_from (length here) (length there)), map_map.
      apply map_ext. intros i. rewrite length_app. lia.
    + constructor.
      * intros post base.
        destruct (far_plan_subsweeps_valid plan _ here l Hs Hgrid Hlen Hhere)
          as (Hne & Hprof & Hstep & Hphase & Hcont & Hsame).
        destruct (Processor_init_returns
                    {| subsweeps := pre ++ (here ++ there) ++ post;
                       sweeps_per_frame := sweeps |}
                    base (Some l) here) as (attrs & Hinit & Hattrs);
          try assumption.
        -- cbn [selected_indexes]. rewrite Hl, <- Hn, <- app_assoc.
           apply _get_subsweep_configs_run.
        -- intros c Hc. destruct (Hsame c Hc) as [-> _]. lia.
        -- exists attrs. split; [exact Hinit|].
           destruct here as [|c0 here']; [congruence|].
           destruct (Hattrs c0 (or_introl eq_refl)) as [<- <-].
           destruct (Hsame c0 (or_introl eq_refl)) as [-> ->].
           split; reflexivity.
      * eapply Forall2_impl; [|exact Hall].
        intros plan' l' Hp post base.
        replace (pre ++ (here ++ there) ++ post)
          with ((pre ++ here) ++ there ++ post)
          by (rewrite <- !app_assoc; reflexivity).
        exact (Hp post base).
Qed.

End FarConversion.

Lemma far_subsweeps_accepted_cases
    (subsweep_group_plans : list Detector.SubsweepGroupPlan)
    (sensor_config : SensorConfig) (indexes : list (list Z)) :
  Forall (fun plan =>
            1 <= Detector.step_length plan
            /\ on_grid (Detector.step_length plan) (Detector.breakpoints plan)
            /\ (2 <= length (Detector.breakpoints plan))%nat)
    subsweep_group_plans ->
  Detector._far_subsweep_group_plans_to_sensor_config_and_subsweep_indexes
    subsweep_group_plans = Ok (sensor_config, indexes) ->
  sweeps_per_frame sensor_config = 1
  /\ length (subsweeps sensor_config) = total_segments subsweep_group_plans
  /\ concat indexes = np_arange 0 (num_subsweeps sensor_config)
  /\ Forall2
       (fun plan l =>
          forall base,
          exists attrs,
            Processor.__init__ sensor_config (Some base) (Some l) = Ok attrs
            /\ Processor.profile attrs = Detector.profile plan
            /\ Processor.step_length attrs = Detector.step_length plan)
       subsweep_group_plans indexes.
Proof.
  intros Hplans.
  unfold Detector._far_subsweep_group_plans_to_sensor_config_and_subsweep_indexes.
  destruct (Detector.far_plans_loop subsweep_group_plans 0)
    as [[subs ls]|] eqn:Hloop; [|discriminate].
  cbn [Py.bind fst snd]. intros [= <- <-].
  destruct (far_plans_loop_spec subsweep_group_plans Hplans [] 1 subs ls Hloop)
    as (Hn & Hcat & Hall).
  split; [reflexivity|]. split; [exact Hn|]. split.
  - rewrite Hcat. unfold np_arange, num_subsweeps. cbn [subsweeps length].
    rewrite Z.sub_0_r, Nat2Z.id. reflexivity.
  - eapply Forall2_impl; [|exact Hall].
    intros plan l Hp base. specialize (Hp [] base).
    rewrite app_nil_r in Hp. exact Hp.
Qed.

(** The far-range conversion on plans whose break points lie on the grid
    of their positive step length: one subsweep per segment, one sweep per
    frame; the index lists handed to the processors split the subsweeps
    [0 .. n-1] in order, one list per plan; and for each plan
    [Processor.__init__], handed the sensor configuration and the plan's
    index list, passes its validation and derives its attributes with the
    plan's profile and step length. *)
Theorem far_subsweeps_are_accepted
    (subsweep_group_plans : list Detector.SubsweepGroupPlan)
    (sensor_config : SensorConfig) (indexes : list (list Z)) :
  Forall (fun plan =>
            1 <= Detector.step_length plan
            /\ on_grid (Detector.step_length plan) (Detector.breakpoints plan)
            /\ (2 <= length (Detector.breakpoints plan))%nat)
    subsweep_group_plans ->
  Detector._far_subsweep_group_plans_to_sensor_config_and_subsweep_indexes
    subsweep_group_plans = Ok (sensor_config, indexes) ->
  sweeps_per_frame sensor_config = 1
  /\ length (subsweeps sensor_config) = total_segments subsweep_group_plans
  /\ concat indexes = np_arange 0 (num_subsweeps sensor_config)
  /\ Forall2
       (fun plan l =>
          forall base,
          exists attrs,
            Processor.__init__ sensor_config (Some base) (Some l) = Ok attrs
            /\ Processor.profile attrs = Detector.profile plan
            /\ Processor.step_length attrs = Detector.step_length plan)
       subsweep_group_plans indexes.
Proof.
  intros Hplans Hconv.
  exact (far_subsweeps_accepted_cases subsweep_group_plans sensor_config
           indexes Hplans Hconv).
Qed.

Lemma far_subsweeps_are_accepted_witness :
  exists sensor_config indexes,
    Detector._far_subsweep_group_plans_to_sensor_config_and_subsweep_indexes
      [ {| Detector.step_length := 12;
           Detector.breakpoints := [240; 480; 720];
           Detector.profile := PROFILE_3;
           Detector.hwaas := [8; 16] |} ]
    = Ok (sensor_config, indexes)
    /\ concat indexes = np_arange 0 (num_subsweeps sensor_config)
    /\ Forall2
         (fun plan l =>
            forall base,
            exists attrs,
              Processor.__init__ sensor_config (Some base) (Some l) = Ok attrs
              /\ Processor.profile attrs = Detector.profile plan
              /\ Processor.step_length attrs = Detector.step_length plan)
         [ {| Detector.step_length := 12;
              Detector.breakpoints := [240; 480; 720];
              Detector.profile := PROFILE_3;
              Detector.hwaas := [8; 16] |} ]
         indexes.
Proof.
  set (plan := {| Detector.step_length := 12;
                  Detector.breakpoints := [240; 480; 720];
                  Detector.profile := PROFILE_3;
                  Detector.hwaas := [8; 16] |}).
  destruct (Detector._far_subsweep_group_plans_to_sensor_config_and_subsweep_indexes
              [plan]) as [[sensor_config indexes]|] eqn:E;
    [|vm_compute in E; discriminate].
  exists sensor_config, indexes. split; [reflexivity|].
  refine (proj2 (proj2 (far_subsweeps_are_accepted [plan] sensor_config
                          indexes _ E))).
  constructor; [|constructor].
  split; [cbn; lia|]. split; [|cbn; lia].
  repeat constructor; [exists 20 | exists 40 | exists 60]; reflexivity.
Defined.


Section SpecsAccepted.

Import Detector.
Variable imports : ProcessorImports.




End SpecsAccepted.



(** ** Processor modes and the measurements a configuration needs *)

Lemma filter_map_same {A} (p : A -> bool) (f : A -> A) (l : list A) :
  (forall x, p (f x) = p x) -> filter p (map f l) = map f (filter p l).
Proof.
  intros H. induction l as [|x l IH]; [reflexivity|].
  cbn [map filter]. rewrite H. destruct (p x); cbn [map]; rewrite IH;
    reflexivity.
Qed.

(** [_update_processor_mode] returns the specifications in order, each
    with the requested mode and otherwise unchanged: a second update
    overrides the first, and picking the close-range specifications before
    or after the update gives the same list. *)
Theorem _update_processor_mode_spec (specs : list ProcessorSpec.t)
    (mode mode' : ProcessorMode) :
  length (Detector._update_processor_mode specs mode) = length specs
  /\ (forall k spec,
        nth_error specs k = Some spec ->
        exists spec',
          nth_error (Detector._update_processor_mode specs mode) k
          = Some spec'
          /\ ProcessorConfig.processor_mode
               (ProcessorSpec.processor_config spec') = mode
          /\ ProcessorConfig.threshold_method
               (ProcessorSpec.processor_config spec')
             = ProcessorConfig.threshold_method
                 (ProcessorSpec.processor_config spec)
          /\ ProcessorConfig.measurement_type
               (ProcessorSpec.processor_config spec')
             = ProcessorConfig.measurement_type
                 (ProcessorSpec.processor_config spec)
          /\ ProcessorConfig.fixed_threshold_value
               (ProcessorSpec.processor_config spec')
             = ProcessorConfig.fixed_threshold_value
                 (ProcessorSpec.processor_config spec)
          /\ ProcessorConfig.threshold_sensitivity
               (ProcessorSpec.processor_config spec')
             = ProcessorConfig.threshold_sensitivity
                 (ProcessorSpec.processor_config spec)
          /\ ProcessorConfig.cfar_one_sided
               (ProcessorSpec.processor_config spec')
             = ProcessorConfig.cfar_one_sided
                 (ProcessorSpec.processor_config spec)
          /\ ProcessorSpec.group_index spec' = ProcessorSpec.group_index spec
          /\ ProcessorSpec.sensor_id spec' = ProcessorSpec.sensor_id spec
          /\ ProcessorSpec.subsweep_indexes spec'
             = ProcessorSpec.subsweep_indexes spec
          /\ ProcessorSpec.processor_context spec'
             = ProcessorSpec.processor_context spec)
  /\ Detector._update_processor_mode
       (Detector._update_processor_mode specs mode) mode'
     = Detector._update_processor_mode specs mode'
  /\ filter Detector.is_close_range
       (Detector._update_processor_mode specs mode)
     = Detector._update_processor_mode
         (filter Detector.is_close_range specs) mode.
Proof.
  unfold Detector._update_processor_mode.
  split; [apply length_map|]. split; [|split].
  - intros k spec Hk. eexists. rewrite nth_error_map, Hk.
    split; [reflexivity|]. cbn. repeat split.
  - rewrite map_map. apply map_ext. intros spec. reflexivity.
  - apply filter_map_same. intros spec. reflexivity.
Qed.

Section Needs.

Import Detector.
Variable imports : ProcessorImports.

Lemma existsb_far_specs_close (config : DetectorConfig)
    (group_index sensor_id : Z) (indexes : list (list Z)) :
  existsb is_close_range
    (map (mk_spec (far_range_processor_config config) group_index sensor_id)
       indexes) = false.
Proof. induction indexes as [|l ls IH]; [reflexivity | exact IH]. Qed.

Lemma existsb_far_specs_recorded (config : DetectorConfig)
    (group_index sensor_id : Z) (indexes : list (list Z)) :
  indexes <> [] ->
  existsb
    (fun spec =>
       ThresholdMethod_eqb
         (ProcessorConfig.threshold_method
            (ProcessorSpec.processor_config spec)) RECORDED)
    (map (mk_spec (far_range_processor_config config) group_index sensor_id)
       indexes)
  = ThresholdMethod_eqb (threshold_method config) RECORDED.
Proof.
  intros Hne. induction indexes as [|l ls IH]; [congruence|].
  cbn [map existsb mk_spec far_range_processor_config
       ProcessorSpec.processor_config ProcessorConfig.threshold_method].
  destruct (ThresholdMethod_eqb (threshold_method config) RECORDED) eqn:E;
    [reflexivity|].
  destruct ls as [|l' ls']; [reflexivity|].
  cbn [orb]. apply IH. discriminate.
Qed.

Lemma far_plans_loop_length (plans : list SubsweepGroupPlan) (idx : Z) r :
  far_plans_loop plans idx = Ok r -> length (snd r) = length plans.
Proof.
  revert idx r; induction plans as [|plan plans IH]; intros idx r; simpl.
  - intros [= <-]. reflexivity.
  - destruct (far_plan_subsweeps plan idx) as [here|]; [|discriminate].
    cbn [Py.bind].
    destruct (far_plans_loop plans _) as [there|] eqn:E; [|discriminate].
    cbn [Py.bind]. intros [= <-]. cbn [snd length]. f_equal.
    exact (IH _ _ E).
Qed.

Lemma close_range_planned (config : DetectorConfig) (plans : Plan) :
  _create_group_plans imports config = Ok plans ->
  (exists l, close_range plans = Some l)
  <-> Qltb (start_m config) (_add_to_min_dist_m imports config PROFILE_1)
      = true.
Proof.
  unfold _create_group_plans, close_range_block.
  destruct (Qltb (start_m config) _).
  - destruct (_m_to_points _ _); [|discriminate]. cbn [Py.bind].
    destruct (_calculate_hwaas _ _ _); [|discriminate]. cbn [Py.bind].
    destruct (_add_margin_to_breakpoints _ _ _ _ _ _); [|discriminate].
    cbn [Py.bind].
    destruct (far_range_first_block _ _ _ _ _); [|discriminate].
    cbn [Py.bind].
    destruct (far_range_second_block _ _ _ _ _); [|discriminate].
    cbn [Py.bind]. intros [= <-]. cbn [close_range].
    split; [reflexivity | eexists; reflexivity].
  - cbn [Py.bind].
    destruct (far_range_first_block _ _ _ _ _); [|discriminate].
    cbn [Py.bind].
    destruct (far_range_second_block _ _ _ _ _); [|discriminate].
    cbn [Py.bind]. intros [= <-]. cbn [close_range].
    split; [intros [l H]; discriminate | discriminate].
Qed.

(** What the two predicates on a configuration compute, whenever the
    planner returns. *)
Lemma measurement_needs (config : DetectorConfig) (sensor_id : Z) r :
  _detector_to_session_config_and_processor_specs imports config sensor_id
  = Ok r ->
  existsb is_close_range (snd r)
  = Qltb (start_m config) (_add_to_min_dist_m imports config PROFILE_1)
  /\ existsb
       (fun spec =>
          ThresholdMethod_eqb
            (ProcessorConfig.threshold_method
               (ProcessorSpec.processor_config spec)) RECORDED)
       (snd r)
     = (existsb is_close_range (snd r)
        || ThresholdMethod_eqb (threshold_method config) RECORDED).
Proof.
  unfold _detector_to_session_config_and_processor_specs.
  destruct (_create_group_plans imports config) as [plans|] eqn:Hplans;
    [|discriminate].
  cbn [Py.bind].
  pose proof (close_range_planned config plans Hplans) as Hclose.
  destruct (close_range plans) as [close_plans|].
  - destruct (_close_subsweep_group_plans_to_sensor_config close_plans);
      [|discriminate].
    cbn [Py.bind].
    assert (Hq : Qltb (start_m config)
                   (_add_to_min_dist_m imports config PROFILE_1) = true)
      by (apply Hclose; eexists; reflexivity).
    rewrite Hq.
    destruct (far_range plans) as [far_plans|].
    + destruct (_far_subsweep_group_plans_to_sensor_config_and_subsweep_indexes
                  far_plans); [|discriminate].
      cbn [Py.bind fst snd app SessionConfig_new]. intros [= <-].
      split; reflexivity.
    + cbn [Py.bind fst snd SessionConfig_new]. intros [= <-].
      split; reflexivity.
  - cbn [Py.bind].
    assert (Hq : Qltb (start_m config)
                   (_add_to_min_dist_m imports config PROFILE_1) = false).
    { destruct (Qltb _ _); [|reflexivity].
      destruct (proj2 Hclose eq_refl) as [l Hl]. discriminate. }
    rewrite Hq.
    destruct (far_range plans) as [far_plans|] eqn:Hfar.
    + unfold _far_subsweep_group_plans_to_sensor_config_and_subsweep_indexes.
      destruct (far_plans_loop far_plans 0) as [loop|] eqn:Hloop;
        [|discriminate].
      cbn [Py.bind fst snd app SessionConfig_new]. intros [= <-].
      cbn [snd]. rewrite existsb_far_specs_close. split; [reflexivity|].
      apply existsb_far_specs_recorded.
      pose proof (far_plans_loop_length _ _ _ Hloop) as Hlen.
      destruct (_create_group_plans_cases imports config plans Hplans)
        as [_ Hf].
      rewrite Hfar in Hf. destruct Hf as [Hne _].
      intros E. rewrite E in Hlen. destruct far_plans; [congruence|].
      discriminate.
    + cbn [Py.bind fst snd SessionConfig_new]. discriminate.
Qed.

End Needs.

(** A close-range measurement is planned exactly when [start_m] lies
    below the minimum distance of profile 1 (with the CFAR margin when the
    threshold method is CFAR), and a recorded threshold is in use exactly
    when a close-range measurement is planned or the threshold method is
    RECORDED: with a close-range measurement the recorded threshold is
    needed whatever the threshold method.  Both predicates fail exactly
    when the planner or the conversion fails. *)
Theorem measurement_predicates (imports : Detector.ProcessorImports)
    (config : Detector.DetectorConfig) :
  match Detector._detector_to_session_config_and_processor_specs imports
          config 1 with
  | Ok _ =>
      Detector._has_close_range_measurement imports config
      = Ok (Qltb (Detector.start_m config)
              (Detector._add_to_min_dist_m imports config PROFILE_1))
      /\ Detector._has_recorded_threshold_mode imports config
         = Ok (Qltb (Detector.start_m config)
                 (Detector._add_to_min_dist_m imports config PROFILE_1)
               || ThresholdMethod_eqb (Detector.threshold_method config)
                    RECORDED)
  | Raise e =>
      Detector._has_close_range_measurement imports config = Raise e
      /\ Detector._has_recorded_threshold_mode imports config = Raise e
  end.
Proof.
  unfold Detector._has_close_range_measurement,
    Detector._has_recorded_threshold_mode.
  destruct (Detector._detector_to_session_config_and_processor_specs imports
              config 1) as [r|e] eqn:E; cbn [Py.bind];
    [|split; reflexivity].
  destruct (measurement_needs imports config 1 r E) as [H1 H2].
  rewrite H2, H1. split; reflexivity.
Qed.


(** ** Recording the threshold, and the order of the calibrations *)

Section Recording.

Import Detector.
Variables World ExtendedMetadata ExtendedResult Aggregator : Type.
Variables Recorder RecorderResult : Type.
Variable env :
  Collaborators World ExtendedMetadata ExtendedResult Aggregator Recorder
    RecorderResult.

Lemma nr_ret {A} (e : exn) (a : A) :
  never_raises e (ret a : M World Aggregator A).
Proof. intros s. discriminate. Qed.

Lemma nr_raise {A} (e e' : exn) :
  e' <> e -> never_raises e (raise e' : M World Aggregator A).
Proof. intros H s. cbn. congruence. Qed.

Lemma nr_lift {A} (e : exn) (r : result A) :
  r <> Raise e -> never_raises e (lift r : M World Aggregator A).
Proof. intros H s. exact H. Qed.

Lemma nr_self (e : exn) : never_raises e (@self World Aggregator).
Proof. intros s. discriminate. Qed.

Lemma nr_external {A} (e : exn) (call : World -> reply A * World) :
  (forall code, ExternalError code <> e) ->
  never_raises e (external call : M World Aggregator A).
Proof.
  intros H s. unfold external.
  destruct (call (snd s)) as [[a|code] w]; cbn; [discriminate|].
  specialize (H code). congruence.
Qed.

Lemma nr_assign (e : exn) (f : Detector Aggregator -> Detector Aggregator) :
  never_raises e (assign f : M World Aggregator unit).
Proof. intros s. discriminate. Qed.

Lemma nr_assign_context (e : exn) (f : DetectorContext -> DetectorContext) :
  never_raises e (assign_context f : M World Aggregator unit).
Proof. intros s. discriminate. Qed.

Lemma nr_bind {A B} (e : exn) (m : M World Aggregator A)
    (k : A -> M World Aggregator B) :
  never_raises e m -> (forall a, never_raises e (k a)) ->
  never_raises e (mbind m k).
Proof.
  intros Hm Hk s. unfold mbind. specialize (Hm s).
  destruct (m s) as [[a|e'] s']; cbn in *; [apply Hk|].
  intros [= ->]. apply Hm. reflexivity.
Qed.

Ltac nr :=
  lazymatch goal with
  | |- never_raises _ (mbind _ _) => apply nr_bind; [nr | intros ?; nr]
  | |- never_raises _ (ret _) => apply nr_ret
  | |- never_raises _ (raise _) => apply nr_raise; discriminate
  | |- never_raises _ (@self _ _) => apply nr_self
  | |- never_raises _ (external _) =>
      apply nr_external; intros ?; discriminate
  | |- never_raises _ (assign _) => apply nr_assign
  | |- never_raises _ (assign_context _) => apply nr_assign_context
  | |- never_raises _ (if ?b then _ else _) => destruct b; nr
  | |- never_raises _ (match ?x with _ => _ end) => destruct x; nr
  | |- _ => idtac
  end.

(** Past the guard on [started] a method runs its body. *)
Lemma started_guard {A} (msg : string)
    (body : Detector Aggregator -> M World Aggregator A)
    (d : Detector Aggregator) (w : World) :
  started d = false ->
  mbind (@self World Aggregator)
    (fun d => if started d then raise (RuntimeError msg) else body d) (d, w)
  = body d (d, w).
Proof. intros H. unfold mbind, self. cbn. rewrite H. reflexivity. Qed.

Lemma started_refused {A} (msg : string)
    (body : Detector Aggregator -> M World Aggregator A)
    (d : Detector Aggregator) (w : World) :
  started d = true ->
  mbind (@self World Aggregator)
    (fun d => if started d then raise (RuntimeError msg) else body d) (d, w)
  = (Raise (RuntimeError msg), (d, w)).
Proof. intros H. unfold mbind, self. cbn. rewrite H. reflexivity. Qed.

Lemma add_context_to_one_errors (d : Detector Aggregator) (idx : nat)
    (spec : ProcessorSpec.t) (e : exn) :
  add_context_to_one d idx spec = Raise e ->
  e = RuntimeError ""
  \/ e = Exception "Close range calibration not performed"
  \/ e = Exception "Recorded threshold calibration not performed"
  \/ e = IndexError.
Proof.
  unfold add_context_to_one, _close_range_calibrated, getitem.
  repeat match goal with
         | |- context [if ?b then _ else _] => destruct b; cbn [Py.bind]
         | |- context [match recorded_thresholds ?c with _ => _ end] =>
             destruct (recorded_thresholds c); cbn [Py.bind]
         | |- context [match nth_error ?l ?i with _ => _ end] =>
             destruct (nth_error l i); cbn [Py.bind]
         end;
    intros [= <-]; tauto.
Qed.

Lemma _add_context_to_processor_spec_errors (d : Detector Aggregator)
    (specs : list ProcessorSpec.t) (e : exn) :
  _add_context_to_processor_spec d specs = Raise e ->
  e = RuntimeError ""
  \/ e = Exception "Close range calibration not performed"
  \/ e = Exception "Recorded threshold calibration not performed"
  \/ e = IndexError.
Proof.
  unfold _add_context_to_processor_spec. intros H.
  apply mapM_Raise in H. destruct H as ([idx spec] & _ & H).
  exact (add_context_to_one_errors d idx spec e H).
Qed.

Lemma record_frames_never (e : exn) (n : nat) (aggregator : Aggregator)
    (r : option (AggregatorResult ExtendedResult)) :
  (forall code, ExternalError code <> e) ->
  never_raises e (record_frames env n aggregator r).
Proof.
  intros He. revert r. induction n as [|n IH]; intros r; cbn [record_frames].
  - apply nr_ret.
  - apply nr_bind; [apply nr_external; exact He | intros er].
    apply nr_bind; [apply nr_external; exact He | intros ar]. apply IH.
Qed.

Lemma append_thresholds_never (e : exn) (results : list ProcessorResult.t) :
  AssertionError <> e ->
  never_raises e (append_thresholds results : M World Aggregator unit).
Proof.
  intros He. induction results as [|r results IH]; cbn [append_thresholds].
  - apply nr_ret.
  - destruct (ProcessorResult.recorded_threshold r);
      [|apply nr_raise; exact He].
    apply nr_bind; [apply nr_assign_context | intros _; exact IH].
Qed.

(** Calibration is refused while the detector runs: [calibrate_close_range]
    and [record_threshold] raise [RuntimeError("Already started")] exactly
    when the detector is started, and then leave the detector and the
    sensor as they were. *)
Theorem calibration_refused_while_started (d : Detector Aggregator)
    (w : World) :
  (fst (calibrate_close_range env (d, w))
   = Raise (RuntimeError "Already started") <-> started d = true)
  /\ (fst (record_threshold env (d, w))
      = Raise (RuntimeError "Already started") <-> started d = true)
  /\ (started d = true ->
      calibrate_close_range env (d, w)
      = (Raise (RuntimeError "Already started"), (d, w))
      /\ record_threshold env (d, w)
         = (Raise (RuntimeError "Already started"), (d, w))).
Proof.
  split; [|split].
  - split.
    + intros H. destruct (started d) eqn:Hs; [reflexivity|]. exfalso.
      revert H. unfold calibrate_close_range.
      rewrite started_guard by exact Hs.
      match goal with
      | |- fst (?m _) = _ -> False =>
          assert (Hn : never_raises (RuntimeError "Already started") m)
      end; [|apply Hn].
      nr.
      * apply nr_lift. unfold _filter_close_range_spec.
        destruct (negb _); discriminate.
      * apply nr_lift.
        destruct (processor_results _) as [|? [|? ?]]; discriminate.
    + intros Hs. unfold calibrate_close_range.
      rewrite started_refused by exact Hs. reflexivity.
  - split.
    + intros H. destruct (started d) eqn:Hs; [reflexivity|]. exfalso.
      revert H. unfold record_threshold.
      rewrite started_guard by exact Hs.
      match goal with
      | |- fst (?m _) = _ -> False =>
          assert (Hn : never_raises (RuntimeError "Already started") m)
      end; [|apply Hn].
      nr.
      * apply nr_lift. intros H.
        apply _add_context_to_processor_spec_errors in H.
        destruct H as [H|[H|[H|H]]]; discriminate.
      * apply record_frames_never. intros code. discriminate.
      * apply append_thresholds_never. discriminate.
    + intros Hs. unfold record_threshold.
      rewrite started_refused by exact Hs. reflexivity.
  - intros Hs. split.
    + unfold calibrate_close_range. apply started_refused. exact Hs.
    + unfold record_threshold. apply started_refused. exact Hs.
Qed.

Lemma record_frames_Ok (n : nat) (aggregator : Aggregator)
    (r0 : option (AggregatorResult ExtendedResult))
    (d : Detector Aggregator) (w : World) r s' :
  record_frames env n aggregator r0 (d, w) = (Ok r, s') ->
  fst s' = d
  /\ ((n = O /\ r = r0)
      \/ (n <> O
          /\ exists er wa ar,
               Aggregator_process env aggregator er wa = (Reply ar, snd s')
               /\ r = Some ar)).
Proof.
  revert r0 w. induction n as [|n IH]; intros r0 w; cbn [record_frames].
  - unfold ret. intros [= <- <-]. split; [reflexivity|]. left. tauto.
  - unfold mbind, external. cbn [fst snd].
    destruct (client_get_next env w) as [[er|c] w1]; cbn [fst snd];
      [|discriminate].
    destruct (Aggregator_process env aggregator er w1) as [[ar|c] w2] eqn:Hp;
      cbn [fst snd]; [|discriminate].
    intros H. destruct (IH _ _ H) as [Hd Hcases]. split; [exact Hd|].
    right. split; [discriminate|].
    destruct Hcases as [[-> ->]|(_ & er' & wa & ar' & Hp' & ->)].
    + exists er, w1, ar. split; [|reflexivity].
      assert (Hs : s' = (d, w2))
        by (cbn [record_frames] in H; unfold ret in H; congruence).
      rewrite Hs. exact Hp.
    + exists er', wa, ar'. split; [exact Hp' | reflexivity].
Qed.

Lemma append_thresholds_Ok (results : list ProcessorResult.t)
    (prior : list (list Q)) (c0 : DetectorContext)
    (d0 : Detector Aggregator) (w : World) s' :
  append_thresholds results
    (set_context (set_recorded_thresholds (Some prior) c0) d0, w)
  = (Ok tt, s') ->
  exists thresholds,
    map ProcessorResult.recorded_threshold results = map Some thresholds
    /\ s' = (set_context
               (set_recorded_thresholds (Some (prior ++ thresholds)) c0) d0,
             w).
Proof.
  revert prior. induction results as [|r results IH]; intros prior;
    cbn [append_thresholds].
  - unfold ret. intros [= <-]. exists []. rewrite app_nil_r.
    split; reflexivity.
  - destruct (ProcessorResult.recorded_threshold r) as [t|] eqn:Ht;
      [|discriminate].
    unfold mbind at 1. unfold assign_context, assign. cbn [fst snd].
    change (set_context _ (set_context _ d0))
      with (set_context (set_recorded_thresholds (Some (prior ++ [t])) c0)
              d0).
    intros H. destruct (IH _ H) as (ths & Hths & ->).
    exists (t :: ths). cbn [map]. rewrite Ht, Hths, <- app_assoc.
    split; reflexivity.
Qed.

Lemma record_threshold_inversion (d d' : Detector Aggregator)
    (w w' : World) :
  record_threshold env (d, w) = (Ok tt, (d', w')) ->
  started d = false
  /\ 1 <= num_frames_in_recorded_threshold (detector_config d)
  /\ (exists specs,
        _add_context_to_processor_spec d
          (_update_processor_mode (processor_specs d)
             RECORDED_THRESHOLD_CALIBRATION) = Ok specs)
  /\ exists aggregator er wa wb ar thresholds,
       Aggregator_process env aggregator er wa = (Reply ar, wb)
       /\ map ProcessorResult.recorded_threshold (processor_results ar)
          = map Some thresholds
       /\ d' = set_context (recorded_context d thresholds) d.
Proof.
  intros H. unfold record_threshold in H.
  destruct (started d) eqn:Hs;
    [rewrite started_refused in H by exact Hs; discriminate|].
  rewrite started_guard in H by exact Hs.
  split; [reflexivity|]. revert H.
  unfold mbind, lift, external, raise. cbn [fst snd].
  destruct (_add_context_to_processor_spec d _) as [specs|] eqn:Hspecs;
    [|discriminate].
  destruct (client_setup_session env (session_config d) w) as [[md|c] w1];
    cbn [fst snd]; [|discriminate].
  destruct (Aggregator_new env (session_config d) md None specs w1)
    as [[agg|c] w2]; cbn [fst snd]; [|discriminate].
  destruct (client_start_session env None w2) as [[[]|c] w3];
    cbn [fst snd]; [|discriminate].
  destruct (record_frames env _ agg None (d, w3)) as [[r|e] s4] eqn:Hrf;
    [|discriminate].
  destruct (record_frames_Ok _ _ _ _ _ _ _ Hrf) as [Hd Hcases].
  destruct s4 as [d4 w4]. cbn [fst snd] in *. subst d4.
  destruct (client_stop_session env w4) as [[rr|c] w5];
    cbn [fst snd]; [|discriminate].
  destruct Hcases as [[_ ->]|(Hn & er & wa & ar & Hp & ->)];
    [discriminate|].
  unfold assign_context at 1. unfold assign at 1. cbn [fst snd].
  destruct (append_thresholds (processor_results ar) _) as [[[]|e] s6]
    eqn:Happ; [|discriminate].
  apply (append_thresholds_Ok _ [] (context d) d w5) in Happ.
  destruct Happ as (ths & Hths & ->).
  unfold assign_context, assign. cbn [fst snd app].
  intros [= <- <-].
  split; [lia|]. split; [exists specs; reflexivity|].
  exists agg, er, wa, w4, ar, ths.
  split; [exact Hp|]. split; [exact Hths | reflexivity].
Qed.

(** A [record_threshold] that returns ran on a detector that was not
    started, over at least one frame, and leaves behind the thresholds of
    the processor results of one aggregator result, in order, together
    with the session configuration used; the close-range calibration and
    every other attribute of the detector are as before. *)
Theorem record_threshold_effect (d d' : Detector Aggregator) (w w' : World) :
  record_threshold env (d, w) = (Ok tt, (d', w')) ->
  started d = false
  /\ 1 <= num_frames_in_recorded_threshold (detector_config d)
  /\ exists aggregator er wa wb ar thresholds,
       Aggregator_process env aggregator er wa = (Reply ar, wb)
       /\ map ProcessorResult.recorded_threshold (processor_results ar)
          = map Some thresholds
       /\ d' = set_context (recorded_context d thresholds) d.
Proof.
  intros H.
  destruct (record_threshold_inversion d d' w w' H) as (Hs & Hn & _ & Hrest).
  split; [exact Hs|]. split; [exact Hn | exact Hrest].
Qed.

(** With no frame to record ([num_frames_in_recorded_threshold] zero or
    negative) [record_threshold] sets the session up, starts and stops it,
    and then fails its assertion: the context is left as it was. *)
Theorem record_threshold_no_frames (d : Detector Aggregator) (w : World)
    specs md w1 agg w2 w3 rr w4 :
  started d = false ->
  num_frames_in_recorded_threshold (detector_config d) <= 0 ->
  _add_context_to_processor_spec d
    (_update_processor_mode (processor_specs d)
       RECORDED_THRESHOLD_CALIBRATION) = Ok specs ->
  client_setup_session env (session_config d) w = (Reply md, w1) ->
  Aggregator_new env (session_config d) md None specs w1 = (Reply agg, w2) ->
  client_start_session env None w2 = (Reply tt, w3) ->
  client_stop_session env w3 = (Reply rr, w4) ->
  record_threshold env (d, w) = (Raise AssertionError, (d, w4)).
Proof.
  intros Hs Hn Hspecs H1 H2 H3 H4. unfold record_threshold.
  rewrite started_guard by exact Hs.
  unfold mbind, lift, external, raise. cbn [fst snd].
  rewrite Hspecs, H1. cbn [fst snd]. rewrite H2. cbn [fst snd].
  rewrite H3. cbn [fst snd].
  replace (Z.to_nat (num_frames_in_recorded_threshold (detector_config d)))
    with O by lia.
  cbn [record_frames]. unfold ret. cbn [fst snd]. rewrite H4. reflexivity.
Qed.

(** Recording the threshold before the close-range calibration is
    refused: when the first processor specification is a close-range one
    and the context holds neither a direct leakage nor a phase-jitter
    reference, [record_threshold] raises
    [Exception("Close range calibration not performed")] before the
    sensor is touched. *)
Theorem record_threshold_needs_close_range_calibration
    (d : Detector Aggregator) (w : World) spec rest :
  started d = false ->
  processor_specs d = spec :: rest ->
  is_close_range spec = true ->
  direct_leakage (context d) = None ->
  phase_jitter_comp_reference (context d) = None ->
  record_threshold env (d, w)
  = (Raise (Exception "Close range calibration not performed"), (d, w)).
Proof.
  intros Hs Hspecs Hclose Hdl Hpj. unfold record_threshold.
  rewrite started_guard by exact Hs.
  unfold mbind at 1. unfold lift at 1. cbn [fst snd].
  rewrite Hspecs. unfold _add_context_to_processor_spec.
  cbn [_update_processor_mode map length seq combine mapM fst snd].
  unfold add_context_to_one at 1.
  cbn [ProcessorSpec.processor_config ProcessorConfig.measurement_type
       ProcessorConfig.processor_mode ProcessorMode_eqb].
  unfold is_close_range in Hclose. rewrite Hclose.
  cbn [andb]. unfold _close_range_calibrated. rewrite Hdl, Hpj.
  reflexivity.
Qed.

(** *** Readiness: the status and the checks of [start] *)

Variable imports : ProcessorImports.

Lemma eq_optional_same (sc : SessionConfig) : eq_optional sc (Some sc) = true.
Proof.
  unfold eq_optional, SessionConfig_eqb.
  destruct (SessionConfig_eq_dec sc sc); congruence.
Qed.

Lemma has_recorded_of_close (config : DetectorConfig) :
  _has_close_range_measurement imports config = Ok true ->
  _has_recorded_threshold_mode imports config = Ok true.
Proof.
  unfold _has_close_range_measurement, _has_recorded_threshold_mode.
  destruct (_detector_to_session_config_and_processor_specs imports config 1)
    as [r|e] eqn:E; cbn [Py.bind]; [|discriminate].
  destruct (measurement_needs imports config 1 r E) as [_ H].
  rewrite H. intros [= ->]. reflexivity.
Qed.

(** For a detector whose session configuration is the one its
    configuration gives for sensor 1, the status agrees with [start]:
    [ready_to_start] is set exactly when both checks that [start] makes
    before it touches the sensor pass. *)
Theorem ready_to_start_iff_start_checks_pass (d : Detector Aggregator)
    (specs : list ProcessorSpec.t) (status : DetectorStatus) :
  _detector_to_session_config_and_processor_specs imports
    (detector_config d) 1 = Ok (session_config d, specs) ->
  get_detector_status imports (detector_config d) (context d) = Ok status ->
  (ready_to_start status = true
   <-> _ensure_detector_is_calibrated imports d = Ok tt
       /\ _ensure_matching_session_config imports d = Ok tt).
Proof.
  intros Hconv.
  destruct (measurement_needs imports _ 1 _ Hconv) as [_ Hrec].
  cbn [snd] in Hrec.
  unfold get_detector_status, _ensure_detector_is_calibrated,
    _ensure_matching_session_config, _has_close_range_measurement,
    _has_recorded_threshold_mode.
  rewrite Hconv. cbn [Py.bind fst snd]. rewrite Hrec.
  destruct (existsb is_close_range specs); cbn [orb Py.bind].
  - destruct (_close_range_calibrated (context d)) as [[|]|e];
      cbn [Py.bind]; [| |discriminate].
    + destruct (eq_optional (session_config d)
                  (close_range_session_config_used (context d)));
        destruct (_recorded_threshold_calibrated (context d));
        destruct (eq_optional (session_config d)
                    (recorded_threshold_session_config_used (context d)));
        cbn; intros [= <-]; cbn; split;
        try discriminate; try (intros [? ?]; discriminate);
        try (split; reflexivity).
    + intros [= <-]. cbn. split; [discriminate|]. intros [? _].
      discriminate.
  - destruct (ThresholdMethod_eqb (threshold_method (detector_config d))
                RECORDED);
      destruct (_recorded_threshold_calibrated (context d));
      destruct (eq_optional (session_config d)
                  (recorded_threshold_session_config_used (context d)));
      cbn; intros [= <-]; cbn; split;
      try discriminate; try (intros [? ?]; discriminate);
      try (split; reflexivity).
Qed.

(** The close-range calibration alone does not make the detector ready:
    after a [calibrate_close_range] that returned, on a configuration with
    a close-range measurement, [start] is refused before the sensor is
    touched, with [ValueError("Detector not calibrated.")] when the
    calibration frame gave a direct leakage and with the [RuntimeError] of
    the inconsistent pair when it gave none. *)
Theorem start_after_calibrate_close_range_alone (d d' : Detector Aggregator)
    (w w' w2 : World) (recorder : option Recorder) :
  calibrate_close_range env (d, w) = (Ok tt, (d', w')) ->
  _has_close_range_measurement imports (detector_config d) = Ok true ->
  start imports env recorder (d', w2)
  = (Raise (match direct_leakage (context d') with
            | Some _ => ValueError "Detector not calibrated."
            | None => RuntimeError ""
            end), (d', w2)).
Proof.
  intros Hcal Hclose.
  destruct (calibrate_close_range_inversion _ _ _ _ _ _ env d d' w w' Hcal)
    as (Hs & spec & ar & r & pjcr & _ & _ & _ & Hpj & ->).
  unfold start. rewrite started_guard by exact Hs.
  unfold mbind at 1. unfold lift at 1.
  unfold _ensure_detector_is_calibrated.
  cbn [set_context detector_config context calibrated_context
       direct_leakage].
  rewrite Hclose. cbn [Py.bind]. unfold _close_range_calibrated.
  cbn [direct_leakage phase_jitter_comp_reference calibrated_context
       is_not_None].
  destruct (ProcessorResult.direct_leakage r); reflexivity.
Qed.

Lemma In_combine_seq {A} (l : list A) (start : nat) (x : A) :
  In x l -> exists k, In (k, x) (combine (seq start (length l)) l).
Proof.
  revert start. induction l as [|y l IH]; intros start; [intros []|].
  intros [->|Hin].
  - exists start. left. reflexivity.
  - destruct (IH (S start) Hin) as [k Hk]. exists k. right. exact Hk.
Qed.

Lemma mapM_In {A B} (f : A -> result B) (xs : list A) (ys : list B) :
  mapM f xs = Ok ys -> forall x, In x xs -> exists y, f x = Ok y.
Proof.
  intros H x Hin. apply In_nth_error in Hin. destruct Hin as [k Hk].
  destruct (mapM_nth f xs ys H k x Hk) as (y & _ & Hy).
  exists y. exact Hy.
Qed.

(** Giving a close-range specification in recording mode its context
    succeeds only on a calibrated pair. *)
Lemma recording_needs_close_range_calibration (d : Detector Aggregator)
    (specs specs' : list ProcessorSpec.t) (spec : ProcessorSpec.t) :
  _add_context_to_processor_spec d
    (_update_processor_mode specs RECORDED_THRESHOLD_CALIBRATION)
  = Ok specs' ->
  In spec specs -> is_close_range spec = true ->
  _close_range_calibrated (context d) = Ok true.
Proof.
  unfold _add_context_to_processor_spec. intros H Hin Hclose.
  set (upd := _update_processor_mode specs RECORDED_THRESHOLD_CALIBRATION)
    in *.
  assert (Hin' : In (hd spec (_update_processor_mode [spec]
                               RECORDED_THRESHOLD_CALIBRATION)) upd).
  { unfold upd, _update_processor_mode.
    match goal with
    | |- In _ (map ?f specs) => exact (in_map f specs spec Hin)
    end. }
  destruct (In_combine_seq upd 0 _ Hin') as [k Hk].
  destruct (mapM_In _ _ _ H _ Hk) as [y Hy]. revert Hy.
  cbn [fst snd _update_processor_mode map hd].
  unfold add_context_to_one.
  cbn [ProcessorSpec.processor_config ProcessorConfig.measurement_type
       ProcessorConfig.processor_mode ProcessorMode_eqb].
  unfold is_close_range in Hclose. rewrite Hclose. cbn [andb].
  destruct (_close_range_calibrated (context d)) as [[|]|e];
    cbn [Py.bind negb]; [reflexivity | discriminate | discriminate].
Qed.

(** The two calibrations in order make the detector pass the checks of
    [start]: after a [calibrate_close_range] and then a
    [record_threshold] that both returned, on a configuration with a
    close-range measurement, the detector is calibrated and the session
    configuration matches the one used in both calibrations. *)
Theorem calibrations_in_order_pass_start_checks
    (d d1 d2 : Detector Aggregator) (w w1 w1' w2 : World) :
  calibrate_close_range env (d, w) = (Ok tt, (d1, w1)) ->
  record_threshold env (d1, w1') = (Ok tt, (d2, w2)) ->
  _has_close_range_measurement imports (detector_config d) = Ok true ->
  _ensure_detector_is_calibrated imports d2 = Ok tt
  /\ _ensure_matching_session_config imports d2 = Ok tt
  /\ session_config d2 = session_config d
  /\ processor_specs d2 = processor_specs d.
Proof.
  intros Hcal Hrec Hclose.
  pose proof (has_recorded_of_close _ Hclose) as Hrecorded.
  destruct (calibrate_close_range_inversion _ _ _ _ _ _ env d d1 w w1 Hcal)
    as (Hs & spec & ar & r & pjcr & Hfilter & _ & _ & Hpj & ->).
  destruct (record_threshold_inversion _ d2 w1' w2 Hrec)
    as (_ & _ & [specs' Hspecs] & _ & _ & _ & _ & _ & ths & _ & _ & ->).
  assert (Hin : In spec (processor_specs d) /\ is_close_range spec = true).
  { apply filter_In. rewrite Hfilter. left. reflexivity. }
  destruct Hin as [Hin Hspec].
  pose proof (recording_needs_close_range_calibration _ _ _ spec Hspecs Hin
                Hspec) as Hpair.
  assert (Hdl : exists dl, ProcessorResult.direct_leakage r = Some dl).
  { revert Hpair. unfold _close_range_calibrated.
    cbn [set_context context calibrated_context direct_leakage
         phase_jitter_comp_reference is_not_None].
    destruct (ProcessorResult.direct_leakage r) as [dl|];
      [exists dl; reflexivity | discriminate]. }
  destruct Hdl as [dl Hdl].
  unfold _ensure_detector_is_calibrated, _ensure_matching_session_config.
  cbn [set_context detector_config].
  rewrite Hclose, Hrecorded. cbn [Py.bind].
  unfold _close_range_calibrated, _recorded_threshold_calibrated.
  cbn [set_context context session_config processor_specs recorded_context
       calibrated_context direct_leakage phase_jitter_comp_reference
       recorded_thresholds recorded_threshold_session_config_used
       close_range_session_config_used].
  rewrite Hdl, !eq_optional_same. repeat split; reflexivity.
Qed.

(** *** What the methods leave alone *)

Lemma leaves_ret {A B} (f : Detector Aggregator -> B) (a : A) :
  leaves f (ret a : M World Aggregator A).
Proof. intros s. reflexivity. Qed.

Lemma leaves_raise {A B} (f : Detector Aggregator -> B) (e : exn) :
  leaves f (raise e : M World Aggregator A).
Proof. intros s. reflexivity. Qed.

Lemma leaves_lift {A B} (f : Detector Aggregator -> B) (r : result A) :
  leaves f (lift r : M World Aggregator A).
Proof. intros s. reflexivity. Qed.

Lemma leaves_self {B} (f : Detector Aggregator -> B) :
  leaves f (@self World Aggregator).
Proof. intros s. reflexivity. Qed.

Lemma leaves_external {A B} (f : Detector Aggregator -> B)
    (call : World -> reply A * World) :
  leaves f (external call : M World Aggregator A).
Proof.
  intros s. unfold external.
  destruct (call (snd s)) as [[a|code] w]; reflexivity.
Qed.

Lemma leaves_assign {B} (f : Detector Aggregator -> B)
    (g : Detector Aggregator -> Detector Aggregator) :
  (forall d, f (g d) = f d) ->
  leaves f (assign g : M World Aggregator unit).
Proof. intros Hg s. apply Hg. Qed.

Lemma leaves_assign_context {B} (f : Detector Aggregator -> B)
    (g : DetectorContext -> DetectorContext) :
  (forall c d, f (set_context c d) = f d) ->
  leaves f (assign_context g : M World Aggregator unit).
Proof. intros Hg s. apply Hg. Qed.

Lemma leaves_bind {A B C} (f : Detector Aggregator -> C)
    (m : M World Aggregator A) (k : A -> M World Aggregator B) :
  leaves f m -> (forall a, leaves f (k a)) -> leaves f (mbind m k).
Proof.
  intros Hm Hk s. unfold mbind. specialize (Hm s).
  destruct (m s) as [[a|e] s']; cbn [fst snd] in *.
  - rewrite Hk. exact Hm.
  - exact Hm.
Qed.

Ltac lv :=
  lazymatch goal with
  | |- leaves _ (mbind _ _) => apply leaves_bind; [lv | intros ?; lv]
  | |- leaves _ (ret _) => apply leaves_ret
  | |- leaves _ (raise _) => apply leaves_raise
  | |- leaves _ (lift _) => apply leaves_lift
  | |- leaves _ (@self _ _) => apply leaves_self
  | |- leaves _ (external _) => apply leaves_external
  | |- leaves _ (assign _) => apply leaves_assign; intros ?; reflexivity
  | |- leaves _ (assign_context _) =>
      apply leaves_assign_context; intros ? ?; reflexivity
  | |- leaves _ (if ?b then _ else _) => destruct b; lv
  | |- leaves _ (match ?x with _ => _ end) => destruct x; lv
  | |- _ => idtac
  end.

Lemma record_frames_leaves {B} (f : Detector Aggregator -> B) (n : nat)
    (aggregator : Aggregator)
    (r : option (AggregatorResult ExtendedResult)) :
  leaves f (record_frames env n aggregator r).
Proof.
  revert r. induction n as [|n IH]; intros r; cbn [record_frames]; lv.
  apply IH.
Qed.

Lemma append_thresholds_leaves {B} (f : Detector Aggregator -> B)
    (results : list ProcessorResult.t) :
  (forall c d, f (set_context c d) = f d) ->
  leaves f (append_thresholds results : M World Aggregator unit).
Proof.
  intros Hf. induction results as [|r results IH];
    cbn [append_thresholds]; [apply leaves_ret|].
  destruct (ProcessorResult.recorded_threshold r); [|apply leaves_raise].
  apply leaves_bind; [apply leaves_assign_context; exact Hf|].
  intros _. exact IH.
Qed.

Lemma calibrate_close_range_leaves :
  leaves outside_context (calibrate_close_range env).
Proof. unfold calibrate_close_range. lv. Qed.

Lemma record_threshold_leaves :
  leaves outside_context (record_threshold env).
Proof.
  unfold record_threshold. lv.
  - apply record_frames_leaves.
  - apply append_thresholds_leaves. intros c d. reflexivity.
Qed.

Lemma get_next_leaves : leaves (fun d => d) (get_next env).
Proof. unfold get_next. lv. Qed.

(** Each method changes only its own part of the detector, whatever its
    outcome: the two calibrations touch nothing but the context,
    [get_next] nothing at all, [stop] nothing but [started], [start]
    nothing but [aggregator] and [started], and [update_config] nothing
    but the session configuration and the processor specifications; it
    leaves [detector_config], which the checks of [start] read, as it
    was. *)
Theorem methods_leave_the_rest :
  leaves outside_context (calibrate_close_range env)
  /\ leaves outside_context (record_threshold env)
  /\ leaves (fun d => d) (get_next env)
  /\ leaves
       (fun d => (sensor_id d, detector_config d, context d, aggregator d,
                  session_config d, processor_specs d))
       (stop env)
  /\ (forall recorder,
        leaves
          (fun d => (sensor_id d, detector_config d, context d,
                     session_config d, processor_specs d))
          (start imports env recorder))
  /\ (forall config,
        leaves
          (fun d => (sensor_id d, detector_config d, started d, context d,
                     aggregator d))
          (update_config imports config : M World Aggregator unit)).
Proof.
  split; [exact calibrate_close_range_leaves|].
  split; [exact record_threshold_leaves|].
  split; [exact get_next_leaves|].
  split; [unfold stop; lv|].
  split; [intros recorder; unfold start; lv|].
  intros config. unfold update_config. lv.
Qed.

Lemma start_run_cases (recorder : option Recorder) (d : Detector Aggregator)
    (w : World) :
  (started (fst (snd (start imports env recorder (d, w)))) = started d
   /\ aggregator (fst (snd (start imports env recorder (d, w))))
      = aggregator d)
  \/ exists agg,
       aggregator (fst (snd (start imports env recorder (d, w))))
       = Some agg.
Proof.
  unfold start, mbind, self, lift, external, assign, raise, ret.
  cbn [fst snd].
  destruct (started d) eqn:Hs; [left; split; [exact Hs | reflexivity]|].
  destruct (_ensure_detector_is_calibrated imports d); cbn [fst snd];
    [|left; split; [exact Hs | reflexivity]].
  destruct (_ensure_matching_session_config imports d); cbn [fst snd];
    [|left; split; [exact Hs | reflexivity]].
  destruct (_add_context_to_processor_spec d (processor_specs d));
    cbn [fst snd]; [|left; split; [exact Hs | reflexivity]].
  destruct (client_setup_session env (session_config d) w) as [[md|c] w1];
    cbn [fst snd]; [|left; split; [exact Hs | reflexivity]].
  destruct (Aggregator_new env (session_config d) md _ _ w1)
    as [[agg|c] w2]; cbn [fst snd]; [|left; split; [exact Hs | reflexivity]].
  right. exists agg.
  destruct recorder as [rec|]; cbn [fst snd].
  - destruct (is_H5Recorder env rec); cbn [fst snd].
    + destruct (record_algo_data env rec _ _ _ w2) as [[[]|c] w3];
        cbn [fst snd]; [|reflexivity].
      destruct (client_start_session env (Some rec) w3) as [[[]|c] w4];
        reflexivity.
    + destruct (client_start_session env (Some rec) w2) as [[[]|c] w4];
        reflexivity.
  - destruct (client_start_session env None w2) as [[[]|c] w4];
      reflexivity.
Qed.

(** A started detector always has its aggregator.  [__init__] builds a
    detector for which this holds, every method keeps it whatever its
    outcome, and with it [get_next] never fails its assertion on the
    aggregator. *)
Theorem aggregator_ready_invariant (d : Detector Aggregator) (w : World) :
  aggregator_ready d ->
  aggregator_ready (fst (snd (calibrate_close_range env (d, w))))
  /\ aggregator_ready (fst (snd (record_threshold env (d, w))))
  /\ (forall recorder,
        aggregator_ready (fst (snd (start imports env recorder (d, w)))))
  /\ aggregator_ready (fst (snd (get_next env (d, w))))
  /\ aggregator_ready (fst (snd (stop env (d, w))))
  /\ (forall config,
        aggregator_ready (fst (snd (update_config imports config (d, w)))))
  /\ fst (get_next env (d, w)) <> Raise AssertionError
  /\ (forall sensor_id config context d0,
        __init__ imports Aggregator sensor_id config context = Ok d0 ->
        aggregator_ready d0).
Proof.
  intros Hready.
  assert (Hsame : forall d' : Detector Aggregator,
            started d' = started d -> aggregator d' = aggregator d ->
            aggregator_ready d').
  { intros d' Hs Ha Hstarted. rewrite Ha. apply Hready. congruence. }
  split.
  { pose proof (calibrate_close_range_leaves (d, w)) as H.
    unfold outside_context in H. cbn [fst] in H.
    injection H as _ _ Hs Ha _ _. apply Hsame; assumption. }
  split.
  { pose proof (record_threshold_leaves (d, w)) as H.
    unfold outside_context in H. cbn [fst] in H.
    injection H as _ _ Hs Ha _ _. apply Hsame; assumption. }
  split.
  { intros recorder.
    destruct (start_run_cases recorder d w) as [[Hs Ha]|[agg Ha]].
    - apply Hsame; assumption.
    - intros _. rewrite Ha. discriminate. }
  split.
  { pose proof (get_next_leaves (d, w)) as H. cbn [fst] in H.
    rewrite H. exact Hready. }
  split.
  { unfold stop, mbind, self, raise, external, assign, ret. cbn [fst snd].
    destruct (started d) eqn:Hs; cbn [negb fst snd].
    - destruct (client_stop_session env w) as [[r|c] w1]; cbn [fst snd].
      + intros H. discriminate H.
      + exact Hready.
    - exact Hready. }
  split.
  { intros config.
    unfold update_config, mbind, self, lift, assign. cbn [fst snd].
    destruct (_detector_to_session_config_and_processor_specs imports
                config (sensor_id d)); cbn [fst snd]; exact Hready. }
  split.
  { unfold get_next, mbind, self, raise, external, ret. cbn [fst snd].
    destruct (started d) eqn:Hs; cbn [negb fst snd]; [|discriminate].
    destruct (aggregator d) as [agg|] eqn:Ha;
      [|exfalso; exact (Hready Hs Ha)].
    cbn [fst snd].
    destruct (client_get_next env w) as [[er|c] w1]; cbn [fst snd];
      [|discriminate].
    destruct (Aggregator_process env agg er w1) as [[ar|c] w2];
      cbn [fst snd]; discriminate. }
  intros sid config ctx d0. unfold __init__.
  destruct (_detector_to_session_config_and_processor_specs imports config
              sid); cbn [Py.bind]; [|discriminate].
  intros [= <-]. intros H. discriminate H.
Qed.

End Recording.

Lemma record_threshold_effect_witness :
  Detector.record_threshold answering (calibrated_detector, O)
  = (Ok tt,
     (Detector.set_context (recorded_context calibrated_detector [[1%Q]])
        calibrated_detector, 20%nat))
  /\ Detector.started calibrated_detector = false
  /\ 1 <= Detector.num_frames_in_recorded_threshold
            (Detector.detector_config calibrated_detector)
  /\ exists thresholds,
       map ProcessorResult.recorded_threshold
         (Detector.processor_results answering_result) = map Some thresholds.
Proof.
  assert (E : Detector.record_threshold answering (calibrated_detector, O)
              = (Ok tt,
                 (Detector.set_context
                    (recorded_context calibrated_detector [[1%Q]])
                    calibrated_detector, 20%nat))) by reflexivity.
  split; [exact E|].
  destruct (record_threshold_effect nat unit unit unit unit unit answering
              calibrated_detector _ O _ E)
    as (Hs & Hn & agg & er & wa & wb & ar & ths & Hp & Hths & _).
  split; [exact Hs|]. split; [exact Hn|].
  exists ths. injection Hp as <- _. exact Hths.
Defined.

Lemma record_threshold_no_frames_witness :
  Detector.record_threshold answering (no_frames_detector, O)
  = (Raise AssertionError, (no_frames_detector, O)).
Proof.
  apply (record_threshold_no_frames nat unit unit unit unit unit answering
           no_frames_detector O
           [ Detector.with_context
               (Detector.mk_spec
                  {| ProcessorConfig.processor_mode :=
                       RECORDED_THRESHOLD_CALIBRATION;
                     ProcessorConfig.threshold_method := RECORDED;
                     ProcessorConfig.measurement_type := CLOSE_RANGE;
                     ProcessorConfig.fixed_threshold_value := 100.0;
                     ProcessorConfig.threshold_sensitivity := 0.5;
                     ProcessorConfig.cfar_one_sided := false |}
                  0 1 [0; 1])
               (Detector.mk_context None (Some [(1%Q, 0%Q)]) (Some [0%Q])) ]
           tt O tt O O tt O);
    reflexivity.
Defined.

Lemma record_threshold_needs_close_range_calibration_witness :
  Detector.record_threshold answering (idle_detector, O)
  = (Raise (Exception "Close range calibration not performed"),
     (idle_detector, O)).
Proof.
  apply (record_threshold_needs_close_range_calibration nat unit unit unit
           unit unit answering idle_detector O
           (Detector.mk_spec
              (Detector.close_range_processor_config width_imports)
              0 1 [0; 1]) []);
    reflexivity.
Defined.

(** The scenario detector through its calibrations, with collaborators
    that answer. *)
Lemma scenario_detector_conversion :
  Detector._detector_to_session_config_and_processor_specs width_imports
    (Detector.detector_config scenario_detector) 1
  = Ok (Detector.session_config scenario_detector,
        Detector.processor_specs scenario_detector).
Proof. reflexivity. Qed.

Lemma scenario_detector_status :
  Detector.get_detector_status width_imports
    (Detector.detector_config scenario_detector)
    (Detector.context scenario_detector)
  = Ok (Detector.mk_status Detector.CLOSE_RANGE_CALIBRATION_MISSING
          true false).
Proof. vm_compute. reflexivity. Qed.

Lemma scenario_detector_has_close :
  Detector._has_close_range_measurement width_imports
    (Detector.detector_config scenario_detector) = Ok true.
Proof. vm_compute. reflexivity. Qed.

Lemma scenario_detector_calibrates :
  Detector.calibrate_close_range answering (scenario_detector, O)
  = (Ok tt,
     (Detector.set_context
        (calibrated_context scenario_detector
           {| ProcessorResult.recorded_threshold := Some [1%Q];
              ProcessorResult.direct_leakage := Some [(1%Q, 0%Q)];
              ProcessorResult.phase_jitter_comp_reference := Some [0%Q] |}
           [0%Q])
        scenario_detector, 1%nat)).
Proof. reflexivity. Qed.

Lemma scenario_detector_records :
  Detector.record_threshold answering
    (Detector.set_context
       (calibrated_context scenario_detector
          {| ProcessorResult.recorded_threshold := Some [1%Q];
             ProcessorResult.direct_leakage := Some [(1%Q, 0%Q)];
             ProcessorResult.phase_jitter_comp_reference := Some [0%Q] |}
          [0%Q])
       scenario_detector, 1%nat)
  = (Ok tt,
     (Detector.set_context
        (recorded_context
           (Detector.set_context
              (calibrated_context scenario_detector
                 {| ProcessorResult.recorded_threshold := Some [1%Q];
                    ProcessorResult.direct_leakage := Some [(1%Q, 0%Q)];
                    ProcessorResult.phase_jitter_comp_reference :=
                      Some [0%Q] |}
                 [0%Q])
              scenario_detector)
           [[1%Q]])
        (Detector.set_context
           (calibrated_context scenario_detector
              {| ProcessorResult.recorded_threshold := Some [1%Q];
                 ProcessorResult.direct_leakage := Some [(1%Q, 0%Q)];
                 ProcessorResult.phase_jitter_comp_reference := Some [0%Q] |}
              [0%Q])
           scenario_detector), 21%nat)).
Proof. reflexivity. Qed.

Lemma ready_to_start_iff_start_checks_pass_witness :
  Detector._detector_to_session_config_and_processor_specs width_imports
    (Detector.detector_config scenario_detector) 1
  = Ok (Detector.session_config scenario_detector,
        Detector.processor_specs scenario_detector)
  /\ Detector.get_detector_status width_imports
       (Detector.detector_config scenario_detector)
       (Detector.context scenario_detector)
     = Ok (Detector.mk_status Detector.CLOSE_RANGE_CALIBRATION_MISSING
             true false)
  /\ (Detector.ready_to_start
        (Detector.mk_status Detector.CLOSE_RANGE_CALIBRATION_MISSING
           true false) = true
      <-> Detector._ensure_detector_is_calibrated width_imports
            scenario_detector = Ok tt
          /\ Detector._ensure_matching_session_config width_imports
               scenario_detector = Ok tt).
Proof.
  split; [exact scenario_detector_conversion|].
  split; [exact scenario_detector_status|].
  exact (ready_to_start_iff_start_checks_pass unit width_imports
           scenario_detector _ _ scenario_detector_conversion
           scenario_detector_status).
Defined.

Lemma start_after_calibrate_close_range_alone_witness :
  exists d',
    Detector.calibrate_close_range answering (scenario_detector, O)
    = (Ok tt, (d', 1%nat))
    /\ Detector._has_close_range_measurement width_imports
         (Detector.detector_config scenario_detector) = Ok true
    /\ Detector.start width_imports answering None (d', 1%nat)
       = (Raise (ValueError "Detector not calibrated."), (d', 1%nat)).
Proof.
  eexists. split; [exact scenario_detector_calibrates|].
  split; [exact scenario_detector_has_close|].
  exact (start_after_calibrate_close_range_alone nat unit unit unit unit unit
           answering width_imports scenario_detector _ O 1%nat 1%nat None
           scenario_detector_calibrates scenario_detector_has_close).
Defined.

Lemma calibrations_in_order_pass_start_checks_witness :
  exists d1 d2,
    Detector.calibrate_close_range answering (scenario_detector, O)
    = (Ok tt, (d1, 1%nat))
    /\ Detector.record_threshold answering (d1, 1%nat)
       = (Ok tt, (d2, 21%nat))
    /\ Detector._has_close_range_measurement width_imports
         (Detector.detector_config scenario_detector) = Ok true
    /\ Detector._ensure_detector_is_calibrated width_imports d2 = Ok tt
    /\ Detector._ensure_matching_session_config width_imports d2 = Ok tt.
Proof.
  eexists. eexists. split; [exact scenario_detector_calibrates|].
  split; [exact scenario_detector_records|].
  split; [exact scenario_detector_has_close|].
  destruct (calibrations_in_order_pass_start_checks nat unit unit unit unit
              unit answering width_imports scenario_detector _ _ O 1%nat
              1%nat 21%nat scenario_detector_calibrates
              scenario_detector_records scenario_detector_has_close)
    as (H1 & H2 & _).
  split; [exact H1 | exact H2].
Defined.

Lemma aggregator_ready_invariant_witness :
  aggregator_ready running_detector
  /\ fst (Detector.get_next answering (running_detector, O))
     <> Raise AssertionError.
Proof.
  assert (H : aggregator_ready running_detector)
    by (intros _; discriminate).
  split; [exact H|].
  exact (proj1 (proj2 (proj2 (proj2 (proj2 (proj2 (proj2
           (aggregator_ready_invariant nat unit unit unit unit unit
              answering width_imports running_detector O H)))))))).
Defined.
